(** * App Store Connect adapter: request and report-retrieval pipeline

    A shallow embedding of the authenticated request pipeline of the
    App Store Connect MCP server:

    - [src/services/appstore-client.ts]  (client variant that stages gzip
      payloads through temporary files),
    - the second client variant with [downloadReport] (in-memory gunzip),
    - [src/handlers/analytics.ts]        (report-date validation),
    - [src/index.ts]                     ([formatToolResponse]).

    JavaScript strings are sequences of UTF-16 code units, buffers are
    sequences of bytes, the temporary-storage namespace is a finite map from
    paths to buffers, and every effectful function is a state-and-exception
    computation over a [World] that holds the files and the log of token
    generations and HTTP calls.

    What the code takes from outside is a parameter: the token provider,
    the remote service, the clock and the faults of the file system make an
    [Env]; [gunzipSync], [JSON.parse] and the other library functions make
    a [Runtime]; the helpers of [utils/index.js] are arguments of the
    handlers. The general statements hold for every such parameter. The
    examples run on [Node.runtime], built from a gzip decoder and a JSON
    reader written out below, and on the environments of [Scenario].

    The definitions come first, the properties after them. *)

From Stdlib Require Import ZArith NArith List String Ascii Bool Lia DecimalString.
From Stdlib Require Import DecimalN DecimalPos.
From Stdlib.Strings Require Import Byte.
From stdpp Require Import base option list gmap.

Import ListNotations.
Open Scope N_scope.
Open Scope list_scope.
Set Warnings "-register-all".

(** ** JavaScript strings *)

(** A JavaScript string is a sequence of UTF-16 code units. *)
Abbreviation JsString := (list N).

Module Js.

(** String literals of the program text, written as Rocq strings. *)
Definition lit (s : string) : JsString :=
  map (fun c => N_of_ascii c) (list_ascii_of_string s).

(** [String.prototype.startsWith]. *)
Fixpoint startsWith (s prefix : JsString) : bool :=
  match prefix, s with
  | [], _ => true
  | _ :: _, [] => false
  | p :: prefix', c :: s' => (c =? p) && startsWith s' prefix'
  end.

(** [String.prototype.includes]: some suffix of [s] starts with [needle]. *)
Fixpoint includes (s needle : JsString) : bool :=
  startsWith s needle ||
  match s with
  | [] => false
  | _ :: s' => includes s' needle
  end.

(** WhiteSpace and LineTerminator code units of ECMAScript, the ones
    [String.prototype.trim] strips. *)
Definition isTrimmable (c : N) : bool :=
  (c =? 0x09) || (c =? 0x0A) || (c =? 0x0B) || (c =? 0x0C) || (c =? 0x0D) ||
  (c =? 0x20) || (c =? 0xA0) || (c =? 0x1680) ||
  ((0x2000 <=? c) && (c <=? 0x200A)) ||
  (c =? 0x2028) || (c =? 0x2029) || (c =? 0x202F) || (c =? 0x205F) ||
  (c =? 0x3000) || (c =? 0xFEFF).

Fixpoint trimStart (s : JsString) : JsString :=
  match s with
  | [] => []
  | c :: s' => if isTrimmable c then trimStart s' else s
  end.

Definition trimEnd (s : JsString) : JsString := rev (trimStart (rev s)).

(** [String.prototype.trim]. *)
Definition trim (s : JsString) : JsString := trimEnd (trimStart s).

(** [!s] on a string: only the empty string is falsy. *)
Definition isEmpty (s : JsString) : bool :=
  match s with [] => true | _ => false end.

(** Decimal rendering of a non-negative integer, as template literals do. *)
Definition ofN (n : N) : JsString :=
  lit (NilZero.string_of_uint (N.to_uint n)).

Definition ofZ (z : Z) : JsString :=
  lit (NilZero.string_of_int (Z.to_int z)).

End Js.

(** [js "text"] is the JavaScript string of a literal of the program. *)
Abbreviation js := Js.lit.

Arguments Js.lit : simpl never.
Arguments Js.ofN : simpl never.
Arguments Js.ofZ : simpl never.

(** ** Buffers and UTF-8 decoding *)

Abbreviation Buffer := (list byte).

Module Buf.

Definition ofN (n : N) : byte :=
  match Byte.of_N n with Some b => b | None => x00 end.

Definition ofNs (ns : list N) : Buffer := map ofN ns.

(** [buffer[i] === n]; an index out of range reads [undefined]. *)
Definition at_is (buffer : Buffer) (i : nat) (n : N) : bool :=
  match buffer !! i with
  | Some b => Byte.to_N b =? n
  | None => false
  end.

(** State of the UTF-8 decoder between two bytes: the code point under
    construction, the continuation bytes still needed, and the bounds the
    next continuation byte must respect. *)
Record pending := {
  p_cp : N;
  p_needed : nat;
  p_lower : N;
  p_upper : N
}.

(** One byte met with no sequence pending: either a code point is emitted
    or a multi-byte sequence starts. *)
Definition lead (b : N) : N + pending :=
  if b <=? 0x7F then inl b
  else if (0xC2 <=? b) && (b <=? 0xDF) then
    inr {| p_cp := N.land b 0x1F; p_needed := 1; p_lower := 0x80; p_upper := 0xBF |}
  else if (0xE0 <=? b) && (b <=? 0xEF) then
    inr {| p_cp := N.land b 0xF; p_needed := 2;
           p_lower := if b =? 0xE0 then 0xA0 else 0x80;
           p_upper := if b =? 0xED then 0x9F else 0xBF |}
  else if (0xF0 <=? b) && (b <=? 0xF4) then
    inr {| p_cp := N.land b 0x7; p_needed := 3;
           p_lower := if b =? 0xF0 then 0x90 else 0x80;
           p_upper := if b =? 0xF4 then 0x8F else 0xBF |}
  else inl 0xFFFD.

(** The decoder with replacement: an ill-formed sequence yields U+FFFD and
    the offending byte is decoded again from the initial state. *)
Fixpoint decode (st : option pending) (bs : Buffer) : list N :=
  match bs with
  | [] => match st with None => [] | Some _ => [0xFFFD] end
  | byte :: bs' =>
      let b := Byte.to_N byte in
      match st with
      | None =>
          match lead b with
          | inl cp => cp :: decode None bs'
          | inr p => decode (Some p) bs'
          end
      | Some p =>
          if (p_lower p <=? b) && (b <=? p_upper p) then
            let cp := N.lor (N.shiftl (p_cp p) 6) (N.land b 0x3F) in
            match p_needed p with
            | 1%nat | 0%nat => cp :: decode None bs'
            | S k => decode (Some {| p_cp := cp; p_needed := k;
                                     p_lower := 0x80; p_upper := 0xBF |}) bs'
            end
          else
            0xFFFD ::
            match lead b with
            | inl cp => cp :: decode None bs'
            | inr q => decode (Some q) bs'
            end
      end
  end.

(** UTF-16 code units of one code point. *)
Definition utf16 (cp : N) : list N :=
  if cp <? 0x10000 then [cp]
  else let v := cp - 0x10000 in [0xD800 + v / 0x400; 0xDC00 + v mod 0x400].

(** [buffer.toString('utf-8')]. *)
Definition toString (buffer : Buffer) : JsString :=
  flat_map utf16 (decode None buffer).

(** UTF-8 bytes of one code point. *)
Definition utf8 (cp : N) : list N :=
  if cp <? 0x80 then [cp]
  else if cp <? 0x800 then [0xC0 + cp / 64; 0x80 + cp mod 64]
  else if cp <? 0x10000 then
    [0xE0 + cp / 4096; 0x80 + cp / 64 mod 64; 0x80 + cp mod 64]
  else [0xF0 + cp / 262144; 0x80 + cp / 4096 mod 64;
        0x80 + cp / 64 mod 64; 0x80 + cp mod 64].

(** Code points of a string; a surrogate without its partner reads U+FFFD. *)
Fixpoint codePoints (s : JsString) : list N :=
  match s with
  | [] => []
  | c :: s1 =>
      if (0xD800 <=? c) && (c <=? 0xDBFF) then
        match s1 with
        | d :: s2 =>
            if (0xDC00 <=? d) && (d <=? 0xDFFF)
            then 0x10000 + (c - 0xD800) * 0x400 + (d - 0xDC00) :: codePoints s2
            else 0xFFFD :: codePoints s1
        | [] => [0xFFFD]
        end
      else if (0xDC00 <=? c) && (c <=? 0xDFFF) then 0xFFFD :: codePoints s1
      else c :: codePoints s1
  end.

(** [Buffer.from(text, 'utf-8')]. *)
Definition ofString (text : JsString) : Buffer :=
  ofNs (flat_map utf8 (codePoints text)).

(** The gzip magic number test of both clients:
    [buffer.length >= 2 && buffer[0] === 0x1f && buffer[1] === 0x8b]. *)
Definition isGzipped (buffer : Buffer) : bool :=
  (2 <=? length buffer)%nat && at_is buffer 0 0x1f && at_is buffer 1 0x8b.

End Buf.

(** ** A gzip decoder (RFC 1952 members holding RFC 1951 deflate streams) *)

Module Zlib.

Inductive result (A : Type) :=
| Ok (a : A)
| Fail (msg : string).
Arguments Ok {A} a.
Arguments Fail {A} msg.

Definition andThen {A B} (r : result A) (k : A -> result B) : result B :=
  match r with
  | Ok a => k a
  | Fail msg => Fail msg
  end.

Notation "'let?' x ':=' r 'in' k" := (andThen r (fun x => k))
  (at level 10, x pattern, r at level 100, k at level 200).

Definition truncated {A} : result A := Fail "unexpected end of file".

(** [crc = (crc >>> 1) ^ (0xEDB88320 & -(crc & 1))], eight times per byte. *)
Fixpoint crc_shift (n : nat) (crc : N) : N :=
  match n with
  | O => crc
  | S n' =>
      crc_shift n'
        (if N.testbit crc 0
         then N.lxor (N.shiftr crc 1) 0xEDB88320
         else N.shiftr crc 1)
  end.

Definition crc_update (crc : N) (bytes : Buffer) : N :=
  fold_left (fun c b => crc_shift 8 (N.lxor c (Byte.to_N b))) bytes crc.

Definition crc32 (bytes : Buffer) : N :=
  N.lxor (crc_update 0xFFFFFFFF bytes) 0xFFFFFFFF.

(** The input: the bits left of the byte being read, least significant
    first, and the bytes after it. *)
Record reader := {
  cur : list bool;
  rest : Buffer
}.

Definition bits_of_byte (b : byte) : list bool :=
  map (fun i => N.testbit (Byte.to_N b) (N.of_nat i)) (seq 0 8).

Definition read_bit (r : reader) : result (bool * reader) :=
  match cur r with
  | bit :: bits => Ok (bit, {| cur := bits; rest := rest r |})
  | [] =>
      match rest r with
      | [] => truncated
      | b :: bs =>
          match bits_of_byte b with
          | bit :: bits => Ok (bit, {| cur := bits; rest := bs |})
          | [] => truncated
          end
      end
  end.

(** [n] bits as a number, first bit least significant. *)
Fixpoint read_bits (n : nat) (r : reader) : result (N * reader) :=
  match n with
  | O => Ok (0, r)
  | S n' =>
      let? (bit, r1) := read_bit r in
      let? (v, r2) := read_bits n' r1 in
      Ok ((if bit : bool then 1 else 0) + 2 * v, r2)
  end.

Definition read_byte (bytes : Buffer) : result (N * Buffer) :=
  match bytes with
  | b :: bs => Ok (Byte.to_N b, bs)
  | [] => truncated
  end.

(** A little-endian number of [n] bytes. *)
Fixpoint read_le (n : nat) (bytes : Buffer) : result (N * Buffer) :=
  match n with
  | O => Ok (0, bytes)
  | S n' =>
      let? (b, bs) := read_byte bytes in
      let? (v, bs') := read_le n' bs in
      Ok (b + 256 * v, bs')
  end.

Definition read_block (n : nat) (bytes : Buffer) : result (Buffer * Buffer) :=
  if (n <=? length bytes)%nat then Ok (take n bytes, drop n bytes) else truncated.

(** A canonical Huffman code: how many codes each length 1..15 has, and the
    symbols ordered by code. *)
Record huffman := {
  counts : list N;
  symbols : list N
}.

Definition symbols_of_length (lengths : list nat) (len : nat) : list N :=
  map (fun '(i, _) => N.of_nat i)
      (filter (fun '(_, l) => l = len) (imap (fun i l => (i, l)) lengths)).

Definition build (lengths : list nat) : huffman :=
  {| counts := map (fun len => N.of_nat (length (symbols_of_length lengths len))) (seq 1 15);
     symbols := flat_map (symbols_of_length lengths) (seq 1 15) |}.

(** Read one symbol, a bit at a time, along the code lengths. *)
Fixpoint decode_from (cs : list N) (syms : list N) (code first index : N)
    (r : reader) : result (N * reader) :=
  match cs with
  | [] => Fail "invalid code"
  | count :: cs' =>
      let? (bit, r1) := read_bit r in
      let code := code + (if bit : bool then 1 else 0) in
      if code <? first + count then
        match syms !! N.to_nat (index + (code - first)) with
        | Some sym => Ok (sym, r1)
        | None => Fail "invalid code"
        end
      else decode_from cs' syms (2 * code) (2 * (first + count)) (index + count) r1
  end.

Definition decode_symbol (h : huffman) (r : reader) : result (N * reader) :=
  decode_from (counts h) (symbols h) 0 0 0 r.

Definition length_base : list (N * N) :=
  [(3,0); (4,0); (5,0); (6,0); (7,0); (8,0); (9,0); (10,0); (11,1); (13,1);
   (15,1); (17,1); (19,2); (23,2); (27,2); (31,2); (35,3); (43,3); (51,3);
   (59,3); (67,4); (83,4); (99,4); (115,4); (131,5); (163,5); (195,5);
   (227,5); (258,0)].

Definition distance_base : list (N * N) :=
  [(1,0); (2,0); (3,0); (4,0); (5,1); (7,1); (9,2); (13,2); (17,3); (25,3);
   (33,4); (49,4); (65,5); (97,5); (129,6); (193,6); (257,7); (385,7);
   (513,8); (769,8); (1025,9); (1537,9); (2049,10); (3073,10); (4097,11);
   (6145,11); (8193,12); (12289,12); (16385,13); (24577,13)].

(** A base value plus its extra bits. *)
Definition read_extra (table : list (N * N)) (i : N) (msg : string)
    (r : reader) : result (N * reader) :=
  match table !! N.to_nat i with
  | Some (base, extra) =>
      let? (v, r1) := read_bits (N.to_nat extra) r in
      Ok (base + v, r1)
  | None => Fail msg
  end.

(** Append [len] bytes found [dist] back in the output (held newest first). *)
Fixpoint copy_back (len : nat) (dist : nat) (out : Buffer) : result Buffer :=
  match len with
  | O => Ok out
  | S len' =>
      match out !! (dist - 1)%nat with
      | Some b => copy_back len' dist (b :: out)
      | None => Fail "invalid distance too far back"
      end
  end.

Definition fuel_of (r : reader) : nat := S (length (cur r) + 8 * length (rest r)).

(** The symbols of one compressed block, up to its end-of-block symbol. *)
Fixpoint codes (fuel : nat) (lencode distcode : huffman) (r : reader)
    (out : Buffer) : result (reader * Buffer) :=
  match fuel with
  | O => truncated
  | S fuel' =>
      let? (sym, r1) := decode_symbol lencode r in
      if sym <? 256 then
        codes fuel' lencode distcode r1 (default x00 (Byte.of_N sym) :: out)
      else if sym =? 256 then Ok (r1, out)
      else
        let? (len, r2) := read_extra length_base (sym - 257) "invalid literal/length code" r1 in
        let? (dsym, r3) := decode_symbol distcode r2 in
        let? (dist, r4) := read_extra distance_base dsym "invalid distance code" r3 in
        let? out' := copy_back (N.to_nat len) (N.to_nat dist) out in
        codes fuel' lencode distcode r4 out'
  end.

Definition fixed_lencode : huffman :=
  build (replicate 144 8 ++ replicate 112 9 ++ replicate 24 7 ++ replicate 8 8)%nat.

Definition fixed_distcode : huffman := build (replicate 30 5%nat).

(** The order in which a dynamic block stores its code-length code lengths. *)
Definition clen_order : list nat :=
  [16; 17; 18; 0; 8; 7; 9; 6; 10; 5; 11; 4; 12; 3; 13; 2; 14; 1; 15]%nat.

Fixpoint read_clens (n : nat) (r : reader) : result (list nat * reader) :=
  match n with
  | O => Ok ([], r)
  | S n' =>
      let? (v, r1) := read_bits 3 r in
      let? (vs, r2) := read_clens n' r1 in
      Ok (N.to_nat v :: vs, r2)
  end.

(** The code lengths of the literal/length and distance codes, run-length
    coded; [acc] holds them latest first. *)
Fixpoint read_lengths (fuel : nat) (h : huffman) (total : nat) (acc : list nat)
    (r : reader) : result (list nat * reader) :=
  if (total <=? length acc)%nat then
    if (length acc =? total)%nat then Ok (rev acc, r)
    else Fail "invalid bit length repeat"
  else
    match fuel with
    | O => truncated
    | S fuel' =>
        let? (sym, r1) := decode_symbol h r in
        if sym <? 16 then read_lengths fuel' h total (N.to_nat sym :: acc) r1
        else if sym =? 16 then
          match acc with
          | [] => Fail "invalid bit length repeat"
          | prev :: _ =>
              let? (n, r2) := read_bits 2 r1 in
              read_lengths fuel' h total (replicate (3 + N.to_nat n) prev ++ acc) r2
          end
        else if sym =? 17 then
          let? (n, r2) := read_bits 3 r1 in
          read_lengths fuel' h total (replicate (3 + N.to_nat n) 0%nat ++ acc) r2
        else
          let? (n, r2) := read_bits 7 r1 in
          read_lengths fuel' h total (replicate (11 + N.to_nat n) 0%nat ++ acc) r2
    end.

Definition dynamic_tables (r : reader) : result (huffman * huffman * reader) :=
  let? (hlit, r1) := read_bits 5 r in
  let? (hdist, r2) := read_bits 5 r1 in
  let? (hclen, r3) := read_bits 4 r2 in
  let nlen := (N.to_nat hlit + 257)%nat in
  let ndist := (N.to_nat hdist + 1)%nat in
  if (286 <? nlen)%nat || (30 <? ndist)%nat
  then Fail "too many length or distance symbols"
  else
    let? (clens, r4) := read_clens (N.to_nat hclen + 4) r3 in
    let by_symbol :=
      map (fun sym =>
             match list_find (fun s => s = sym) (take (length clens) clen_order) with
             | Some (i, _) => default 0%nat (clens !! i)
             | None => 0%nat
             end) (seq 0 19) in
    let? (lengths, r5) := read_lengths (fuel_of r4) (build by_symbol) (nlen + ndist) [] r4 in
    if (default 0 (lengths !! 256) =? 0)%nat
    then Fail "invalid code -- missing end-of-block"
    else Ok (build (take nlen lengths), build (drop nlen lengths), r5).

Definition stored (r : reader) (out : Buffer) : result (reader * Buffer) :=
  let? (len, bs1) := read_le 2 (rest r) in
  let? (nlen, bs2) := read_le 2 bs1 in
  if negb (len + nlen =? 0xFFFF) then Fail "invalid stored block lengths"
  else
    let? (data, bs3) := read_block (N.to_nat len) bs2 in
    Ok ({| cur := []; rest := bs3 |}, rev data ++ out).

(** The blocks of a deflate stream; the bytes after its last byte remain. *)
Fixpoint blocks (fuel : nat) (r : reader) (out : Buffer) : result (Buffer * Buffer) :=
  match fuel with
  | O => truncated
  | S fuel' =>
      let? (final, r1) := read_bit r in
      let? (btype, r2) := read_bits 2 r1 in
      let? (r3, out') :=
        (if btype =? 0 then stored r2 out
         else if btype =? 1 then codes (fuel_of r2) fixed_lencode fixed_distcode r2 out
         else if btype =? 2 then
           let? (lencode, distcode, r') := dynamic_tables r2 in
           codes (fuel_of r') lencode distcode r' out
         else Fail "invalid block type") in
      if final : bool then Ok (rev out', rest r3)
      else blocks fuel' r3 out'
  end.

Definition inflate (bytes : Buffer) : result (Buffer * Buffer) :=
  let r := {| cur := []; rest := bytes |} in
  blocks (fuel_of r) r [].

Fixpoint skip_zero_terminated (bytes : Buffer) : result Buffer :=
  match bytes with
  | [] => truncated
  | b :: bs => if Byte.to_N b =? 0 then Ok bs else skip_zero_terminated bs
  end.

Definition flagged (flg : N) (bit : N) : bool := N.testbit flg bit.

(** The header of a member: magic, method, flags, and the optional extra
    field, name, comment and header checksum. *)
Definition header (bytes : Buffer) : result Buffer :=
  let? (magic, bs1) := read_le 2 bytes in
  if negb (magic =? 0x8B1F) then Fail "incorrect header check" else
  let? (method_flags, bs3) := read_le 2 bs1 in
  let cm := method_flags mod 256 in
  let flg := method_flags / 256 in
  if negb (cm =? 8) then Fail "unknown compression method" else
  if negb (N.land flg 0xE0 =? 0) then Fail "unknown header flags set" else
  let? (_, bs4) := read_le 6 bs3 in
  let? bs5 :=
    (if flagged flg 2 then
       let? (xlen, bs) := read_le 2 bs4 in
       let? (_, bs') := read_block (N.to_nat xlen) bs in
       Ok bs'
     else Ok bs4) in
  let? bs6 := (if flagged flg 3 then skip_zero_terminated bs5 else Ok bs5) in
  let? bs7 := (if flagged flg 4 then skip_zero_terminated bs6 else Ok bs6) in
  if flagged flg 1 then
    let? (hcrc, bs8) := read_le 2 bs7 in
    let consumed := take (length bytes - length bs7) bytes in
    if hcrc =? N.land (crc32 consumed) 0xFFFF then Ok bs8
    else Fail "header crc mismatch"
  else Ok bs7.

(** One member: header, deflate stream, CRC-32 and length of the data. *)
Definition member (bytes : Buffer) : result (Buffer * Buffer) :=
  let? body := header bytes in
  let? (data, bs1) := inflate body in
  let? (crc, bs2) := read_le 4 bs1 in
  if negb (crc =? crc32 data) then Fail "incorrect data check" else
  let? (isize, bs3) := read_le 4 bs2 in
  if negb (isize =? N.of_nat (length data) mod 2 ^ 32) then Fail "incorrect length check"
  else Ok (data, bs3).

(** Members follow one another; bytes left after a member are read as the
    next member unless they start with a zero byte. *)
Fixpoint members (fuel : nat) (bytes : Buffer) : result Buffer :=
  match fuel with
  | O => truncated
  | S fuel' =>
      let? (data, bs) := member bytes in
      match bs with
      | [] => Ok data
      | b :: _ =>
          if Byte.to_N b =? 0 then Ok data
          else
            let? more := members fuel' bs in
            Ok (data ++ more)
      end
  end.

Definition gunzip (bytes : Buffer) : result Buffer :=
  members (S (length bytes)) bytes.

End Zlib.

(** ** JavaScript values *)

(** A decimal number literal [(-1)^neg * mant * 10^exp10], the exact value
    of a JSON number before it is rounded to a double. *)
Record JsNumber := {
  num_neg : bool;
  num_mant : N;
  num_exp10 : Z
}.

(** Values of the structured (JSON) world, with [undefined]. *)
Inductive JsVal :=
| JUndefined
| JNull
| JBool (b : bool)
| JNum (n : JsNumber)
| JStr (s : JsString)
| JArr (items : list JsVal)
| JObj (fields : list (JsString * JsVal)).

Module Val.

(** A decimal literal rounds to a non-zero double exactly when it lies
    strictly above half of the smallest subnormal, [2^-1075]. *)
Definition nonzero (n : JsNumber) : bool :=
  negb (num_mant n =? 0) &&
  ((0 <=? num_exp10 n)%Z ||
   (10 ^ Z.to_N (- num_exp10 n) <? num_mant n * 2 ^ 1075)).

(** ToBoolean. *)
Definition truthy (v : JsVal) : bool :=
  match v with
  | JUndefined | JNull => false
  | JBool b => b
  | JNum n => nonzero n
  | JStr s => negb (Js.isEmpty s)
  | JArr _ | JObj _ => true
  end.

(** [a || b]. *)
Definition or (a b : JsVal) : JsVal := if truthy a then a else b.

(** Own property of an object literal; of duplicate keys the last wins. *)
Fixpoint field (fields : list (JsString * JsVal)) (k : JsString) : JsVal :=
  match fields with
  | [] => JUndefined
  | (k', v) :: rest =>
      match field rest k with
      | JUndefined => if decide (k' = k) then v else JUndefined
      | later => later
      end
  end.

(** [v?.k] for a property name [k] that no prototype defines: [undefined]
    on [null], [undefined] and primitives. *)
Definition optGet (v : JsVal) (k : JsString) : JsVal :=
  match v with
  | JObj fields => field fields k
  | _ => JUndefined
  end.

(** [v.k]: as [optGet], except that reading a property of [null] or
    [undefined] throws a TypeError ([None]). *)
Definition get (v : JsVal) (k : JsString) : option JsVal :=
  match v with
  | JUndefined | JNull => None
  | _ => Some (optGet v k)
  end.

(** [v?.[0]]. *)
Definition optFirst (v : JsVal) : JsVal :=
  match v with
  | JArr (x :: _) => x
  | JStr (c :: _) => JStr [c]
  | JObj fields => field fields (js "0")
  | _ => JUndefined
  end.

(** [typeof v]. *)
Definition typeof (v : JsVal) : JsString :=
  match v with
  | JUndefined => js "undefined"
  | JNull | JArr _ | JObj _ => js "object"
  | JBool _ => js "boolean"
  | JNum _ => js "number"
  | JStr _ => js "string"
  end.

End Val.

(** ** A JSON reader and writer (ECMA-404) *)

Module Json.

Definition isWhitespace (c : N) : bool :=
  (c =? 0x20) || (c =? 0x09) || (c =? 0x0A) || (c =? 0x0D).

Fixpoint skip_ws (s : JsString) : JsString :=
  match s with
  | c :: s' => if isWhitespace c then skip_ws s' else s
  | [] => []
  end.

Definition hex_digit (c : N) : option N :=
  if (0x30 <=? c) && (c <=? 0x39) then Some (c - 0x30)
  else if (0x41 <=? c) && (c <=? 0x46) then Some (c - 0x41 + 10)
  else if (0x61 <=? c) && (c <=? 0x66) then Some (c - 0x61 + 10)
  else None.

Definition escape (c : N) : option N :=
  if c =? 0x22 then Some 0x22
  else if c =? 0x5C then Some 0x5C
  else if c =? 0x2F then Some 0x2F
  else if c =? 0x62 then Some 0x08
  else if c =? 0x66 then Some 0x0C
  else if c =? 0x6E then Some 0x0A
  else if c =? 0x72 then Some 0x0D
  else if c =? 0x74 then Some 0x09
  else None.

(** The characters of a string after its opening quote; [acc] holds the
    decoded ones, latest first. *)
Fixpoint string_body (s : JsString) (acc : JsString) : option (JsString * JsString) :=
  match s with
  | [] => None
  | c :: s1 =>
      if c =? 0x22 then Some (rev acc, s1)
      else if c <? 0x20 then None
      else if c =? 0x5C then
        match s1 with
        | e :: s2 =>
            if e =? 0x75 then
              match s2 with
              | h1 :: h2 :: h3 :: h4 :: s3 =>
                  match hex_digit h1, hex_digit h2, hex_digit h3, hex_digit h4 with
                  | Some a, Some b, Some c', Some d =>
                      string_body s3 (((a * 16 + b) * 16 + c') * 16 + d :: acc)
                  | _, _, _, _ => None
                  end
              | _ => None
              end
            else
              match escape e with
              | Some d => string_body s2 (d :: acc)
              | None => None
              end
        | [] => None
        end
      else string_body s1 (c :: acc)
  end.

Definition isDigit (c : N) : bool := (0x30 <=? c) && (c <=? 0x39).

(** A run of digits: its value, its length, and what follows. *)
Fixpoint digits (s : JsString) (value : N) (count : nat) : N * nat * JsString :=
  match s with
  | c :: s' =>
      if isDigit c then digits s' (value * 10 + (c - 0x30)) (S count)
      else (value, count, s)
  | [] => (value, count, [])
  end.

Definition fraction (s : JsString) (int : N) : option (N * nat * JsString) :=
  match s with
  | 0x2E :: s1 =>
      match digits s1 int 0 with
      | (_, O, _) => None
      | (mant, count, s2) => Some (mant, count, s2)
      end
  | _ => Some (int, O, s)
  end.

Definition exponent (s : JsString) : option (Z * JsString) :=
  match s with
  | c :: s1 =>
      if (c =? 0x65) || (c =? 0x45) then
        let '(negative, s2) :=
          match s1 with
          | 0x2D :: s2 => (true, s2)
          | 0x2B :: s2 => (false, s2)
          | _ => (false, s1)
          end in
        match digits s2 0 0 with
        | (_, O, _) => None
        | (e, _, s3) => Some (if negative then (- Z.of_N e)%Z else Z.of_N e, s3)
        end
      else Some (0%Z, s)
  | [] => Some (0%Z, [])
  end.

(** A number: an optional minus sign, an integer part without leading
    zero, an optional fraction, an optional exponent. *)
Definition number (s : JsString) : option (JsNumber * JsString) :=
  let '(negative, s1) :=
    match s with
    | 0x2D :: s1 => (true, s1)
    | _ => (false, s)
    end in
  match s1 with
  | d :: s2 =>
      if isDigit d then
        let '(int, _, s3) := if d =? 0x30 then (0, 1%nat, s2) else digits s1 0 0 in
        '(mant, places, s4) ← fraction s3 int;
        '(e, s5) ← exponent s4;
        Some ({| num_neg := negative; num_mant := mant;
                 num_exp10 := (e - Z.of_nat places)%Z |}, s5)
      else None
  | [] => None
  end.

Definition keyword (word : string) (v : JsVal) (s : JsString) : option (JsVal * JsString) :=
  if Js.startsWith s (js word) then Some (v, drop (String.length word) s) else None.

Section Composite.
Variable value : JsString -> option (JsVal * JsString).

(** The elements of an array after the first, up to the closing bracket. *)
Fixpoint elements (fuel : nat) (s : JsString) (acc : list JsVal) : option (JsVal * JsString) :=
  match fuel with
  | O => None
  | S fuel' =>
      match skip_ws s with
      | 0x5D :: s1 => Some (JArr (rev acc), s1)
      | 0x2C :: s1 =>
          '(v, s2) ← value s1;
          elements fuel' s2 (v :: acc)
      | _ => None
      end
  end.

Definition member (s : JsString) : option (JsString * JsVal * JsString) :=
  match skip_ws s with
  | 0x22 :: s1 =>
      '(key, s2) ← string_body s1 [];
      match skip_ws s2 with
      | 0x3A :: s3 =>
          '(v, s4) ← value s3;
          Some (key, v, s4)
      | _ => None
      end
  | _ => None
  end.

(** The members of an object after the first, up to the closing brace. *)
Fixpoint members (fuel : nat) (s : JsString) (acc : list (JsString * JsVal)) : option (JsVal * JsString) :=
  match fuel with
  | O => None
  | S fuel' =>
      match skip_ws s with
      | 0x7D :: s1 => Some (JObj (rev acc), s1)
      | 0x2C :: s1 =>
          '(key, v, s2) ← member s1;
          members fuel' s2 ((key, v) :: acc)
      | _ => None
      end
  end.

End Composite.

(** One value, with the whitespace before it. *)
Fixpoint value (fuel : nat) (s : JsString) : option (JsVal * JsString) :=
  match fuel with
  | O => None
  | S fuel' =>
      match skip_ws s with
      | [] => None
      | c :: s1 =>
          if c =? 0x7B then
            match skip_ws s1 with
            | 0x7D :: s2 => Some (JObj [], s2)
            | _ =>
                '(key, v, s2) ← member (value fuel') s1;
                members (value fuel') (length s2) s2 [(key, v)]
            end
          else if c =? 0x5B then
            match skip_ws s1 with
            | 0x5D :: s2 => Some (JArr [], s2)
            | _ =>
                '(v, s2) ← value fuel' s1;
                elements (value fuel') (length s2) s2 [v]
            end
          else if c =? 0x22 then
            '(str, s2) ← string_body s1 [];
            Some (JStr str, s2)
          else if c =? 0x74 then keyword "true" (JBool true) (c :: s1)
          else if c =? 0x66 then keyword "false" (JBool false) (c :: s1)
          else if c =? 0x6E then keyword "null" JNull (c :: s1)
          else
            '(n, s2) ← number (c :: s1);
            Some (JNum n, s2)
      end
  end.

(** The whole text is one value between optional whitespace. *)
Definition parse (text : JsString) : option JsVal :=
  match value (S (length text)) text with
  | Some (v, s) => match skip_ws s with [] => Some v | _ => None end
  | None => None
  end.

(** Writing: [JSON.stringify] on values read by [parse]. Members are
    written in the order of the text, a repeated key once, at its first
    position and with its last value; a number is printed from its decimal
    literal. (An engine also moves integer-like keys to the front and
    rounds numbers to double precision.) *)

Definition hex_char (n : N) : N := if n <? 10 then 0x30 + n else 0x61 + (n - 10).

Definition unicode_escape (c : N) : JsString :=
  [0x5C; 0x75; hex_char (c / 4096 mod 16); hex_char (c / 256 mod 16);
   hex_char (c / 16 mod 16); hex_char (c mod 16)].

Definition isHighSurrogate (c : N) : bool := (0xD800 <=? c) && (c <=? 0xDBFF).
Definition isLowSurrogate (c : N) : bool := (0xDC00 <=? c) && (c <=? 0xDFFF).

Fixpoint quote_body (s : JsString) : JsString :=
  match s with
  | [] => []
  | c :: s1 =>
      if isHighSurrogate c then
        match s1 with
        | d :: s2 =>
            if isLowSurrogate d then c :: d :: quote_body s2
            else unicode_escape c ++ quote_body s1
        | [] => unicode_escape c
        end
      else
        (if c =? 0x22 then [0x5C; 0x22]
         else if c =? 0x5C then [0x5C; 0x5C]
         else if c =? 0x08 then [0x5C; 0x62]
         else if c =? 0x0C then [0x5C; 0x66]
         else if c =? 0x0A then [0x5C; 0x6E]
         else if c =? 0x0D then [0x5C; 0x72]
         else if c =? 0x09 then [0x5C; 0x74]
         else if (c <? 0x20) || isLowSurrogate c then unicode_escape c
         else [c]) ++ quote_body s1
  end.

Definition quote (s : JsString) : JsString := [0x22] ++ quote_body s ++ [0x22].

(** A number literal denotes the double nearest to it, ties to even, and
    is printed as the shortest decimal that denotes the same double. *)
Module Double.

Inductive t :=
| Zero
| Finite (m : N) (e : Z)
| Infinity.

Definition same (a b : t) : bool :=
  match a, b with
  | Zero, Zero | Infinity, Infinity => true
  | Finite m e, Finite m' e' => (m =? m') && (e =? e')%Z
  | _, _ => false
  end.

(** A positive rational [r.1 / r.2], times [base ^ k]. *)
Definition times_pow (base : N) (k : Z) (r : N * N) : N * N :=
  if (0 <=? k)%Z then (r.1 * base ^ Z.to_N k, r.2)
  else (r.1, r.2 * base ^ Z.to_N (- k)).

(** [base ^ k <= r]. *)
Definition reaches (base : N) (k : Z) (r : N * N) : bool :=
  let '(num, den) := times_pow base (- k) r in den <=? num.

(** The [l] with [2 ^ l <= r < 2 ^ (l + 1)]. *)
Definition floor_log2 (r : N * N) : Z :=
  let l := (Z.of_N (N.log2 r.1) - Z.of_N (N.log2 r.2))%Z in
  if reaches 2 l r then l else (l - 1)%Z.

(** The [n] with [10 ^ (n - 1) <= r < 10 ^ n]. *)
Definition size10 (r : N * N) : Z :=
  let guess := ((floor_log2 r + 1) * 30103 / 100000)%Z in
  if reaches 10 (guess + 1) r then (guess + 2)%Z
  else if reaches 10 guess r then (guess + 1)%Z
  else if reaches 10 (guess - 1) r then guess
  else (guess - 1)%Z.

(** Whether [num / den] lies nearer to the integer above it than to the
    integer below it; half way, whether the integer above is the even one. *)
Definition nearer_next (num den : N) : bool :=
  match 2 * (num mod den) ?= den with
  | Lt => false
  | Gt => true
  | Eq => N.odd (num / den)
  end.

(** [num / den] rounded to the nearest integer, ties to even. *)
Definition round_div (num den : N) : N :=
  if nearer_next num den then num / den + 1 else num / den.

(** The double nearest to a positive rational: 53 significant bits, or
    fewer below [2 ^ -1022]. *)
Definition of_rational (r : N * N) : t :=
  let e := Z.max (floor_log2 r - 52) (-1074) in
  let '(num, den) := times_pow 2 (- e) r in
  let m := round_div num den in
  if m =? 0 then Zero
  else
    let '(m, e) := if m =? 2 ^ 53 then (2 ^ 52, (e + 1)%Z) else (m, e) in
    if (971 <? e)%Z then Infinity else Finite m e.

(** The double a decimal [mant * 10 ^ exp10] denotes. *)
Definition of_decimal (mant : N) (exp10 : Z) : t :=
  if mant =? 0 then Zero
  else
    let size := (exp10 + Z.of_nat (length (Js.ofN mant)))%Z in
    if (310 <? size)%Z then Infinity
    else if (size <? -330)%Z then Zero
    else of_rational (times_pow 10 exp10 (mant, 1)).

(** The decimal [s * 10 ^ p] with a given number of digits that denotes
    [d], the nearest to [d] first. *)
Definition with_digits (d : t) (r : N * N) (n : Z) (digits : nat) : option (N * Z) :=
  let p := (n - Z.of_nat digits)%Z in
  let '(num, den) := times_pow 10 (- p) r in
  let below := num / den in
  let denotes s := same (of_decimal s p) d in
  let '(first, second) :=
    if nearer_next num den then (below + 1, below) else (below, below + 1) in
  if denotes first then Some (first, p)
  else if denotes second then Some (second, p)
  else None.

Fixpoint strip_zeros (fuel : nat) (s : N) (p : Z) : N * Z :=
  match fuel with
  | O => (s, p)
  | S fuel' =>
      if (s mod 10 =? 0) && negb (s =? 0) then strip_zeros fuel' (s / 10) (p + 1)
      else (s, p)
  end.

(** The shortest decimal that denotes the double [m * 2 ^ e]: its digits
    and the [n] with [10 ^ (n - 1) <= value < 10 ^ n]. *)
Definition shortest (m : N) (e : Z) : JsString * Z :=
  let r := times_pow 2 e (m, 1) in
  let n := size10 r in
  let found :=
    foldr (fun digits later =>
             match with_digits (Finite m e) r n digits with
             | Some sp => Some sp
             | None => later
             end) None (seq 1 17) in
  let '(s, p) :=
    match found with
    | Some (s, p) => strip_zeros 20 s p
    | None => (m, 0%Z)
    end in
  let text := Js.ofN s in
  (text, (p + Z.of_nat (length text))%Z).

(** [Number::toString] of a positive finite double. *)
Definition show (m : N) (e : Z) : JsString :=
  let '(text, n) := shortest m e in
  let k := Z.of_nat (length text) in
  if (k <=? n)%Z && (n <=? 21)%Z then
    text ++ replicate (Z.to_nat (n - k)) 0x30
  else if (0 <? n)%Z && (n <=? 21)%Z then
    take (Z.to_nat n) text ++ js "." ++ drop (Z.to_nat n) text
  else if (-6 <? n)%Z && (n <=? 0)%Z then
    js "0." ++ replicate (Z.to_nat (- n)) 0x30 ++ text
  else
    let exponent :=
      (if (n - 1 <? 0)%Z then js "-" else js "+") ++ Js.ofN (Z.abs_N (n - 1)) in
    match text with
    | [digit] => [digit] ++ js "e" ++ exponent
    | _ => take 1 text ++ js "." ++ drop 1 text ++ js "e" ++ exponent
    end.

(** [Number::toString]: the text of a number, [non_finite] standing for
    an infinity. *)
Definition toString (non_finite : JsString) (n : JsNumber) : JsString :=
  match of_decimal (num_mant n) (num_exp10 n) with
  | Zero => js "0"
  | Finite m e => (if num_neg n then js "-" else []) ++ show m e
  | Infinity => non_finite
  end.

End Double.

(** A number in JSON text; an infinity is written [null]. *)
Definition show_number (n : JsNumber) : JsString :=
  Double.toString (js "null") n.

Fixpoint join (sep : JsString) (parts : list JsString) : JsString :=
  match parts with
  | [] => []
  | [p] => p
  | p :: rest => p ++ sep ++ join sep rest
  end.

Fixpoint last_value (fields : list (JsString * JsVal)) (k : JsString) (v : JsVal) : JsVal :=
  match fields with
  | [] => v
  | (k', v') :: rest => last_value rest k (if decide (k' = k) then v' else v)
  end.

(** The members as an engine holds them: each key once. *)
Fixpoint own_fields (seen : list JsString) (fields : list (JsString * JsVal))
    : list (JsString * JsVal) :=
  match fields with
  | [] => []
  | (k, v) :: rest =>
      if decide (k ∈ seen) then own_fields seen rest
      else (k, last_value rest k v) :: own_fields (k :: seen) rest
  end.

(** The array index a key is, if it is one: a decimal numeral without
    leading zero, below [2 ^ 32 - 1]. *)
Definition array_index (k : JsString) : option N :=
  match k with
  | [] => None
  | c :: rest =>
      if forallb isDigit k && implb (c =? 0x30) (bool_decide (rest = [])) then
        let n := fold_left (fun n d => n * 10 + (d - 0x30)) k 0 in
        if n <? 2 ^ 32 - 1 then Some n else None
      else None
  end.

Fixpoint insert_by_index (entry : N * (JsString * JsVal))
    (entries : list (N * (JsString * JsVal))) : list (N * (JsString * JsVal)) :=
  match entries with
  | [] => [entry]
  | e :: rest =>
      if entry.1 <? e.1 then entry :: entries else e :: insert_by_index entry rest
  end.

(** The order in which an engine enumerates the members: array indices
    first, ascending, then the other keys as they were created. *)
Definition enumerate (fields : list (JsString * JsVal)) : list (JsString * JsVal) :=
  map snd
    (foldr insert_by_index []
       (omap (fun kv => option_map (fun n => (n, kv)) (array_index kv.1)) fields)) ++
  List.filter (fun kv => match array_index kv.1 with Some _ => false | None => true end)
    fields.

Fixpoint write (fuel : nat) (v : JsVal) : option JsString :=
  match fuel with
  | O => None
  | S fuel' =>
      match v with
      | JUndefined => None
      | JNull => Some (js "null")
      | JBool true => Some (js "true")
      | JBool false => Some (js "false")
      | JNum n => Some (show_number n)
      | JStr s => Some (quote s)
      | JArr items =>
          Some (js "[" ++
                join (js ",") (map (fun x => default (js "null") (write fuel' x)) items) ++
                js "]")
      | JObj fields =>
          Some (js "{" ++
                join (js ",")
                  (omap (fun '(k, x) =>
                           option_map (fun t => quote k ++ js ":" ++ t) (write fuel' x))
                        (enumerate (own_fields [] fields))) ++
                js "}")
      end
  end.

Fixpoint depth (v : JsVal) : nat :=
  match v with
  | JArr items => S (foldr (fun x d => Nat.max (depth x) d) O items)
  | JObj fields => S (foldr (fun kx d => Nat.max (depth kx.2) d) O fields)
  | _ => 1%nat
  end.

(** [JSON.stringify(v)], with [undefined] shown as in a template literal. *)
Definition stringify (v : JsVal) : JsString :=
  default (js "undefined") (write (depth v) v).

End Json.

(** ** Requests, responses and errors *)

Inductive Method := GET | POST | PUT | DELETE.

Inductive ResponseType := arraybuffer | json.

Abbreviation Params := (list (JsString * JsVal)).

(** The configuration object handed to axios. *)
Record RequestConfig := {
  cfg_method : Method;
  cfg_baseURL : option JsString;
  cfg_url : JsString;
  cfg_data : JsVal;
  cfg_params : option Params;
  cfg_headers : list (JsString * JsString);
  cfg_responseType : option ResponseType
}.

(** [response.data]: a structured value, or raw bytes held in an
    [ArrayBuffer] or in a [Buffer]. *)
Inductive ResponseData :=
| DValue (v : JsVal)
| DArrayBuffer (bytes : Buffer)
| DBuffer (bytes : Buffer).

Record Response := {
  resp_status : Z;
  resp_headers : list (JsString * JsVal);
  resp_data : ResponseData
}.

(** What [axios.isAxiosError] recognises: the optional response of the
    remote service and the configuration of the failed call. *)
Record AxiosDetails := {
  ax_response : option Response;
  ax_config : option RequestConfig
}.

(** A thrown [Error]: its message, and the axios details when it is one. *)
Record JsError := {
  message : JsString;
  axios : option AxiosDetails
}.

Definition Error (msg : JsString) : JsError :=
  {| message := msg; axios := None |}.

Inductive outcome (A : Type) :=
| Returned (a : A)
| Thrown (e : JsError).
Arguments Returned {A} a.
Arguments Thrown {A} e.

(** ** The world: temporary storage and the log of outgoing calls *)

Inductive Event :=
| TokenGenerated
| HttpCall (config : RequestConfig).

Record World := {
  files : gmap JsString Buffer;
  calls : list Event
}.

(** How a write that fails leaves the file system. *)
Inductive WriteFault :=
| WriteFailed (e : JsError)
| WritePartial (e : JsError) (written : nat).

(** The surroundings of one invocation: the token provider, the remote
    service, the clock ([Date.now()], and the same instant in local time as
    the month it falls in, counted from January of year 0, and the
    milliseconds elapsed since that month began), the random source
    ([Math.floor(Math.random() * 10000)]), the temporary directory, and the
    faults the file system injects. *)
Record Env := {
  authService_generateToken : outcome JsString;
  axios_adapter : RequestConfig -> outcome Response;
  Date_now : N;
  local_month : Z;
  local_ms_in_month : N;
  Math_random_times_10000 : N;
  os_tmpdir : JsString;
  fs_write_fault : JsString -> option WriteFault;
  fs_read_fault : JsString -> option JsError;
  fs_unlink_fault : JsString -> option JsError;
  fs_enoent : JsString -> JsError
}.

(** Library functions of the Node runtime the clients call. *)
Record Runtime := {
  gunzipSync : Buffer -> outcome Buffer;
  JSON_parse : JsString -> outcome JsVal;
  JSON_stringify : JsVal -> JsString;
  Buffer_from_value : JsVal -> outcome Buffer;
  ToString : JsVal -> JsString;
  TypeError : JsError
}.

(** State-and-exception computations. *)
Definition M (A : Type) : Type := World -> outcome A * World.

Definition ret {A} (a : A) : M A := fun w => (Returned a, w).

Definition throw {A} (e : JsError) : M A := fun w => (Thrown e, w).

Definition bind {A B} (m : M A) (k : A -> M B) : M B :=
  fun w =>
    match m w with
    | (Returned a, w') => k a w'
    | (Thrown e, w') => (Thrown e, w')
    end.

(** [try { m } catch (e) { h e }]. *)
Definition try_catch {A} (m : M A) (h : JsError -> M A) : M A :=
  fun w =>
    match m w with
    | (Returned a, w') => (Returned a, w')
    | (Thrown e, w') => h e w'
    end.

Definition lift {A} (o : outcome A) : M A := fun w => (o, w).

Notation "'let*' x ':=' m 'in' k" := (bind m (fun x => k))
  (at level 10, x pattern, m at level 100, k at level 200).
Notation "m ';;' k" := (bind m (fun _ => k))
  (at level 100, k at level 200, right associativity).

Definition log (ev : Event) : M unit :=
  fun w => (Returned tt, {| files := files w; calls := calls w ++ [ev] |}).

(** ** The runtime the examples run on

    [gunzipSync] and [JSON.parse] are the decoders above; a value is
    rendered as text by the writer above. *)

Module Node.

Definition gunzipSync (buffer : Buffer) : outcome Buffer :=
  match Zlib.gunzip buffer with
  | Zlib.Ok data => Returned data
  | Zlib.Fail msg => Thrown (Error (js msg))
  end.

Definition JSON_parse (text : JsString) : outcome JsVal :=
  match Json.parse text with
  | Some v => Returned v
  | None => Thrown (Error (js "Unexpected token in JSON"))
  end.

(** ToString: a string is itself, an array joins its elements with commas,
    an object literal reads [[object Object]]. *)
Fixpoint toString (fuel : nat) (v : JsVal) : JsString :=
  match v with
  | JUndefined => js "undefined"
  | JNull => js "null"
  | JBool true => js "true"
  | JBool false => js "false"
  | JNum n =>
      Json.Double.toString ((if num_neg n then js "-" else []) ++ js "Infinity") n
  | JStr s => s
  | JArr items =>
      match fuel with
      | O => []
      | S fuel' =>
          Json.join (js ",")
            (map (fun x => match x with
                           | JUndefined | JNull => []
                           | _ => toString fuel' x
                           end) items)
      end
  | JObj _ => js "[object Object]"
  end.

Definition ToString (v : JsVal) : JsString := toString (Json.depth v) v.

Definition TypeError : JsError :=
  Error (js "Cannot read properties of null (reading 'errors')").

(** The integer the double of a number literal truncates to, modulo 256;
    an infinity gives 0. *)
Definition toUint8 (n : JsNumber) : N :=
  let magnitude :=
    match Json.Double.of_decimal (num_mant n) (num_exp10 n) with
    | Json.Double.Finite m e =>
        if (0 <=? e)%Z then m * 2 ^ Z.to_N e else m / 2 ^ Z.to_N (- e)
    | _ => 0
    end in
  if num_neg n then (256 - magnitude mod 256) mod 256 else magnitude mod 256.

(** [Buffer.from(v)] on a value that is not held in a buffer: a string is
    encoded as UTF-8, an array gives one byte per element (a number
    truncated modulo 256; elements that are not numbers are not converted
    here and read as 0), and the other values are rejected. *)
Definition Buffer_from_value (v : JsVal) : outcome Buffer :=
  match v with
  | JStr s => Returned (Buf.ofString s)
  | JArr items =>
      Returned (Buf.ofNs (map (fun x => match x with
                                        | JNum n => toUint8 n
                                        | JBool true => 1
                                        | _ => 0
                                        end) items))
  | _ =>
      Thrown (Error (js "The first argument must be of type string or an instance of Buffer, ArrayBuffer, or Array or an Array-like Object."))
  end.

Definition runtime : Runtime :=
  Build_Runtime gunzipSync JSON_parse Json.stringify Buffer_from_value
                ToString TypeError.

End Node.

(** ** The [fs] calls on the temporary-storage namespace *)

Module fs.
Section Fs.
Variable env : Env.

Definition put (path : JsString) (bytes : Buffer) : M unit :=
  fun w => (Returned tt, {| files := <[path := bytes]> (files w); calls := calls w |}).

(** [fs.writeFileSync(path, data)]: replaces the file, unless the write
    fails, in which case nothing or only a prefix of the data is left. *)
Definition writeFileSync (path : JsString) (data : Buffer) : M unit :=
  match fs_write_fault env path with
  | None => put path data
  | Some (WriteFailed e) => throw e
  | Some (WritePartial e written) => put path (take written data) ;; throw e
  end.

(** [fs.readFileSync(path, 'utf-8')]. *)
Definition readFileSync (path : JsString) : M JsString :=
  fun w =>
    match fs_read_fault env path with
    | Some e => (Thrown e, w)
    | None =>
        match files w !! path with
        | Some bytes => (Returned (Buf.toString bytes), w)
        | None => (Thrown (fs_enoent env path), w)
        end
    end.

(** [fs.existsSync(path)]. *)
Definition existsSync (path : JsString) : M bool :=
  fun w => (Returned (bool_decide (is_Some (files w !! path))), w).

(** [fs.unlinkSync(path)]. *)
Definition unlinkSync (path : JsString) : M unit :=
  fun w =>
    match fs_unlink_fault env path with
    | Some e => (Thrown e, w)
    | None =>
        match files w !! path with
        | Some _ => (Returned tt, {| files := delete path (files w); calls := calls w |})
        | None => (Thrown (fs_enoent env path), w)
        end
    end.

End Fs.
End fs.

(** ** POSIX paths

    [path.normalize] and [path.join] of Node on POSIX. *)

Module Path.

Definition isSeparator (c : N) : bool := c =? 0x2F.

(** The segments of a path, which its separators delimit. *)
Fixpoint segments (path : JsString) : list JsString :=
  match path with
  | [] => [[]]
  | c :: rest =>
      if isSeparator c then [] :: segments rest
      else match segments rest with
           | segment :: more => (c :: segment) :: more
           | [] => [[c]]
           end
  end.

(** One more segment after the segments kept so far, the latest first: an
    empty segment and [.] are dropped; [..] removes the segment before it,
    and where there is none to remove it is kept in a relative path and
    dropped in an absolute one. *)
Definition push (allowAboveRoot : bool) (kept : list JsString) (segment : JsString)
    : list JsString :=
  if decide (segment = [] \/ segment = js ".") then kept
  else if decide (segment = js "..") then
    match kept with
    | latest :: before =>
        if decide (latest = js "..")
        then (if allowAboveRoot then segment :: kept else kept)
        else before
    | [] => if allowAboveRoot then [segment] else []
    end
  else segment :: kept.

(** [normalizeString(path, allowAboveRoot, '/', isPosixPathSeparator)]. *)
Definition normalizeString (path : JsString) (allowAboveRoot : bool) : JsString :=
  Json.join (js "/") (rev (fold_left (push allowAboveRoot) (segments path) [])).

(** [path.normalize(path)]. *)
Definition normalize (path : JsString) : JsString :=
  match path with
  | [] => js "."
  | c :: _ =>
      let isAbsolute := isSeparator c in
      let trailingSeparator := isSeparator (List.last path 0) in
      match normalizeString path (negb isAbsolute) with
      | [] =>
          if isAbsolute then js "/"
          else if trailingSeparator then js "./" else js "."
      | normal =>
          (if isAbsolute then js "/" else []) ++ normal ++
          (if trailingSeparator then js "/" else [])
      end
  end.

(** [path.join(dir, name)]: the arguments that are not empty, joined by a
    separator and normalised. *)
Definition join (dir name : JsString) : JsString :=
  match dir, name with
  | [], [] => js "."
  | [], _ => normalize name
  | _, [] => normalize dir
  | _, _ => normalize (dir ++ js "/" ++ name)
  end.

End Path.

(** [path.join(dir, name)]. *)
Definition path_join (dir name : JsString) : JsString := Path.join dir name.

(** [authService.generateToken()]. *)
Definition generateToken (env : Env) : M JsString :=
  log TokenGenerated ;; lift (authService_generateToken env).

(** One call through axios. *)
Definition axios_request (env : Env) (config : RequestConfig) : M Response :=
  log (HttpCall config) ;; lift (axios_adapter env config).

Definition baseURL : JsString := js "https://api.appstoreconnect.apple.com/v1".

(** What a client hands back: [{ data: text }] for a report, or
    [response.data] as it came. *)
Inductive Payload :=
| ReportData (data : JsString)
| Structured (data : ResponseData).

(** What [downloadFromUrl] hands back. *)
Record SegmentDownload := {
  seg_data : ResponseData;
  seg_contentType : JsVal;
  seg_size : JsVal
}.

(** [downloadFromUrl] of both clients: a bare [axios.get] on an absolute URL. *)
Definition segmentConfig (token : JsString) (url : JsString) : RequestConfig :=
  {| cfg_method := GET;
     cfg_baseURL := None;
     cfg_url := url;
     cfg_data := JUndefined;
     cfg_params := None;
     cfg_headers := [(js "Authorization", js "Bearer " ++ token)];
     cfg_responseType := None |}.

Definition downloadFromUrl (env : Env) (url : JsString) : M SegmentDownload :=
  let* token := generateToken env in
  let* response := axios_request env (segmentConfig token url) in
  ret {| seg_data := resp_data response;
         seg_contentType := Val.field (resp_headers response) (js "content-type");
         seg_size := Val.field (resp_headers response) (js "content-length") |}.

(** ** The client of [src/services/appstore-client.ts]

    Its [request] sniffs report responses and sends gzip payloads through
    two temporary files. *)

Module StagingClient.
Section Client.
Variable rt : Runtime.
Variable env : Env.

(** [url.includes('/salesReports') || url.includes('/financeReports')]. *)
Definition isReportEndpoint (url : JsString) : bool :=
  Js.includes url (js "/salesReports") || Js.includes url (js "/financeReports").

Definition headers (token : JsString) (url : JsString) : list (JsString * JsString) :=
  [(js "Authorization", js "Bearer " ++ token);
   (js "Content-Type", js "application/json")] ++
  (if isReportEndpoint url
   then [(js "Accept", js "application/a-gzip, application/json")]
   else []).

(** The configuration [request] passes to [this.axiosInstance.request]. *)
Definition requestConfig (token : JsString) (method : Method) (url : JsString)
    (data : JsVal) (params : option Params) : RequestConfig :=
  {| cfg_method := method;
     cfg_baseURL := Some baseURL;
     cfg_url := url;
     cfg_data := data;
     cfg_params := params;
     cfg_headers := headers token url;
     cfg_responseType := Some (if isReportEndpoint url then arraybuffer else json) |}.

Definition tempName (extension : JsString) : JsString :=
  js "apple_report_" ++ Js.ofN (Date_now env) ++ js "_" ++
  Js.ofN (Math_random_times_10000 env) ++ extension.

Definition tempGzPath : JsString := path_join (os_tmpdir env) (tempName (js ".gz")).
Definition tempTxtPath : JsString := path_join (os_tmpdir env) (tempName (js ".txt")).

(** The body of the inner [try] (lines 75-109): write the raw bytes,
    gunzip, write the result, read it back, validate, remove both files. *)
Definition stageAndDecompress (buffer : Buffer) : M Payload :=
  fs.writeFileSync env tempGzPath buffer ;;
  let* decompressed := lift (gunzipSync rt buffer) in
  fs.writeFileSync env tempTxtPath decompressed ;;
  let* csvData := fs.readFileSync env tempTxtPath in
  (if Js.isEmpty csvData || Js.includes csvData [0]
   then throw (Error (js "Decompressed data contains invalid characters"))
   else ret tt) ;;
  try_catch
    (fs.unlinkSync env tempGzPath ;; fs.unlinkSync env tempTxtPath)
    (fun _ => ret tt) ;;
  ret (ReportData csvData).

(** The handler of the inner [catch] (lines 110-120). *)
Definition cleanupAndFail (error : JsError) : M Payload :=
  try_catch
    (let* gzExists := fs.existsSync tempGzPath in
     (if gzExists then fs.unlinkSync env tempGzPath else ret tt) ;;
     let* txtExists := fs.existsSync tempTxtPath in
     (if txtExists then fs.unlinkSync env tempTxtPath else ret tt))
    (fun _ => ret tt) ;;
  throw (Error (js "Failed to decompress report data: " ++ message error)).

Definition decompressViaTempFiles (buffer : Buffer) : M Payload :=
  try_catch (stageAndDecompress buffer) cleanupAndFail.

(** The sanity check of the non-gzip branch (lines 126-135): the inner
    [catch] receives whatever the [try] block throws. *)
Definition checkForApiError (textData : JsString) : M unit :=
  if Js.startsWith (Js.trim textData) (js "{") then
    try_catch
      (let* jsonData := lift (JSON_parse rt textData) in
       let* errors :=
         match Val.get jsonData (js "errors") with
         | Some v => ret v
         | None => throw (TypeError rt)
         end in
       if Val.truthy errors
       then throw (Error (js "API Error: " ++ JSON_stringify rt errors))
       else ret tt)
      (fun _ => ret tt)
  else ret tt.

Definition passThroughText (buffer : Buffer) : M Payload :=
  let textData := Buf.toString buffer in
  checkForApiError textData ;;
  ret (ReportData textData).

(** Lines 54-61: the buffer of a report response. *)
Definition responseBuffer (data : ResponseData) : M Buffer :=
  match data with
  | DArrayBuffer bytes => ret bytes
  | DBuffer bytes => ret bytes
  | DValue v => throw (Error (js "Unexpected response data type: " ++ Val.typeof v))
  end.

(** Lines 63-138 on a buffer in hand. *)
Definition resolveBuffer (buffer : Buffer) : M Payload :=
  if Buf.isGzipped buffer
  then decompressViaTempFiles buffer
  else passThroughText buffer.

(** Lines 49-143: the outer [try] rethrows what it catches. *)
Definition resolveReport (data : ResponseData) : M Payload :=
  try_catch
    (let* buffer := responseBuffer data in resolveBuffer buffer)
    (fun error => throw error).

Definition request (method : Method) (url : JsString) (data : JsVal)
    (params : option Params) : M Payload :=
  let* token := generateToken env in
  let* response := axios_request env (requestConfig token method url data params) in
  if isReportEndpoint url
  then resolveReport (resp_data response)
  else ret (Structured (resp_data response)).

Definition get (url : JsString) (params : option Params) : M Payload :=
  request GET url JUndefined params.

Definition post (url : JsString) (data : JsVal) : M Payload :=
  request POST url data None.

Definition put (url : JsString) (data : JsVal) : M Payload :=
  request PUT url data None.

Definition delete (url : JsString) (data : JsVal) : M Payload :=
  request DELETE url data None.

End Client.
End StagingClient.

(** ** The client variant with [downloadReport]

    Its [request] is plain; reports go through [downloadReport], which
    gunzips in memory. *)

Module DirectClient.
Section Client.
Variable rt : Runtime.
Variable env : Env.

Definition requestConfig (token : JsString) (method : Method) (url : JsString)
    (data : JsVal) (params : option Params) : RequestConfig :=
  {| cfg_method := method;
     cfg_baseURL := Some baseURL;
     cfg_url := url;
     cfg_data := data;
     cfg_params := params;
     cfg_headers := [(js "Authorization", js "Bearer " ++ token);
                     (js "Content-Type", js "application/json")];
     cfg_responseType := None |}.

Definition request (method : Method) (url : JsString) (data : JsVal)
    (params : option Params) : M Payload :=
  let* token := generateToken env in
  let* response := axios_request env (requestConfig token method url data params) in
  ret (Structured (resp_data response)).

(** The configuration of the separate [axios.get] of [downloadReport]. *)
Definition reportConfig (token : JsString) (url : JsString)
    (params : option Params) : RequestConfig :=
  {| cfg_method := GET;
     cfg_baseURL := Some baseURL;
     cfg_url := url;
     cfg_data := JUndefined;
     cfg_params := params;
     cfg_headers := [(js "Authorization", js "Bearer " ++ token);
                     (js "Accept", js "application/a-gzip")];
     cfg_responseType := Some arraybuffer |}.

(** [Buffer.from(response.data)]. *)
Definition Buffer_from (data : ResponseData) : M Buffer :=
  match data with
  | DArrayBuffer bytes => ret bytes
  | DBuffer bytes => ret bytes
  | DValue v => lift (Buffer_from_value rt v)
  end.

(** Lines 89-113 on a buffer in hand. *)
Definition resolveBuffer (buffer : Buffer) : M Payload :=
  if Buf.isGzipped buffer then
    let* decompressed := lift (gunzipSync rt buffer) in
    ret (ReportData (Buf.toString decompressed))
  else ret (ReportData (Buf.toString buffer)).

Definition downloadReport (url : JsString) (params : option Params) : M Payload :=
  let* token := generateToken env in
  try_catch
    (let* response := axios_request env (reportConfig token url params) in
     let* buffer := Buffer_from (resp_data response) in
     resolveBuffer buffer)
    (fun error => throw error).

End Client.
End DirectClient.

(** ** Dates and the date pattern *)

Module Date.

(** A point in local time: the month it falls in, counted from January of
    year 0, and the milliseconds elapsed since that month began. *)
Record t := {
  month_index : Z;
  ms_in_month : N
}.

(** [new Date(year, monthIndex)]: local midnight on the first day of the
    month; years 0 to 99 mean 1900 to 1999, a month index outside 0..11
    carries into the year, and NaN ([None]) gives an invalid date. *)
Definition make (year monthIndex : option Z) : option t :=
  match year, monthIndex with
  | Some y, Some m =>
      let yr := if (0 <=? y)%Z && (y <=? 99)%Z then (1900 + y)%Z else y in
      Some {| month_index := yr * 12 + m; ms_in_month := 0 |}
  | _, _ => None
  end.

(** [new Date()]. *)
Definition current (env : Env) : option t :=
  Some {| month_index := local_month env; ms_in_month := local_ms_in_month env |}.

(** [a > b] on dates: a comparison of time values, false on an invalid date. *)
Definition gt (a b : option t) : bool :=
  match a, b with
  | Some a, Some b =>
      (month_index b <? month_index a)%Z ||
      ((month_index a =? month_index b)%Z && (ms_in_month b <? ms_in_month a))
  | _, _ => false
  end.

End Date.

Module RegExp.

Inductive atom :=
| Digit
| Char (c : N).

(** An anchored pattern [^a1{n1}a2{n2}...$]. *)
Definition pattern := list (atom * nat).

Definition isDigit (c : N) : bool := (0x30 <=? c) && (c <=? 0x39).

Definition accepts (a : atom) (c : N) : bool :=
  match a with
  | Digit => isDigit c
  | Char d => c =? d
  end.

(** Consume exactly [n] code units accepted by [a]. *)
Fixpoint consume (a : atom) (n : nat) (s : JsString) : option JsString :=
  match n with
  | O => Some s
  | S n' =>
      match s with
      | c :: s' => if accepts a c then consume a n' s' else None
      | [] => None
      end
  end.

(** [pattern.test(s)]. *)
Fixpoint test (p : pattern) (s : JsString) : bool :=
  match p with
  | [] => Js.isEmpty s
  | (a, n) :: p' =>
      match consume a n s with
      | Some rest => test p' rest
      | None => false
      end
  end.

End RegExp.

(** [/^\d{4}-\d{2}$/]. *)
Definition datePattern : RegExp.pattern :=
  [(RegExp.Digit, 4%nat); (RegExp.Char 0x2D, 1%nat); (RegExp.Digit, 2%nat)].

(** [s.split('-')]. *)
Fixpoint split_dash (s : JsString) : list JsString :=
  match s with
  | [] => [[]]
  | c :: s' =>
      if c =? 0x2D then [] :: split_dash s'
      else match split_dash s' with
           | part :: parts => (c :: part) :: parts
           | [] => [[c]]
           end
  end.

Fixpoint digits_value (acc : Z) (s : JsString) : option Z :=
  match s with
  | [] => Some acc
  | c :: s' =>
      if RegExp.isDigit c then digits_value (acc * 10 + Z.of_N (c - 0x30)) s'
      else None
  end.

(** [Number(s)] on the strings the handlers convert, which are runs of
    decimal digits; any other string reads as NaN ([None]) here. *)
Definition Number (s : JsString) : option Z :=
  match s with
  | [] => None
  | _ => digits_value 0 s
  end.

(** ** The report handlers of [src/handlers/analytics.ts] *)

Record HandlerConfig := {
  config_vendorNumber : option JsString
}.

Record SalesReportArgs := {
  sales_vendorNumber : option JsString;
  sales_reportType : option JsString;
  sales_reportSubType : option JsString;
  sales_frequency : option JsString;
  sales_reportDate : JsString
}.

Record FinanceReportArgs := {
  finance_vendorNumber : option JsString;
  finance_reportDate : JsString;
  finance_regionCode : JsString
}.

Module AnalyticsHandlers.
Section Handlers.
Variable rt : Runtime.
Variable env : Env.
Variable config : option HandlerConfig.

(** The helpers of [utils/index.js]: [validateRequired] throws or not,
    [buildFilterParams] turns a filter object into query parameters. *)
Variable validateRequired : Params -> list JsString -> option JsError.
Variable buildFilterParams : Params -> Params.

(** A destructuring default: it applies when the property is [undefined]. *)
Definition withDefault {A} (value : option A) (default : option A) : option A :=
  match value with
  | Some v => Some v
  | None => default
  end.

(** [this.config?.vendorNumber]. *)
Definition configVendorNumber : option JsString :=
  match config with
  | Some c => config_vendorNumber c
  | None => None
  end.

(** [if (!vendorNumber) throw ...]: the vendor number, when truthy. *)
Definition requireVendorNumber (vendorNumber : option JsString) : M JsString :=
  match vendorNumber with
  | Some (c :: v) => ret (c :: v)
  | _ => throw (Error (js "Vendor number is required. Please provide it as an argument or set APP_STORE_CONNECT_VENDOR_NUMBER environment variable."))
  end.

Definition runValidateRequired (object : Params) (fields : list JsString) : M unit :=
  match validateRequired object fields with
  | Some e => throw e
  | None => ret tt
  end.

(** [const [year, month] = reportDate.split('-').map(Number);
     const reportDateObj = new Date(year, month - 1);]. *)
Definition reportDateObj (reportDate : JsString) : option Date.t :=
  let parts := map Number (split_dash reportDate) in
  let year := mjoin (parts !! 0%nat) in
  let month := mjoin (parts !! 1%nat) in
  Date.make year (option_map (fun m => (m - 1)%Z) month).

(** The checks both handlers run on the report date; [kind] is the word the
    future-date message uses. *)
Definition checkReportDate (kind Kind : JsString) (reportDate : JsString) : M unit :=
  (if negb (RegExp.test datePattern reportDate)
   then throw (Error (js "Report date must be in YYYY-MM format (e.g., 2024-01)"))
   else ret tt) ;;
  if Date.gt (reportDateObj reportDate) (Date.current env)
  then throw (Error (js "Cannot request " ++ kind ++ js " report for future date: " ++
                     reportDate ++ js ". " ++ Kind ++
                     js " reports are only available for past months."))
  else ret tt.

Definition orDefault (value : option JsString) (default : string) : JsString :=
  match value with
  | Some v => v
  | None => js default
  end.

Definition salesFilters (args : SalesReportArgs) (vendorNumber : JsString) : Params :=
  [(js "reportDate", JStr (sales_reportDate args));
   (js "reportType", JStr (orDefault (sales_reportType args) "SALES"));
   (js "reportSubType", JStr (orDefault (sales_reportSubType args) "SUMMARY"));
   (js "frequency", JStr (orDefault (sales_frequency args) "MONTHLY"));
   (js "vendorNumber", JStr vendorNumber)].

Definition downloadSalesReport (args : SalesReportArgs) : M Payload :=
  let* vendorNumber :=
    requireVendorNumber (withDefault (sales_vendorNumber args) configVendorNumber) in
  runValidateRequired [(js "reportDate", JStr (sales_reportDate args))]
                      [js "reportDate"] ;;
  checkReportDate (js "sales") (js "Sales") (sales_reportDate args) ;;
  DirectClient.downloadReport rt env (js "/salesReports")
    (Some (buildFilterParams (salesFilters args vendorNumber))).

Definition financeFilters (args : FinanceReportArgs) (vendorNumber : JsString) : Params :=
  [(js "reportDate", JStr (finance_reportDate args));
   (js "regionCode", JStr (finance_regionCode args));
   (js "vendorNumber", JStr vendorNumber)].

Definition downloadFinanceReport (args : FinanceReportArgs) : M Payload :=
  let* vendorNumber :=
    requireVendorNumber (withDefault (finance_vendorNumber args) configVendorNumber) in
  runValidateRequired [(js "reportDate", JStr (finance_reportDate args));
                       (js "regionCode", JStr (finance_regionCode args))]
                      [js "reportDate"; js "regionCode"] ;;
  checkReportDate (js "finance") (js "Finance") (finance_reportDate args) ;;
  DirectClient.downloadReport rt env (js "/financeReports")
    (Some (buildFilterParams (financeFilters args vendorNumber))).

End Handlers.
End AnalyticsHandlers.

(** ** The error classifier of [src/index.ts] *)

Record TextContent := {
  content_type : JsString;
  content_text : JsVal
}.

Record ToolResponse := {
  isError : option bool;
  content : list TextContent
}.

Module Server.
Section Format.
Variable rt : Runtime.

Definition salesReportNotFound : JsString :=
  js "Sales report not found. This typically happens when:" ++ [0x0A] ++
  js "- The requested date is in the future" ++ [0x0A] ++
  js "- No sales data exists for the requested period" ++ [0x0A] ++
  js "- The report hasn't been generated yet (reports are usually available 1-2 days after the period ends)".

Definition financeReportNotFound : JsString :=
  js "Finance report not found. This typically happens when:" ++ [0x0A] ++
  js "- The requested date is in the future" ++ [0x0A] ++
  js "- No financial data exists for the requested period" ++ [0x0A] ++
  js "- The report hasn't been generated yet (finance reports are usually available after the 5th of the following month)".

Definition invalidIncludes : JsString :=
  js "Bad request: Invalid relationship includes. " ++
  js "Common issues:" ++ [0x0A] ++
  js "- Using " ++ [0x22] ++ js "customerReviews" ++ [0x22] ++ js " instead of " ++
    [0x22] ++ js "reviewSubmissions" ++ [0x22] ++ [0x0A] ++
  js "- Using " ++ [0x22] ++ js "perfPowerMetrics" ++ [0x22] ++
    js " which is not a valid relationship" ++ [0x0A] ++
  js "- Check that all include values match the API documentation exactly".

Definition invalidParameters : JsString :=
  js "Bad request: The request parameters are invalid. Check that all values match the API requirements.".

(** [error.response?.status]. *)
Definition statusOf (ax : AxiosDetails) : option Z :=
  option_map resp_status (ax_response ax).

(** [error.response?.data?.errors?.[0]]. *)
Definition apiErrorOf (ax : AxiosDetails) : JsVal :=
  match ax_response ax with
  | Some {| resp_data := DValue v |} => Val.optFirst (Val.optGet v (js "errors"))
  | _ => JUndefined
  end.

(** [error.config?.url?.includes(segment)]. *)
Definition urlIncludes (ax : AxiosDetails) (segment : JsString) : bool :=
  match ax_config ax with
  | Some config => Js.includes (cfg_url config) segment
  | None => false
  end.

(** [error.config?.params?.include]. *)
Definition includeParam (ax : AxiosDetails) : JsVal :=
  match ax_config ax with
  | Some {| cfg_params := Some params |} => Val.field params (js "include")
  | _ => JUndefined
  end.

(** The template-literal rendering of [error.config?.url] and of [status]. *)
Definition showUrl (ax : AxiosDetails) : JsString :=
  match ax_config ax with
  | Some config => cfg_url config
  | None => js "undefined"
  end.

Definition showStatus (status : option Z) : JsString :=
  match status with
  | Some n => Js.ofZ n
  | None => js "undefined"
  end.

Definition statusIs (status : option Z) (n : Z) : bool :=
  match status with
  | Some s => (s =? n)%Z
  | None => false
  end.

(** Lines 653-687: the message of a failed call. *)
Definition errorMessageOf (error : JsError) : JsVal :=
  match axios error with
  | None => JStr (message error)
  | Some ax =>
      let status := statusOf ax in
      let apiError := apiErrorOf ax in
      if statusIs status 404 then
        if urlIncludes ax (js "/salesReports") then JStr salesReportNotFound
        else if urlIncludes ax (js "/financeReports") then JStr financeReportNotFound
        else Val.or (Val.optGet apiError (js "detail"))
                    (JStr (js "Resource not found (404): " ++ showUrl ax))
      else if statusIs status 400 then
        if urlIncludes ax (js "/apps/") && Val.truthy (includeParam ax)
        then JStr invalidIncludes
        else Val.or (Val.optGet apiError (js "detail")) (JStr invalidParameters)
      else if Val.truthy apiError then
        JStr (js "App Store Connect API error: " ++
              ToString rt (Val.or (Val.or (Val.optGet apiError (js "detail"))
                                          (Val.optGet apiError (js "title")))
                                  (JStr (message error))))
      else
        JStr (js "Request failed with status " ++ showStatus status ++ js ": " ++
              message error)
  end.

(** Lines 651-712. The text of a result that is no string is
    [JSON.stringify(result)], which is [undefined] for [undefined]. *)
Definition formatToolResponse (result : JsVal) (error : option JsError) : ToolResponse :=
  match error with
  | Some error =>
      {| isError := Some true;
         content := [{| content_type := js "text";
                        content_text := errorMessageOf error |}] |}
  | None =>
      {| isError := None;
         content := [{| content_type := js "text";
                        content_text :=
                          match result with
                          | JStr s => JStr s
                          | JUndefined => JUndefined
                          | _ => JStr (JSON_stringify rt result)
                          end |}] |}
  end.

End Format.
End Server.

(** ** The helpers of [utils/index.js] *)

Module Utils.

(** Modelled from the spec: absence of a field, as the presence check of
    [validateRequired] below understands it. *)
Definition isMissing (v : JsVal) : bool :=
  match v with
  | JUndefined | JNull => true
  | _ => false
  end.

(** Modelled from the spec: [validateRequired] of [utils/index.js] is not
    among the sources. The spec describes it as a helper that only checks
    presence and whose failure is a validation error raised before any
    network call: it throws when a required field is [undefined] or
    [null]. *)
Definition validateRequired (object : Params) (fields : list JsString) : option JsError :=
  match List.filter (fun f => isMissing (Val.field object f)) fields with
  | [] => None
  | missing =>
      Some (Error (js "Missing required parameters: " ++ Json.join (js ", ") missing))
  end.

(** Modelled from the spec: [buildFilterParams] of [utils/index.js] is not
    among the sources. The spec says the report filter set is what the
    report query is built from: every filter that is present becomes one
    query parameter, named [filter[key]] as the remote API expects. *)
Definition buildFilterParams (filters : Params) : Params :=
  omap (fun '(k, v) =>
          match v with
          | JUndefined | JNull => None
          | _ => Some (js "filter[" ++ k ++ js "]", v)
          end) filters.

End Utils.

(** ** Vocabulary of the properties *)

(** The same environment with other unlink faults. *)
Definition withUnlinkFault (env : Env) (fault : JsString -> option JsError) : Env :=
  {| authService_generateToken := authService_generateToken env;
     axios_adapter := axios_adapter env;
     Date_now := Date_now env;
     local_month := local_month env;
     local_ms_in_month := local_ms_in_month env;
     Math_random_times_10000 := Math_random_times_10000 env;
     os_tmpdir := os_tmpdir env;
     fs_write_fault := fs_write_fault env;
     fs_read_fault := fs_read_fault env;
     fs_unlink_fault := fault;
     fs_enoent := fs_enoent env |}.

(** The error the staging client throws for [cause]. *)
Definition decompressionFailure (cause : JsError) : JsError :=
  Error (js "Failed to decompress report data: " ++ message cause).

Definition invalidCharacters : JsError :=
  Error (js "Decompressed data contains invalid characters").

Definition writeError (fault : WriteFault) : JsError :=
  match fault with
  | WriteFailed e => e
  | WritePartial e _ => e
  end.

(** What the inner [try] block comes to, read off the injected faults and
    the decoder alone: the text read back, or the error that ends it. *)
Definition stagingVerdict (rt : Runtime) (env : Env) (buffer : Buffer) : outcome JsString :=
  match fs_write_fault env (StagingClient.tempGzPath env) with
  | Some fault => Thrown (writeError fault)
  | None =>
      match gunzipSync rt buffer with
      | Thrown e => Thrown e
      | Returned data =>
          match fs_write_fault env (StagingClient.tempTxtPath env) with
          | Some fault => Thrown (writeError fault)
          | None =>
              match fs_read_fault env (StagingClient.tempTxtPath env) with
              | Some e => Thrown e
              | None =>
                  let csvData := Buf.toString data in
                  if Js.isEmpty csvData || Js.includes csvData [0]
                  then Thrown invalidCharacters
                  else Returned csvData
              end
          end
      end
  end.

Definition stagedOutcome (rt : Runtime) (env : Env) (buffer : Buffer) : outcome Payload :=
  match stagingVerdict rt env buffer with
  | Returned csvData => Returned (ReportData csvData)
  | Thrown cause => Thrown (decompressionFailure cause)
  end.

(** A name that [path.join] appends as it is: it holds no separator and is
    neither empty nor [.] nor [..]. *)
Definition plainName (name : JsString) : Prop :=
  name <> [] /\ name <> js "." /\ name <> js ".." /\
  Forall (fun c => Path.isSeparator c = false) name.

(** What [path.join] puts before such a name: the directory in normal form
    and a separator. *)
Definition joinPrefix (dir : JsString) : JsString :=
  match dir with
  | [] => []
  | c :: _ =>
      (if Path.isSeparator c then js "/" else []) ++
      match rev (fold_left (Path.push (negb (Path.isSeparator c)))
                   (Path.segments dir) []) with
      | [] => []
      | kept => Json.join (js "/") kept ++ js "/"
      end
  end.

(** Neither staged file is present. *)
Definition staged_absent (env : Env) (w : World) : Prop :=
  files w !! StagingClient.tempGzPath env = None /\
  files w !! StagingClient.tempTxtPath env = None.

(** A computation that logs no call. *)
Definition quiet {A} (m : M A) : Prop := forall w, calls (m w).2 = calls w.

(** What the calls of [downloadReport] add to the log. *)
Definition reportCalls (env : Env) (url : JsString) (params : option Params) : list Event :=
  TokenGenerated ::
  match authService_generateToken env with
  | Returned token => [HttpCall (DirectClient.reportConfig token url params)]
  | Thrown _ => []
  end.

(** The value a configuration carries for a header. *)
Fixpoint headerOf (headers : list (JsString * JsString)) (name : JsString) : option JsString :=
  match headers with
  | [] => None
  | (k, v) :: rest =>
      match headerOf rest name with
      | Some later => Some later
      | None => if decide (k = name) then Some v else None
      end
  end.

Definition digit (c : N) : Z := Z.of_N (c - 0x30).

(** What a date written [YYYY-MM] says: its year and its month. *)
Definition written (reportDate : JsString) : option (Z * Z) :=
  match reportDate with
  | [y1; y2; y3; y4; _; m1; m2] =>
      Some ((1000 * digit y1 + 100 * digit y2 + 10 * digit y3 + digit y4)%Z,
            (10 * digit m1 + digit m2)%Z)
  | _ => None
  end.

(** The year and the month (1 to 12) the clock is in. *)
Definition currentYear (env : Env) : Z := (local_month env / 12)%Z.
Definition currentMonth (env : Env) : Z := (local_month env mod 12 + 1)%Z.

Definition laterThanCurrentMonth (env : Env) (year month : Z) : Prop :=
  (currentYear env < year)%Z \/
  (year = currentYear env /\ currentMonth env < month)%Z.

Definition formatError : JsError :=
  Error (js "Report date must be in YYYY-MM format (e.g., 2024-01)").

Definition vendorNumberError : JsError :=
  Error (js "Vendor number is required. Please provide it as an argument or set APP_STORE_CONNECT_VENDOR_NUMBER environment variable.").

Definition futureDateError (kind Kind reportDate : JsString) : JsError :=
  Error (js "Cannot request " ++ kind ++ js " report for future date: " ++
         reportDate ++ js ". " ++ Kind ++
         js " reports are only available for past months.").

(** The vendor number a call goes by, and the verdict of the required-field
    check on it. *)
Definition salesVendor (config : option HandlerConfig) (args : SalesReportArgs)
    : option JsString :=
  AnalyticsHandlers.withDefault (sales_vendorNumber args)
    (AnalyticsHandlers.configVendorNumber config).

Definition financeVendor (config : option HandlerConfig) (args : FinanceReportArgs)
    : option JsString :=
  AnalyticsHandlers.withDefault (finance_vendorNumber args)
    (AnalyticsHandlers.configVendorNumber config).

Definition salesRequired (validateRequired : Params -> list JsString -> option JsError)
    (args : SalesReportArgs) : option JsError :=
  validateRequired [(js "reportDate", JStr (sales_reportDate args))] [js "reportDate"].

Definition financeRequired (validateRequired : Params -> list JsString -> option JsError)
    (args : FinanceReportArgs) : option JsError :=
  validateRequired [(js "reportDate", JStr (finance_reportDate args));
                    (js "regionCode", JStr (finance_regionCode args))]
                   [js "reportDate"; js "regionCode"].

(** ** A scenario to run the pipeline on *)

Module Scenario.

(** An environment whose token provider issues [token], whose remote
    service answers every call with [answer], whose clock reads the middle
    of June 2024, and whose file system injects no fault. *)
Definition env (answer : outcome Response) : Env :=
  {| authService_generateToken := Returned (js "token");
     axios_adapter := fun _ => answer;
     Date_now := 1718454896789;
     local_month := 2024 * 12 + 5;
     local_ms_in_month := 1254896789;
     Math_random_times_10000 := 4711;
     os_tmpdir := js "/tmp";
     fs_write_fault := fun _ => None;
     fs_read_fault := fun _ => None;
     fs_unlink_fault := fun _ => None;
     fs_enoent := fun path =>
       Error (js "ENOENT: no such file or directory, open '" ++ path ++ js "'") |}.

Definition ok (data : ResponseData) : outcome Response :=
  Returned {| resp_status := 200; resp_headers := []; resp_data := data |}.

Definition idle : Env := env (ok (DValue JNull)).

Definition emptyWorld : World := {| files := ∅; calls := [] |}.

(** [gzip] of the text [hello]. *)
Definition helloGz : Buffer :=
  Buf.ofNs [0x1f; 0x8b; 0x08; 0x00; 0x00; 0x00; 0x00; 0x00; 0x02; 0x03;
            0xcb; 0x48; 0xcd; 0xc9; 0xc9; 0x07; 0x00;
            0x86; 0xa6; 0x10; 0x36; 0x05; 0x00; 0x00; 0x00].

(** [gzip] of the empty text. *)
Definition emptyGz : Buffer :=
  Buf.ofNs [0x1f; 0x8b; 0x08; 0x00; 0x00; 0x00; 0x00; 0x00; 0x02; 0x03;
            0x03; 0x00;
            0x00; 0x00; 0x00; 0x00; 0x00; 0x00; 0x00; 0x00].

(** [gzip] of the three bytes [a], zero, [b], with the file name
    [report.txt] in the header. *)
Definition nulGz : Buffer :=
  Buf.ofNs [0x1f; 0x8b; 0x08; 0x08; 0x39; 0x30; 0x00; 0x00; 0x02; 0xff;
            0x72; 0x65; 0x70; 0x6f; 0x72; 0x74; 0x2e; 0x74; 0x78; 0x74; 0x00;
            0x4b; 0x64; 0x48; 0x02; 0x00;
            0x71; 0x78; 0xe8; 0x15; 0x03; 0x00; 0x00; 0x00].

(** A gzip header cut after its magic number. *)
Definition truncatedGz : Buffer := Buf.ofNs [0x1f; 0x8b].

(** An error document of the remote service, as the bytes of
    [{"errors":[{"status":"404","detail":"No report"}]}]. *)
Definition errorDocument : Buffer :=
  Buf.ofString
    (js "{" ++ Json.quote (js "errors") ++ js ":[{" ++
     Json.quote (js "status") ++ js ":" ++ Json.quote (js "404") ++ js "," ++
     Json.quote (js "detail") ++ js ":" ++ Json.quote (js "No report") ++
     js "}]}").

(** A tab-separated report, uncompressed. *)
Definition plainReport : Buffer :=
  Buf.ofString (js "Provider" ++ [0x09] ++ js "SKU" ++ [0x09] ++ js "Units" ++ [0x0A] ++
                js "APPLE" ++ [0x09] ++ js "app1" ++ [0x09] ++ js "12" ++ [0x0A]).

(** A 404 of the remote service on the sales-report call. *)
Definition salesReport404 : JsError :=
  {| message := js "Request failed with status code 404";
     axios := Some
       {| ax_response := Some {| resp_status := 404; resp_headers := [];
                                 resp_data := DBuffer [] |};
          ax_config := Some (DirectClient.reportConfig (js "token")
                               (js "/salesReports") None) |} |}.

Definition config : option HandlerConfig :=
  Some {| config_vendorNumber := Some (js "85012345") |}.

Definition salesArgs (reportDate : string) : SalesReportArgs :=
  {| sales_vendorNumber := None;
     sales_reportType := None;
     sales_reportSubType := None;
     sales_frequency := None;
     sales_reportDate := js reportDate |}.

Definition financeArgs (reportDate : string) : FinanceReportArgs :=
  {| finance_vendorNumber := None;
     finance_reportDate := js reportDate;
     finance_regionCode := js "US" |}.

(** The same calls with an empty vendor number among the arguments. *)
Definition salesArgsEmptyVendor (reportDate : string) : SalesReportArgs :=
  {| sales_vendorNumber := Some [];
     sales_reportType := None;
     sales_reportSubType := None;
     sales_frequency := None;
     sales_reportDate := js reportDate |}.

Definition financeArgsEmptyVendor (reportDate : string) : FinanceReportArgs :=
  {| finance_vendorNumber := Some [];
     finance_reportDate := js reportDate;
     finance_regionCode := js "US" |}.

(** An environment whose removal of the staged [.gz] file fails. *)
Definition gzRemovalFails : Env :=
  withUnlinkFault idle
    (fun path => if decide (path = StagingClient.tempGzPath idle)
                 then Some (Error (js "EPERM: operation not permitted, unlink"))
                 else None).

End Scenario.

(** ** The convenience methods of the second client *)

(** [get], [post], [put] and [delete] of the client variant with
    [downloadReport]: each is [request] with its method. *)
Module DirectMethods.
Section Client.
Variable env : Env.

Definition get (url : JsString) (params : option Params) : M Payload :=
  DirectClient.request env GET url JUndefined params.

Definition post (url : JsString) (data : JsVal) : M Payload :=
  DirectClient.request env POST url data None.

Definition put (url : JsString) (data : JsVal) : M Payload :=
  DirectClient.request env PUT url data None.

Definition delete (url : JsString) (data : JsVal) : M Payload :=
  DirectClient.request env DELETE url data None.

End Client.
End DirectMethods.

(** ** The app handlers *)

(** [VALID_APP_INCLUDES]. *)
Definition VALID_APP_INCLUDES : list JsString :=
  map js ["appClips"; "appInfos"; "appStoreVersions"; "availableTerritories";
          "betaAppReviewDetail"; "betaGroups"; "betaLicenseAgreement"; "builds";
          "endUserLicenseAgreement"; "gameCenterEnabledVersions"; "inAppPurchases";
          "preOrder"; "prices"; "reviewSubmissions"]%string.

Record ListAppsArgs := {
  listApps_limit : option JsVal
}.

Record AppInfoArgs := {
  appInfo_appId : JsString;
  appInfo_include : option (list JsString)
}.

(** The number literal [100]. *)
Definition hundred : JsVal :=
  JNum {| num_neg := false; num_mant := 100; num_exp10 := 0 |}.

Module AppHandlers.
Section Handlers.

(** The client the handlers are constructed with, as far as they use it. *)
Variable client_get : JsString -> option Params -> M Payload.

(** The helpers of [utils/index.js]. *)
Variable validateRequired : Params -> list JsString -> option JsError.
Variable sanitizeLimit : JsVal -> JsVal.

Definition listApps (args : ListAppsArgs) : M Payload :=
  let limit := default hundred (listApps_limit args) in
  client_get (js "/apps") (Some [(js "limit", sanitizeLimit limit)]).

(** [include?.length], as a condition. *)
Definition hasLength (include : option (list JsString)) : bool :=
  match include with
  | Some (_ :: _) => true
  | _ => false
  end.

(** [VALID_APP_INCLUDES.includes(inc)]. *)
Definition isValidInclude (inc : JsString) : bool :=
  bool_decide (inc ∈ VALID_APP_INCLUDES).

(** The [args] object as [validateRequired] receives it. *)
Definition argsObject (args : AppInfoArgs) : Params :=
  (js "appId", JStr (appInfo_appId args)) ::
  match appInfo_include args with
  | Some include => [(js "include", JArr (map JStr include))]
  | None => []
  end.

Definition invalidIncludeError (invalidIncludes : list JsString) : JsError :=
  Error (js "Invalid include parameters: " ++ Json.join (js ", ") invalidIncludes ++
         js ". " ++
         js "Valid options are: " ++ Json.join (js ", ") VALID_APP_INCLUDES).

(** Lines 32-41: the includes are checked against [VALID_APP_INCLUDES]. *)
Definition checkIncludes (include : option (list JsString)) : M unit :=
  if hasLength include then
    let invalidIncludes :=
      List.filter (fun inc => negb (isValidInclude inc)) (default [] include) in
    if (0 <? length invalidIncludes)%nat
    then throw (invalidIncludeError invalidIncludes)
    else ret tt
  else ret tt.

(** Lines 43-46: the query parameters. *)
Definition includeParams (include : option (list JsString)) : Params :=
  if hasLength include
  then [(js "include", JStr (Json.join (js ",") (default [] include)))]
  else [].

Definition getAppInfo (args : AppInfoArgs) : M Payload :=
  let appId := appInfo_appId args in
  let include := appInfo_include args in
  AnalyticsHandlers.runValidateRequired validateRequired (argsObject args) [js "appId"] ;;
  checkIncludes include ;;
  client_get (js "/apps/" ++ appId) (Some (includeParams include)).

End Handlers.
End AppHandlers.

(** ** The tool cases of [src/index.ts] *)

(** The error codes the server uses. *)
Inductive ErrorCode :=
| MethodNotFound
| InternalError.

(** [result] as [JSON.stringify] sees it: a report is the object
    [{ data: text }], a [Buffer] serialises through its [toJSON], an
    [ArrayBuffer] has no enumerable property. *)
Definition resultValue (result : Payload) : JsVal :=
  match result with
  | ReportData data => JObj [(js "data", JStr data)]
  | Structured (DValue v) => v
  | Structured (DBuffer bytes) =>
      JObj [(js "type", JStr (js "Buffer"));
            (js "data",
             JArr (map (fun b => JNum {| num_neg := false;
                                         num_mant := Byte.to_N b;
                                         num_exp10 := 0 |}) bytes))]
  | Structured (DArrayBuffer _) => JObj []
  end.

Module ToolCases.
Section Cases.
Variable rt : Runtime.
Variable env : Env.

(** The process-wide [config], of which the cases read [vendorNumber]. *)
Variable config : HandlerConfig.

Variable validateRequired : Params -> list JsString -> option JsError.
Variable buildFilterParams : Params -> Params.
Variable sanitizeLimit : JsVal -> JsVal.

(** The message [McpError] of the protocol SDK builds from a code and a
    text; an [McpError] is an [Error], not an axios error. *)
Variable McpError_message : ErrorCode -> JsString -> JsString.

Definition McpError (code : ErrorCode) (text : JsString) : JsError :=
  Error (McpError_message code text).

(** The body every case shares:
    [try { const result = await handler; return this.formatToolResponse(result); }
     catch (error) { return this.formatToolResponse(null, error); }]. *)
Definition respond (handler : M Payload) : M ToolResponse :=
  try_catch
    (let* result := handler in
     ret (Server.formatToolResponse rt (resultValue result) None))
    (fun error => ret (Server.formatToolResponse rt JNull (Some error))).

(** [if (!config.vendorNumber) throw new McpError(...)]. *)
Definition requireConfiguredVendor (reports : string) : M unit :=
  match config_vendorNumber config with
  | Some (_ :: _) => ret tt
  | _ =>
      throw (McpError MethodNotFound
               (js reports ++
                js " reports are not available. Please set APP_STORE_CONNECT_VENDOR_NUMBER environment variable."))
  end.

Definition list_apps (args : ListAppsArgs) : M ToolResponse :=
  respond (AppHandlers.listApps (DirectMethods.get env) sanitizeLimit args).

Definition get_app_info (args : AppInfoArgs) : M ToolResponse :=
  respond (AppHandlers.getAppInfo (DirectMethods.get env) validateRequired args).

Definition download_sales_report (args : SalesReportArgs) : M ToolResponse :=
  respond
    (requireConfiguredVendor "Sales" ;;
     AnalyticsHandlers.downloadSalesReport rt env (Some config) validateRequired
       buildFilterParams args).

Definition download_finance_report (args : FinanceReportArgs) : M ToolResponse :=
  respond
    (requireConfiguredVendor "Finance" ;;
     AnalyticsHandlers.downloadFinanceReport rt env (Some config) validateRequired
       buildFilterParams args).

End Cases.
End ToolCases.

(** ** Vocabulary of the further properties *)

(** A computation that changes no file outside [paths]. *)
Definition confined {A} (paths : list JsString) (m : M A) : Prop :=
  forall w path, path ∉ paths -> files (m w).2 !! path = files w !! path.

(** The two paths one staged decompression works on. *)
Definition stagedPaths (env : Env) : list JsString :=
  [StagingClient.tempGzPath env; StagingClient.tempTxtPath env].

(** The world after the token provider and the transport were called once each. *)
Definition afterCall (w : World) (config : RequestConfig) : World :=
  {| files := files w; calls := calls w ++ [TokenGenerated; HttpCall config] |}.

(** The world after the token provider alone was called. *)
Definition afterToken (w : World) : World :=
  {| files := files w; calls := calls w ++ [TokenGenerated] |}.

(** The month, counted from January of year 0, that [new Date(year, month - 1)]
    falls in: a year below 100 counts from 1900. *)
Definition monthIndexOf (year month : Z) : Z :=
  (12 * (if (year <=? 99)%Z then 1900 + year else year) + (month - 1))%Z.

(** The two shapes of a tool response. *)
Definition errorResponse (text : JsVal) : ToolResponse :=
  {| isError := Some true;
     content := [{| content_type := js "text"; content_text := text |}] |}.

Definition textResponse (text : JsVal) : ToolResponse :=
  {| isError := None;
     content := [{| content_type := js "text"; content_text := text |}] |}.

(** ** Further samples *)

Module Samples.

(** The environment of the scenario above, with the token provider and the
    remote service to choose. *)
Definition env (token : outcome JsString)
    (adapter : RequestConfig -> outcome Response) : Env :=
  {| authService_generateToken := token;
     axios_adapter := adapter;
     Date_now := Date_now Scenario.idle;
     local_month := local_month Scenario.idle;
     local_ms_in_month := local_ms_in_month Scenario.idle;
     Math_random_times_10000 := Math_random_times_10000 Scenario.idle;
     os_tmpdir := os_tmpdir Scenario.idle;
     fs_write_fault := fs_write_fault Scenario.idle;
     fs_read_fault := fs_read_fault Scenario.idle;
     fs_unlink_fault := fs_unlink_fault Scenario.idle;
     fs_enoent := fs_enoent Scenario.idle |}.

(** A token provider without its private key. *)
Definition keyMissing : JsError := Error (js "Private key not found").

Definition noToken : Env := env (Thrown keyMissing) (fun _ => Scenario.ok (DValue JNull)).

(** The same scenario one millisecond later. *)
Definition later : Env :=
  {| authService_generateToken := authService_generateToken Scenario.idle;
     axios_adapter := axios_adapter Scenario.idle;
     Date_now := Date_now Scenario.idle + 1;
     local_month := local_month Scenario.idle;
     local_ms_in_month := local_ms_in_month Scenario.idle + 1;
     Math_random_times_10000 := Math_random_times_10000 Scenario.idle;
     os_tmpdir := os_tmpdir Scenario.idle;
     fs_write_fault := fs_write_fault Scenario.idle;
     fs_read_fault := fs_read_fault Scenario.idle;
     fs_unlink_fault := fs_unlink_fault Scenario.idle;
     fs_enoent := fs_enoent Scenario.idle |}.

(** The error axios raises for a response with [status]: it carries the
    response and the configuration of the call. *)
Definition httpResponse (status : Z) : Response :=
  {| resp_status := status; resp_headers := []; resp_data := DBuffer [] |}.

Definition httpDetails (status : Z) (request : RequestConfig) : AxiosDetails :=
  {| ax_response := Some (httpResponse status); ax_config := Some request |}.

Definition httpError (status : Z) (request : RequestConfig) : JsError :=
  {| message := js "Request failed with status code " ++ Js.ofZ status;
     axios := Some (httpDetails status request) |}.

(** A remote service that answers every call with [status]. *)
Definition refusing (status : Z) : Env :=
  env (Returned (js "token")) (fun request => Thrown (httpError status request)).

(** The error axios raises when the remote host cannot be reached. *)
Definition noResponse : AxiosDetails := {| ax_response := None; ax_config := None |}.

Definition unreachable : JsError :=
  {| message := js "getaddrinfo ENOTFOUND api.appstoreconnect.apple.com";
     axios := Some noResponse |}.

Definition offline : Env := env (Returned (js "token")) (fun _ => Thrown unreachable).

(** A remote service that answers every call with [data]. *)
Definition answering (data : ResponseData) : Env :=
  env (Returned (js "token")) (fun _ => Scenario.ok data).

(** An environment whose removal of the staged [.txt] file fails. *)
Definition txtRemovalFails : Env :=
  withUnlinkFault Scenario.idle
    (fun path => if decide (path = StagingClient.tempTxtPath Scenario.idle)
                 then Some (Error (js "EPERM: operation not permitted, unlink"))
                 else None).

(** A world that holds one file of the user. *)
Definition notes : JsString := js "/tmp/notes.txt".

Definition worldWithNotes : World :=
  {| files := {[ notes := Buf.ofString (js "keep") ]}; calls := [] |}.

Definition config : HandlerConfig :=
  {| config_vendorNumber := Some (js "85012345") |}.

Definition unconfigured : HandlerConfig := {| config_vendorNumber := None |}.

(** A sales-report call that brings its own vendor number. *)
Definition salesArgsWithVendor (reportDate : string) : SalesReportArgs :=
  {| sales_vendorNumber := Some (js "85012345");
     sales_reportType := None;
     sales_reportSubType := None;
     sales_frequency := None;
     sales_reportDate := js reportDate |}.

Definition financeArgsWithVendor (reportDate : string) : FinanceReportArgs :=
  {| finance_vendorNumber := Some (js "85012345");
     finance_reportDate := js reportDate;
     finance_regionCode := js "US" |}.

Definition appInfoArgs (include : list string) : AppInfoArgs :=
  {| appInfo_appId := js "1234567890";
     appInfo_include := Some (map js include) |}.

Definition listAppsArgs : ListAppsArgs := {| listApps_limit := None |}.

(** The message of an [McpError] as the protocol SDK composes it, with the
    numeric code of the JSON-RPC error. *)
Definition McpError_message (code : ErrorCode) (text : JsString) : JsString :=
  js "MCP error " ++
  match code with
  | MethodNotFound => js "-32601"
  | InternalError => js "-32603"
  end ++ js ": " ++ text.

(** Modelled from the spec: [sanitizeLimit] of [utils/index.js] is not
    among the sources. The spec counts it among the helpers that only check
    presence and bounds; a limit within the bounds, as the default of 100
    used here, is handed back as it is. *)
Definition sanitizeLimit (limit : JsVal) : JsVal := limit.

End Samples.

(** * Properties *)

Ltac unfold_m := unfold bind, try_catch, ret, throw, lift in *.

Ltac unfold_fs :=
  unfold fs.writeFileSync, fs.readFileSync, fs.unlinkSync, fs.existsSync, fs.put in *.

(** Run [m] as the protected block of the [try_catch] in the goal, whose
    handler ignores the error. *)
Ltac swallow lemma :=
  match goal with
  | |- context [try_catch ?m ?h ?w] =>
      let w' := fresh "w" in destruct (lemma m w) as [w' ->]
  end.

(** ** Decoders on known inputs *)

Example toString_ascii : Buf.toString (Buf.ofNs [0x68; 0x69]) = js "hi".
Proof. reflexivity. Qed.

Example toString_replaces_ill_formed_bytes :
  Buf.toString (Buf.ofNs [0xE2; 0x82; 0xAC; 0xF0; 0x9F; 0x98; 0x80; 0xC0; 0x41])
  = [0x20AC; 0xD83D; 0xDE00; 0xFFFD; 0x41].
Proof. reflexivity. Qed.

Example gunzip_hello : Zlib.gunzip Scenario.helloGz = Zlib.Ok (Buf.ofString (js "hello")).
Proof. vm_compute. reflexivity. Qed.

Example gunzip_empty : Zlib.gunzip Scenario.emptyGz = Zlib.Ok [].
Proof. vm_compute. reflexivity. Qed.

Example gunzip_nul :
  Zlib.gunzip Scenario.nulGz = Zlib.Ok (Buf.ofNs [0x61; 0x00; 0x62]).
Proof. vm_compute. reflexivity. Qed.

Example gunzip_truncated :
  Zlib.gunzip Scenario.truncatedGz = Zlib.Fail "unexpected end of file".
Proof. vm_compute. reflexivity. Qed.

Example parse_error_document :
  Json.parse (Buf.toString Scenario.errorDocument)
  = Some (JObj [(js "errors",
                 JArr [JObj [(js "status", JStr (js "404"));
                             (js "detail", JStr (js "No report"))]])]).
Proof. vm_compute. reflexivity. Qed.

Example stringify_parse_error_document :
  option_map Json.stringify (Json.parse (Buf.toString Scenario.errorDocument))
  = Some (Buf.toString Scenario.errorDocument).
Proof. vm_compute. reflexivity. Qed.

(** Numbers are written as the engine writes the double they denote. *)
Example show_number_rounds_to_double :
  Json.show_number {| num_neg := false; num_mant := 12345678901234567890;
                      num_exp10 := 0 |} = js "12345678901234567000" /\
  Json.show_number {| num_neg := true; num_mant := 15; num_exp10 := (-1)%Z |}
  = js "-1.5" /\
  Json.show_number {| num_neg := false; num_mant := 1; num_exp10 := 21%Z |}
  = js "1e+21" /\
  Json.show_number {| num_neg := false; num_mant := 1; num_exp10 := (-7)%Z |}
  = js "1e-7" /\
  Json.show_number {| num_neg := false; num_mant := 30000000000000004;
                      num_exp10 := (-17)%Z |} = js "0.30000000000000004" /\
  Json.show_number {| num_neg := false; num_mant := 1; num_exp10 := 400%Z |}
  = js "null".
Proof. repeat split; vm_compute; reflexivity. Qed.

(** A header cut inside its method and flags is an unexpected end of file. *)
Example gunzip_cut_header :
  Zlib.gunzip (Buf.ofNs [0x1f; 0x8b; 0x09]) = Zlib.Fail "unexpected end of file" /\
  Zlib.gunzip (Buf.ofNs [0x1f; 0x8b; 0x09; 0x00]) = Zlib.Fail "unknown compression method".
Proof. split; vm_compute; reflexivity. Qed.

(** ** The monad *)

Lemma bind_assoc {A B C} (m : M A) (f : A -> M B) (g : B -> M C) w :
  bind m (fun x => bind (f x) g) w = bind (bind m f) g w.
Proof. unfold bind. destruct (m w) as [[a|e] w']; reflexivity. Qed.

(** A [catch] that ignores its error always completes. *)
Lemma try_catch_swallow (m : M unit) w :
  exists w', try_catch m (fun _ => ret tt) w = (Returned tt, w').
Proof.
  unfold try_catch, ret. destruct (m w) as [[[]|e] w']; eauto.
Qed.

(** ** Computations that log no call *)

Create HintDb quiet.

Lemma quiet_ret {A} (a : A) : quiet (ret a).
Proof. intros w. reflexivity. Qed.

Lemma quiet_throw {A} e : quiet (@throw A e).
Proof. intros w. reflexivity. Qed.

Lemma quiet_lift {A} (o : outcome A) : quiet (lift o).
Proof. intros w. reflexivity. Qed.

Lemma quiet_bind {A B} (m : M A) (k : A -> M B) :
  quiet m -> (forall a, quiet (k a)) -> quiet (bind m k).
Proof.
  intros Hm Hk w. unfold bind. specialize (Hm w).
  destruct (m w) as [[a|e] w']; simpl in *; [|done].
  rewrite Hk. done.
Qed.

Lemma quiet_try_catch {A} (m : M A) (h : JsError -> M A) :
  quiet m -> (forall e, quiet (h e)) -> quiet (try_catch m h).
Proof.
  intros Hm Hh w. unfold try_catch. specialize (Hm w).
  destruct (m w) as [[a|e] w']; simpl in *; [done|].
  rewrite Hh. done.
Qed.

Lemma quiet_if {A} (b : bool) (m1 m2 : M A) :
  quiet m1 -> quiet m2 -> quiet (if b then m1 else m2).
Proof. destruct b; auto. Qed.

Lemma quiet_writeFileSync env path data : quiet (fs.writeFileSync env path data).
Proof.
  intros w. unfold fs.writeFileSync, fs.put, bind, throw.
  destruct (fs_write_fault env path) as [[e|e n]|]; reflexivity.
Qed.

Lemma quiet_readFileSync env path : quiet (fs.readFileSync env path).
Proof.
  intros w. unfold fs.readFileSync.
  destruct (fs_read_fault env path); [reflexivity|].
  destruct (files w !! path); reflexivity.
Qed.

Lemma quiet_existsSync path : quiet (fs.existsSync path).
Proof. intros w. reflexivity. Qed.

Lemma quiet_unlinkSync env path : quiet (fs.unlinkSync env path).
Proof.
  intros w. unfold fs.unlinkSync.
  destruct (fs_unlink_fault env path); [reflexivity|].
  destruct (files w !! path); reflexivity.
Qed.

#[export] Hint Resolve quiet_ret quiet_throw quiet_lift quiet_bind quiet_try_catch
  quiet_if quiet_writeFileSync quiet_readFileSync quiet_existsSync
  quiet_unlinkSync : quiet.

(** ** The non-gzip branch *)

Lemma checkForApiError_returns rt textData w :
  StagingClient.checkForApiError rt textData w = (Returned tt, w).
Proof.
  unfold StagingClient.checkForApiError.
  destruct (Js.startsWith _ _); [|reflexivity].
  unfold_m.
  destruct (JSON_parse rt textData) as [jsonData|e]; [|reflexivity].
  destruct (Val.get jsonData _) as [errors|]; [|reflexivity].
  destruct (Val.truthy errors); reflexivity.
Qed.

Lemma passThroughText_returns rt buffer w :
  StagingClient.passThroughText rt buffer w
  = (Returned (ReportData (Buf.toString buffer)), w).
Proof.
  unfold StagingClient.passThroughText, bind.
  rewrite checkForApiError_returns. reflexivity.
Qed.

(** ** The staged decompression *)

(** ** Paths and decimal renderings *)

(** [path.join] hands out paths in normal form. *)
Example path_join_normalises :
  path_join (js "/tmp/v_dot/./sub") (js "apple_report_1_2.gz")
  = js "/tmp/v_dot/sub/apple_report_1_2.gz" /\
  path_join (js "/tmp/") (js "apple_report_1_2.gz") = js "/tmp/apple_report_1_2.gz" /\
  path_join (js "/var//folders/../tmp") (js "apple_report_1_2.gz")
  = js "/var/tmp/apple_report_1_2.gz" /\
  path_join (js "../tmp") (js "apple_report_1_2.gz") = js "../tmp/apple_report_1_2.gz" /\
  path_join [] (js "apple_report_1_2.gz") = js "apple_report_1_2.gz".
Proof. repeat split; vm_compute; reflexivity. Qed.

Lemma lit_inj s1 s2 : Js.lit s1 = Js.lit s2 -> s1 = s2.
Proof.
  unfold Js.lit. intros H.
  apply (f_equal (map ascii_of_N)) in H. rewrite !map_map in H.
  rewrite !(map_ext _ (fun c => c) ascii_N_embedding), !map_id in H.
  rewrite <- (string_of_list_ascii_of_string s1), <- (string_of_list_ascii_of_string s2).
  congruence.
Qed.

Lemma to_uint_nonnil n : N.to_uint n <> Decimal.Nil.
Proof. destruct n; [discriminate|apply DecimalPos.Unsigned.to_uint_nonnil]. Qed.

Lemma ofN_inj a b : Js.ofN a = Js.ofN b -> a = b.
Proof.
  unfold Js.ofN. intros H%lit_inj.
  apply DecimalN.Unsigned.to_uint_inj.
  pose proof (NilZero.usu _ (to_uint_nonnil a)) as Ha.
  pose proof (NilZero.usu _ (to_uint_nonnil b)) as Hb.
  congruence.
Qed.

Lemma string_of_uint_digits d :
  Forall (fun c => RegExp.isDigit c = true) (Js.lit (NilEmpty.string_of_uint d)).
Proof.
  unfold Js.lit. induction d; cbn; constructor; solve [reflexivity | assumption].
Qed.

Lemma ofN_digits n : Forall (fun c => RegExp.isDigit c = true) (Js.ofN n).
Proof.
  unfold Js.ofN, NilZero.string_of_uint.
  destruct (N.to_uint n) eqn:E; try apply string_of_uint_digits.
  repeat constructor.
Qed.

(** Two texts that each consist of a run of digits, one other character
    and a rest are equal only part by part. *)
Lemma digits_split l1 l2 x y r1 r2 :
  Forall (fun c => RegExp.isDigit c = true) l1 ->
  Forall (fun c => RegExp.isDigit c = true) l2 ->
  RegExp.isDigit x = false -> RegExp.isDigit y = false ->
  l1 ++ x :: r1 = l2 ++ y :: r2 ->
  l1 = l2 /\ x = y /\ r1 = r2.
Proof.
  intros H1. revert l2. induction H1 as [|c l1 Hc H1 IH]; intros l2 H2 Hx Hy Heq.
  - destruct H2 as [|d l2 Hd H2]; cbn in Heq.
    + injection Heq as -> ->. auto.
    + injection Heq as -> _. congruence.
  - destruct H2 as [|d l2 Hd H2]; cbn in Heq.
    + injection Heq as -> _. congruence.
    + injection Heq as -> Heq.
      destruct (IH l2 H2 Hx Hy Heq) as (-> & -> & ->). auto.
Qed.

Lemma tempName_inj env1 env2 ext1 ext2 c1 c2 :
  ext1 = 0x2E :: c1 -> ext2 = 0x2E :: c2 ->
  StagingClient.tempName env1 ext1 = StagingClient.tempName env2 ext2 ->
  Date_now env1 = Date_now env2 /\
  Math_random_times_10000 env1 = Math_random_times_10000 env2 /\
  ext1 = ext2.
Proof.
  intros -> ->. unfold StagingClient.tempName. intros H.
  apply app_inv_head in H.
  change (js "_") with [0x5F] in H. cbn [app] in H.
  apply digits_split in H as (Hnow & _ & H); try apply ofN_digits; try reflexivity.
  apply digits_split in H as (Hrandom & _ & H); try apply ofN_digits; try reflexivity.
  apply ofN_inj in Hnow, Hrandom. subst. auto.
Qed.

Lemma segments_nonempty path : Path.segments path <> [].
Proof.
  destruct path as [|c rest]; cbn; [discriminate|].
  destruct (Path.isSeparator c); [discriminate|].
  destruct (Path.segments rest); discriminate.
Qed.

Lemma segments_plain name :
  Forall (fun c => Path.isSeparator c = false) name -> Path.segments name = [name].
Proof.
  induction 1 as [|c name Hc _ IH]; cbn; [reflexivity|].
  rewrite Hc, IH. reflexivity.
Qed.

Lemma segments_app dir name :
  Path.segments (dir ++ 0x2F :: name) = Path.segments dir ++ Path.segments name.
Proof.
  induction dir as [|c dir IH]; cbn; [reflexivity|].
  destruct (Path.isSeparator c); [rewrite IH; reflexivity|].
  rewrite IH. pose proof (segments_nonempty dir).
  destruct (Path.segments dir); [done|reflexivity].
Qed.

Lemma join_snoc sep parts name :
  Json.join sep (parts ++ [name])
  = match parts with
    | [] => name
    | _ => Json.join sep parts ++ sep ++ name
    end.
Proof.
  induction parts as [|p parts IH]; cbn; [reflexivity|].
  destruct parts as [|q parts]; [reflexivity|].
  cbn in IH |- *. rewrite IH. rewrite <- !app_assoc. reflexivity.
Qed.

Lemma last_plain name :
  name <> [] -> Forall (fun c => Path.isSeparator c = false) name ->
  Path.isSeparator (List.last name 0) = false.
Proof.
  intros Hne Hplain. induction Hplain as [|c name Hc Hplain IH]; [done|].
  destruct name as [|d name]; [exact Hc|]. apply IH. discriminate.
Qed.

Lemma last_after dir (c : N) name :
  name <> [] -> List.last (dir ++ c :: name) 0 = List.last name 0.
Proof.
  intros Hne. induction dir as [|d dir IH].
  - destruct name; [done|reflexivity].
  - cbn [app]. rewrite <- IH.
    destruct (dir ++ c :: name) eqn:E; [|reflexivity].
    destruct dir; discriminate E.
Qed.

Lemma push_plain allowAboveRoot kept name :
  plainName name -> Path.push allowAboveRoot kept name = name :: kept.
Proof.
  intros (Hne & Hdot & Hdots & _). unfold Path.push.
  rewrite decide_False by (intros [? | ?]; done).
  rewrite decide_False by done. reflexivity.
Qed.

(** [path.join] appends a plain name as it is. *)
Lemma path_join_plain dir name :
  plainName name -> path_join dir name = joinPrefix dir ++ name.
Proof.
  intros Hplain. pose proof Hplain as (Hne & _ & _ & Hsep).
  assert (Hlast := last_plain name Hne Hsep).
  destruct name as [|n0 name]; [done|].
  unfold path_join, Path.join.
  destruct dir as [|c dir].
  - unfold Path.normalize, Path.normalizeString.
    rewrite segments_plain by done. cbn [fold_left].
    rewrite push_plain by done. cbn [rev app Json.join].
    rewrite Hlast. apply Forall_cons in Hsep as [-> _].
    cbn [negb joinPrefix app]. f_equal. apply app_nil_r.
  - change (js "/" ++ n0 :: name) with (0x2F :: n0 :: name).
    unfold Path.normalize. cbn [app].
    change (c :: dir ++ 0x2F :: n0 :: name) with ((c :: dir) ++ 0x2F :: n0 :: name).
    rewrite last_after by done. rewrite Hlast.
    unfold Path.normalizeString.
    rewrite segments_app, fold_left_app, segments_plain by done.
    cbn [fold_left]. rewrite push_plain by done.
    cbn [rev]. rewrite join_snoc. unfold joinPrefix.
    destruct (rev (fold_left _ (Path.segments (c :: dir)) [])) as [|k kept].
    + rewrite !app_nil_r. reflexivity.
    + destruct (Json.join (js "/") (k :: kept) ++ js "/" ++ n0 :: name) eqn:E.
      * apply app_eq_nil in E as [_ E]. discriminate E.
      * rewrite app_nil_r, <- E, <- !app_assoc. reflexivity.
Qed.

Lemma tempName_plain env ext :
  Forall (fun c => Path.isSeparator c = false) ext ->
  plainName (StagingClient.tempName env ext).
Proof.
  intros Hext. unfold plainName, StagingClient.tempName.
  repeat split; try discriminate.
  assert (Hdigits : forall n, Forall (fun c => Path.isSeparator c = false) (Js.ofN n)).
  { intros n. eapply Forall_impl; [apply ofN_digits|].
    intros c Hc. unfold RegExp.isDigit in Hc.
    apply andb_true_iff in Hc as [Hc%N.leb_le _].
    unfold Path.isSeparator. apply N.eqb_neq. lia. }
  rewrite !Forall_app. repeat split; auto; repeat constructor.
Qed.

Lemma temp_paths_plain env :
  StagingClient.tempGzPath env
  = joinPrefix (os_tmpdir env) ++ StagingClient.tempName env (js ".gz") /\
  StagingClient.tempTxtPath env
  = joinPrefix (os_tmpdir env) ++ StagingClient.tempName env (js ".txt").
Proof.
  unfold StagingClient.tempGzPath, StagingClient.tempTxtPath.
  split; apply path_join_plain, tempName_plain; repeat constructor.
Qed.

Lemma temp_paths_differ env :
  StagingClient.tempGzPath env <> StagingClient.tempTxtPath env.
Proof.
  destruct (temp_paths_plain env) as [-> ->]. intros H.
  apply app_inv_head in H.
  eapply tempName_inj in H as (_ & _ & H); [discriminate H|reflexivity..].
Qed.

Lemma stageAndDecompress_outcome rt env buffer w :
  (StagingClient.stageAndDecompress rt env buffer w).1
  = match stagingVerdict rt env buffer with
    | Returned csvData => Returned (ReportData csvData)
    | Thrown cause => Thrown cause
    end.
Proof.
  unfold StagingClient.stageAndDecompress, stagingVerdict.
  set (gz := StagingClient.tempGzPath env).
  set (txt := StagingClient.tempTxtPath env).
  unfold fs.writeFileSync.
  destruct (fs_write_fault env gz) as [[e|e n]|]; try reflexivity.
  unfold bind at 1. unfold fs.put at 1. unfold bind at 1, lift at 1.
  destruct (gunzipSync rt buffer) as [data|e]; [|reflexivity].
  destruct (fs_write_fault env txt) as [[e|e n]|]; try reflexivity.
  unfold bind at 1. unfold fs.put at 1.
  unfold bind at 1. unfold fs.readFileSync at 1. cbn [files].
  destruct (fs_read_fault env txt) as [e|]; [reflexivity|].
  rewrite lookup_insert_eq.
  unfold bind at 1.
  destruct (Js.isEmpty _ || Js.includes _ _); [reflexivity|].
  unfold ret at 1. unfold bind at 1.
  swallow try_catch_swallow. reflexivity.
Qed.

Lemma cleanupAndFail_outcome env error w :
  (StagingClient.cleanupAndFail env error w).1 = Thrown (decompressionFailure error).
Proof.
  unfold StagingClient.cleanupAndFail. unfold bind at 1.
  swallow try_catch_swallow. reflexivity.
Qed.

Lemma decompressViaTempFiles_outcome rt env buffer w :
  (StagingClient.decompressViaTempFiles rt env buffer w).1 = stagedOutcome rt env buffer.
Proof.
  unfold StagingClient.decompressViaTempFiles, stagedOutcome, try_catch.
  pose proof (stageAndDecompress_outcome rt env buffer w) as H.
  destruct (StagingClient.stageAndDecompress rt env buffer w) as [[p|e] w'];
    simpl in H; destruct (stagingVerdict rt env buffer);
    rewrite ?cleanupAndFail_outcome; simpl; congruence.
Qed.

(** A returned staging verdict is the decoded output of the decoder. *)
Lemma stagingVerdict_returned rt env buffer csvData :
  stagingVerdict rt env buffer = Returned csvData ->
  exists data,
    gunzipSync rt buffer = Returned data /\
    csvData = Buf.toString data /\
    Js.isEmpty csvData = false /\
    Js.includes csvData [0] = false.
Proof.
  unfold stagingVerdict.
  destruct (fs_write_fault env _); [discriminate|].
  destruct (gunzipSync rt buffer) as [data|e]; [|discriminate].
  destruct (fs_write_fault env _); [discriminate|].
  destruct (fs_read_fault env _); [discriminate|].
  cbn zeta.
  destruct (Js.isEmpty _ || Js.includes _ _) eqn:Hcheck; [discriminate|].
  intros [= <-]. apply orb_false_elim in Hcheck as [? ?]. eauto.
Qed.

Lemma stagedOutcome_ignores_unlink_faults rt env fault buffer :
  stagedOutcome rt (withUnlinkFault env fault) buffer = stagedOutcome rt env buffer.
Proof. reflexivity. Qed.

Section Cleanup.
Variable rt : Runtime.
Variable env : Env.
Hypothesis unlink_gz_ok : fs_unlink_fault env (StagingClient.tempGzPath env) = None.
Hypothesis unlink_txt_ok : fs_unlink_fault env (StagingClient.tempTxtPath env) = None.

(** [if (fs.existsSync(path)) fs.unlinkSync(path)] leaves no file at
    [path] and touches no other path. *)
Lemma remove_if_exists path w :
  fs_unlink_fault env path = None ->
  exists w',
    (let* found := fs.existsSync path in
     if found then fs.unlinkSync env path else ret tt) w = (Returned tt, w') /\
    files w' = delete path (files w).
Proof.
  intros Hok. unfold bind, fs.existsSync, fs.unlinkSync, ret. rewrite Hok.
  destruct (files w !! path) as [b|] eqn:Hp.
  - rewrite bool_decide_eq_true_2 by eauto. rewrite Hp. eauto.
  - rewrite bool_decide_eq_false_2 by (intros [? ?]; congruence).
    eexists; split; [reflexivity|]. symmetry. by apply delete_id.
Qed.

Lemma cleanupAndFail_world error w :
  exists w',
    StagingClient.cleanupAndFail env error w
    = (Thrown (decompressionFailure error), w') /\
    files w' = delete (StagingClient.tempTxtPath env)
                 (delete (StagingClient.tempGzPath env) (files w)).
Proof.
  unfold StagingClient.cleanupAndFail.
  destruct (remove_if_exists (StagingClient.tempGzPath env) w unlink_gz_ok)
    as (w1 & Hrun1 & Hfiles1).
  destruct (remove_if_exists (StagingClient.tempTxtPath env) w1 unlink_txt_ok)
    as (w2 & Hrun2 & Hfiles2).
  exists w2. split; [|congruence].
  unfold bind at 1. unfold try_catch at 1.
  rewrite bind_assoc. unfold bind at 1. rewrite Hrun1, Hrun2. reflexivity.
Qed.

Lemma cleanupAndFail_cleans error w :
  staged_absent env (StagingClient.cleanupAndFail env error w).2.
Proof.
  pose proof (temp_paths_differ env) as Hne.
  destruct (cleanupAndFail_world error w) as (w' & -> & Hfiles).
  unfold staged_absent. cbn. rewrite Hfiles.
  split; simplify_map_eq; done.
Qed.

Lemma stageAndDecompress_cleans buffer w p w' :
  StagingClient.stageAndDecompress rt env buffer w = (Returned p, w') ->
  staged_absent env w'.
Proof.
  pose proof (temp_paths_differ env) as Hne.
  unfold StagingClient.stageAndDecompress, staged_absent.
  unfold_fs. unfold_m. rewrite unlink_gz_ok, unlink_txt_ok.
  destruct (fs_write_fault env (StagingClient.tempGzPath env)) as [[e|e n]|];
    simpl; try discriminate.
  destruct (gunzipSync rt buffer) as [data|e]; simpl; try discriminate.
  destruct (fs_write_fault env (StagingClient.tempTxtPath env)) as [[e|e n]|];
    simpl; try discriminate.
  destruct (fs_read_fault env (StagingClient.tempTxtPath env)) as [e|];
    simpl; try discriminate.
  rewrite lookup_insert_eq. simpl.
  destruct (Js.isEmpty _ || Js.includes _ _); simpl; try discriminate.
  rewrite lookup_insert_ne by done. rewrite lookup_insert_eq. simpl.
  rewrite lookup_delete_ne by done. rewrite lookup_insert_eq. simpl.
  intros [= <- <-]. simpl. split; simplify_map_eq; done.
Qed.

Lemma decompressViaTempFiles_cleans buffer w :
  staged_absent env (StagingClient.decompressViaTempFiles rt env buffer w).2.
Proof.
  unfold StagingClient.decompressViaTempFiles, try_catch.
  destruct (StagingClient.stageAndDecompress rt env buffer w) as [[p|e] w'] eqn:Hstage.
  - simpl. eapply stageAndDecompress_cleans; eauto.
  - apply cleanupAndFail_cleans.
Qed.

End Cleanup.

(** ** What the resolvers come to *)

Lemma quiet_staging_resolveBuffer rt env buffer :
  quiet (StagingClient.resolveBuffer rt env buffer).
Proof.
  unfold StagingClient.resolveBuffer, StagingClient.decompressViaTempFiles,
    StagingClient.stageAndDecompress, StagingClient.cleanupAndFail,
    StagingClient.passThroughText.
  apply quiet_if.
  - apply quiet_try_catch; [|intros e]; repeat (first
      [ apply quiet_bind; [|intros ?]
      | apply quiet_try_catch; [|intros ?]
      | apply quiet_if
      | solve [auto with quiet] ]).
  - intros w. fold (StagingClient.passThroughText rt buffer).
    rewrite passThroughText_returns. reflexivity.
Qed.

Lemma quiet_direct_resolveBuffer rt buffer :
  quiet (DirectClient.resolveBuffer rt buffer).
Proof.
  unfold DirectClient.resolveBuffer. auto 6 with quiet.
Qed.

Lemma staging_resolveBuffer_gzip rt env buffer w :
  Buf.isGzipped buffer = true ->
  (StagingClient.resolveBuffer rt env buffer w).1 = stagedOutcome rt env buffer.
Proof.
  intros Hmagic. unfold StagingClient.resolveBuffer. rewrite Hmagic.
  apply decompressViaTempFiles_outcome.
Qed.

Lemma staging_resolveBuffer_plain rt env buffer w :
  Buf.isGzipped buffer = false ->
  StagingClient.resolveBuffer rt env buffer w
  = (Returned (ReportData (Buf.toString buffer)), w).
Proof.
  intros Hmagic. unfold StagingClient.resolveBuffer. rewrite Hmagic.
  apply passThroughText_returns.
Qed.

Lemma direct_resolveBuffer_eq rt buffer w :
  DirectClient.resolveBuffer rt buffer w
  = (if Buf.isGzipped buffer then
       match gunzipSync rt buffer with
       | Returned data => Returned (ReportData (Buf.toString data))
       | Thrown e => Thrown e
       end
     else Returned (ReportData (Buf.toString buffer)), w).
Proof.
  unfold DirectClient.resolveBuffer, bind, lift, ret.
  destruct (Buf.isGzipped buffer); [|reflexivity].
  destruct (gunzipSync rt buffer); reflexivity.
Qed.

(** C9: a report buffer without the gzip magic number whose text does not
    begin with an opening brace (after trimming) is returned decoded as
    UTF-8 text, unchanged, by the resolver of either client. *)
Theorem C9_plain_text_passes_unchanged rt env buffer w :
  Buf.isGzipped buffer = false ->
  Js.startsWith (Js.trim (Buf.toString buffer)) (js "{") = false ->
  StagingClient.resolveBuffer rt env buffer w
    = (Returned (ReportData (Buf.toString buffer)), w) /\
  DirectClient.resolveBuffer rt buffer w
    = (Returned (ReportData (Buf.toString buffer)), w).
Proof.
  intros Hmagic Hbrace. split.
  - unfold StagingClient.resolveBuffer, StagingClient.passThroughText,
      StagingClient.checkForApiError.
    rewrite Hmagic, Hbrace. reflexivity.
  - rewrite direct_resolveBuffer_eq, Hmagic. reflexivity.
Qed.

(** A tab-separated report goes through both resolvers unchanged. *)
Lemma C9_witness :
  Buf.isGzipped Scenario.plainReport = false /\
  Js.startsWith (Js.trim (Buf.toString Scenario.plainReport)) (js "{") = false /\
  StagingClient.resolveBuffer Node.runtime Scenario.idle Scenario.plainReport
      Scenario.emptyWorld
    = (Returned (ReportData (Buf.toString Scenario.plainReport)), Scenario.emptyWorld) /\
  DirectClient.resolveBuffer Node.runtime Scenario.plainReport Scenario.emptyWorld
    = (Returned (ReportData (Buf.toString Scenario.plainReport)), Scenario.emptyWorld).
Proof.
  split; [reflexivity|]. split; [reflexivity|].
  apply C9_plain_text_passes_unchanged; reflexivity.
Defined.

(** C2, amended: for a report buffer that begins with the gzip magic
    number, what comes back is always the decoded output of gunzip and
    never the buffer as it came. The in-memory client returns that text
    when gunzip succeeds and fails with gunzip's error otherwise. The
    staging client returns it exactly when writing the [.gz] file, gunzip,
    writing the [.txt] file and reading it back all succeed and the text is
    neither empty nor holds a null character; otherwise it fails with
    "Failed to decompress report data: " followed by the message of the
    first of these steps that failed. *)
Theorem C2_gzip_resolves_to_text_or_fails rt env buffer w :
  Buf.isGzipped buffer = true ->
  (StagingClient.resolveBuffer rt env buffer w).1
  = match fs_write_fault env (StagingClient.tempGzPath env) with
    | Some fault => Thrown (decompressionFailure (writeError fault))
    | None =>
        match gunzipSync rt buffer with
        | Thrown e => Thrown (decompressionFailure e)
        | Returned data =>
            match fs_write_fault env (StagingClient.tempTxtPath env) with
            | Some fault => Thrown (decompressionFailure (writeError fault))
            | None =>
                match fs_read_fault env (StagingClient.tempTxtPath env) with
                | Some e => Thrown (decompressionFailure e)
                | None =>
                    if Js.isEmpty (Buf.toString data) ||
                       Js.includes (Buf.toString data) [0]
                    then Thrown (decompressionFailure invalidCharacters)
                    else Returned (ReportData (Buf.toString data))
                end
            end
        end
    end /\
  (DirectClient.resolveBuffer rt buffer w).1
  = match gunzipSync rt buffer with
    | Returned data => Returned (ReportData (Buf.toString data))
    | Thrown e => Thrown e
    end.
Proof.
  intros Hmagic. split.
  - rewrite staging_resolveBuffer_gzip by done.
    unfold stagedOutcome, stagingVerdict.
    destruct (fs_write_fault env (StagingClient.tempGzPath env)); [reflexivity|].
    destruct (gunzipSync rt buffer) as [data|e]; [|reflexivity].
    destruct (fs_write_fault env (StagingClient.tempTxtPath env)); [reflexivity|].
    destruct (fs_read_fault env (StagingClient.tempTxtPath env)); [reflexivity|].
    cbn zeta. destruct (Js.isEmpty _ || Js.includes _ _); reflexivity.
  - rewrite direct_resolveBuffer_eq, Hmagic. reflexivity.
Qed.

(** On the gzip of [hello], with no fault, both clients return the text
    [hello]. *)
Lemma C2_witness :
  Buf.isGzipped Scenario.helloGz = true /\
  (StagingClient.resolveBuffer Node.runtime Scenario.idle Scenario.helloGz
     Scenario.emptyWorld).1 = Returned (ReportData (js "hello")) /\
  (DirectClient.resolveBuffer Node.runtime Scenario.helloGz Scenario.emptyWorld).1
  = Returned (ReportData (js "hello")).
Proof.
  destruct (C2_gzip_resolves_to_text_or_fails Node.runtime Scenario.idle
              Scenario.helloGz Scenario.emptyWorld eq_refl)
    as [Hstaged Hdirect].
  split; [reflexivity|]. split.
  - rewrite Hstaged. vm_compute. reflexivity.
  - rewrite Hdirect. vm_compute. reflexivity.
Defined.

(** The scenario of the specification: the gzip of [hello] resolves to the
    text [hello] in both clients. *)
Example hello_resolves :
  (StagingClient.resolveBuffer Node.runtime Scenario.idle Scenario.helloGz
     Scenario.emptyWorld).1 = Returned (ReportData (js "hello")) /\
  (DirectClient.resolveBuffer Node.runtime Scenario.helloGz Scenario.emptyWorld).1
    = Returned (ReportData (js "hello")).
Proof. split; vm_compute; reflexivity. Qed.

(** C2 as stated fails on the gzip of the empty text: the buffer is a
    well-formed gzip member, gunzip succeeds, the content holds no null
    character and no file operation fails, yet the staging client does not
    return the decompressed text but raises an error; the in-memory client
    returns the text. *)
Lemma C2_counterexample :
  Buf.isGzipped Scenario.emptyGz = true /\
  gunzipSync Node.runtime Scenario.emptyGz = Returned [] /\
  Js.includes (Buf.toString []) [0] = false /\
  (forall path, fs_write_fault Scenario.idle path = None /\
                fs_read_fault Scenario.idle path = None /\
                fs_unlink_fault Scenario.idle path = None) /\
  (StagingClient.resolveBuffer Node.runtime Scenario.idle Scenario.emptyGz
     Scenario.emptyWorld).1
  = Thrown (Error (js "Failed to decompress report data: Decompressed data contains invalid characters")) /\
  (DirectClient.resolveBuffer Node.runtime Scenario.emptyGz Scenario.emptyWorld).1
  = Returned (ReportData []).
Proof. repeat split; vm_compute; reflexivity. Qed.

(** Failures the specification provides for: the gzip of a text that holds
    a null character is rejected by the staging client (and returned by the
    in-memory client), and a buffer cut after the magic number fails in
    both. *)
Example binary_and_truncated_gzip :
  (Buf.isGzipped Scenario.nulGz = true /\
   gunzipSync Node.runtime Scenario.nulGz = Returned (Buf.ofNs [0x61; 0x00; 0x62]) /\
   (StagingClient.resolveBuffer Node.runtime Scenario.idle Scenario.nulGz
      Scenario.emptyWorld).1
     = Thrown (decompressionFailure invalidCharacters) /\
   (DirectClient.resolveBuffer Node.runtime Scenario.nulGz Scenario.emptyWorld).1
     = Returned (ReportData [0x61; 0x00; 0x62])) /\
  (Buf.isGzipped Scenario.truncatedGz = true /\
   (StagingClient.resolveBuffer Node.runtime Scenario.idle Scenario.truncatedGz
      Scenario.emptyWorld).1
     = Thrown (Error (js "Failed to decompress report data: unexpected end of file")) /\
   (DirectClient.resolveBuffer Node.runtime Scenario.truncatedGz Scenario.emptyWorld).1
     = Thrown (Error (js "unexpected end of file"))).
Proof. repeat split; vm_compute; reflexivity. Qed.

(** C1: the error document [{"errors":[...]}] is not gzip, begins with an
    opening brace and parses to an object with an error list, yet the
    request returns it as report text: the error thrown for the list is
    caught by the [catch] meant for text that is not JSON. *)
Theorem C1_error_document_is_returned_as_text :
  let text := Buf.toString Scenario.errorDocument in
  Buf.isGzipped Scenario.errorDocument = false /\
  Js.startsWith (Js.trim text) (js "{") = true /\
  (exists jsonData errors,
     JSON_parse Node.runtime text = Returned jsonData /\
     Val.get jsonData (js "errors") = Some errors /\
     Val.truthy errors = true) /\
  forall method params w,
    (StagingClient.request Node.runtime
       (Scenario.env (Scenario.ok (DBuffer Scenario.errorDocument)))
       method (js "/salesReports") JUndefined params w).1
    = Returned (ReportData text).
Proof.
  cbn zeta. split; [reflexivity|]. split; [reflexivity|]. split.
  - eexists _, _. split; [vm_compute; reflexivity|]. split; reflexivity.
  - intros method params w.
    unfold StagingClient.request, generateToken, axios_request.
    unfold bind at 1. unfold bind at 1. unfold log at 1. unfold lift at 1.
    cbn [Scenario.env authService_generateToken].
    unfold bind at 1. unfold bind at 1. unfold log at 1. unfold lift at 1.
    cbn [Scenario.env axios_adapter Scenario.ok resp_data].
    replace (StagingClient.isReportEndpoint (js "/salesReports")) with true
      by (vm_compute; reflexivity).
    unfold StagingClient.resolveReport, try_catch, bind.
    cbn [StagingClient.responseBuffer ret].
    rewrite staging_resolveBuffer_plain by reflexivity. reflexivity.
Qed.

(** Whatever the runtime, a report buffer without the gzip magic number
    never makes the staging client fail. *)
Lemma non_gzip_buffer_never_fails rt env buffer w :
  Buf.isGzipped buffer = false ->
  StagingClient.resolveReport rt env (DBuffer buffer) w
  = (Returned (ReportData (Buf.toString buffer)), w).
Proof.
  intros Hmagic. unfold StagingClient.resolveReport, try_catch, bind.
  cbn [StagingClient.responseBuffer ret].
  rewrite staging_resolveBuffer_plain by done. reflexivity.
Qed.

(** What a decompression that succeeds leaves behind: the two staged
    files, less the ones its removals reached. *)
Lemma stageAndDecompress_success_files rt env buffer w p w' :
  StagingClient.stageAndDecompress rt env buffer w = (Returned p, w') ->
  exists data,
    let staged := <[StagingClient.tempTxtPath env := data]>
                    (<[StagingClient.tempGzPath env := buffer]> (files w)) in
    files w'
    = match fs_unlink_fault env (StagingClient.tempGzPath env) with
      | Some _ => staged
      | None =>
          match fs_unlink_fault env (StagingClient.tempTxtPath env) with
          | Some _ => delete (StagingClient.tempGzPath env) staged
          | None => delete (StagingClient.tempTxtPath env)
                      (delete (StagingClient.tempGzPath env) staged)
          end
      end.
Proof.
  pose proof (temp_paths_differ env) as Hne.
  unfold StagingClient.stageAndDecompress.
  unfold_fs. unfold_m.
  destruct (fs_write_fault env (StagingClient.tempGzPath env)) as [[e|e n]|];
    simpl; try discriminate.
  destruct (gunzipSync rt buffer) as [data|e]; simpl; try discriminate.
  destruct (fs_write_fault env (StagingClient.tempTxtPath env)) as [[e|e n]|];
    simpl; try discriminate.
  destruct (fs_read_fault env (StagingClient.tempTxtPath env)) as [e|];
    simpl; try discriminate.
  rewrite lookup_insert_eq. simpl.
  destruct (Js.isEmpty _ || Js.includes _ _); simpl; try discriminate.
  intros Hrun. exists data. revert Hrun. cbn zeta.
  destruct (fs_unlink_fault env (StagingClient.tempGzPath env)) as [e|]; simpl.
  { intros [= <- <-]. reflexivity. }
  rewrite lookup_insert_ne by done. rewrite lookup_insert_eq. simpl.
  destruct (fs_unlink_fault env (StagingClient.tempTxtPath env)) as [e|]; simpl.
  { intros [= <- <-]. reflexivity. }
  rewrite lookup_delete_ne by done. rewrite lookup_insert_eq. simpl.
  intros [= <- <-]. reflexivity.
Qed.

(** [if (fs.existsSync(path)) fs.unlinkSync(path)] with a removal that
    may fail: it throws only for a file that is there and cannot be
    removed, and then changes nothing. *)
Lemma remove_if_exists_run env path w :
  exists o w',
    (let* found := fs.existsSync path in
     if found then fs.unlinkSync env path else ret tt) w = (o, w') /\
    match fs_unlink_fault env path, files w !! path with
    | Some e, Some _ => o = Thrown e /\ files w' = files w
    | _, _ => o = Returned tt /\ files w' = delete path (files w)
    end.
Proof.
  unfold bind, fs.existsSync, fs.unlinkSync, ret.
  destruct (files w !! path) as [b|] eqn:Hp.
  - rewrite bool_decide_eq_true_2 by eauto. rewrite Hp.
    destruct (fs_unlink_fault env path) as [e|]; eauto.
  - rewrite bool_decide_eq_false_2 by (intros [? ?]; congruence).
    eexists _, _. split; [reflexivity|].
    rewrite delete_id by done. destruct (fs_unlink_fault env path); auto.
Qed.

(** What the handler of the inner [catch] leaves behind. *)
Lemma cleanupAndFail_files env error w :
  files (StagingClient.cleanupAndFail env error w).2
  = match fs_unlink_fault env (StagingClient.tempGzPath env),
          files w !! StagingClient.tempGzPath env with
    | Some _, Some _ => files w
    | _, _ =>
        let rest := delete (StagingClient.tempGzPath env) (files w) in
        match fs_unlink_fault env (StagingClient.tempTxtPath env),
              rest !! StagingClient.tempTxtPath env with
        | Some _, Some _ => rest
        | _, _ => delete (StagingClient.tempTxtPath env) rest
        end
    end.
Proof.
  unfold StagingClient.cleanupAndFail.
  destruct (remove_if_exists_run env (StagingClient.tempGzPath env) w)
    as (o1 & w1 & Hrun1 & H1).
  destruct (remove_if_exists_run env (StagingClient.tempTxtPath env) w1)
    as (o2 & w2 & Hrun2 & H2).
  unfold bind at 1. unfold try_catch at 1.
  rewrite bind_assoc. unfold bind at 1. rewrite Hrun1.
  cbn zeta.
  destruct (fs_unlink_fault env (StagingClient.tempGzPath env)) as [e1|];
    destruct (files w !! StagingClient.tempGzPath env) as [gz|];
    destruct H1 as [-> H1]; try exact H1;
    cbn beta iota; rewrite Hrun2; rewrite H1 in H2;
    destruct (fs_unlink_fault env (StagingClient.tempTxtPath env)) as [e2|];
    destruct (delete (StagingClient.tempGzPath env) (files w)
                !! StagingClient.tempTxtPath env) as [txt|];
    destruct H2 as [-> H2]; cbn [snd ret throw]; congruence.
Qed.

(** The [.gz] file is removed whenever its own removal does not fail. *)
Lemma decompressViaTempFiles_removes_gz rt env buffer w :
  fs_unlink_fault env (StagingClient.tempGzPath env) = None ->
  files (StagingClient.decompressViaTempFiles rt env buffer w).2
    !! StagingClient.tempGzPath env = None.
Proof.
  intros Hgz. pose proof (temp_paths_differ env) as Hne.
  unfold StagingClient.decompressViaTempFiles, try_catch.
  destruct (StagingClient.stageAndDecompress rt env buffer w) as [[p|e] w'] eqn:Hstage.
  - destruct (stageAndDecompress_success_files _ _ _ _ _ _ Hstage) as [data Hfiles].
    cbn zeta in Hfiles. cbn [snd]. rewrite Hfiles, Hgz.
    destruct (fs_unlink_fault env (StagingClient.tempTxtPath env));
      simplify_map_eq; done.
  - rewrite cleanupAndFail_files, Hgz. cbn zeta.
    destruct (fs_unlink_fault env (StagingClient.tempTxtPath env));
      destruct (delete (StagingClient.tempGzPath env) (files w')
                  !! StagingClient.tempTxtPath env);
      simplify_map_eq; done.
Qed.

(** C3, amended: after a decompression attempt on a gzip buffer, whichever
    way it ends (success, failed decompression, failed validation, failed
    write or read), the [.gz] file is gone provided its own removal does
    not fail, and the [.txt] file is gone provided neither removal fails:
    the two removals share one [try] block, so a failing removal of the
    [.gz] file leaves the [.txt] file behind as well. After a successful
    decompression these provisos are also necessary: the [.gz] file is
    left exactly when its removal fails, the [.txt] file exactly when one
    of the two removals fails. Whether a removal fails never changes the
    result of the attempt. *)
Theorem C3_staged_files_are_removed rt env buffer w :
  Buf.isGzipped buffer = true ->
  let run := StagingClient.resolveBuffer rt env buffer w in
  (fs_unlink_fault env (StagingClient.tempGzPath env) = None ->
   files run.2 !! StagingClient.tempGzPath env = None) /\
  (fs_unlink_fault env (StagingClient.tempGzPath env) = None ->
   fs_unlink_fault env (StagingClient.tempTxtPath env) = None ->
   files run.2 !! StagingClient.tempTxtPath env = None) /\
  (forall payload,
     run.1 = Returned payload ->
     (files run.2 !! StagingClient.tempGzPath env = None <->
      fs_unlink_fault env (StagingClient.tempGzPath env) = None) /\
     (files run.2 !! StagingClient.tempTxtPath env = None <->
      fs_unlink_fault env (StagingClient.tempGzPath env) = None /\
      fs_unlink_fault env (StagingClient.tempTxtPath env) = None)) /\
  (forall fault,
     (StagingClient.resolveBuffer rt (withUnlinkFault env fault) buffer w).1 = run.1).
Proof.
  intros Hmagic run. subst run.
  pose proof (temp_paths_differ env) as Hne.
  split; [|split; [|split]].
  - intros Hgz. unfold StagingClient.resolveBuffer. rewrite Hmagic.
    apply decompressViaTempFiles_removes_gz. assumption.
  - intros Hgz Htxt. unfold StagingClient.resolveBuffer. rewrite Hmagic.
    apply decompressViaTempFiles_cleans; assumption.
  - intros payload. unfold StagingClient.resolveBuffer. rewrite Hmagic.
    unfold StagingClient.decompressViaTempFiles, try_catch.
    destruct (StagingClient.stageAndDecompress rt env buffer w) as [[p|e] w'] eqn:Hstage.
    + intros _.
      destruct (stageAndDecompress_success_files _ _ _ _ _ _ Hstage) as [data Hfiles].
      cbn zeta in Hfiles. cbn [snd]. rewrite Hfiles.
      destruct (fs_unlink_fault env (StagingClient.tempGzPath env)) as [e|];
        destruct (fs_unlink_fault env (StagingClient.tempTxtPath env)) as [e'|];
        simplify_map_eq; split; split; try done; intros [? ?]; done.
    + rewrite cleanupAndFail_outcome. discriminate.
  - intros fault. rewrite !staging_resolveBuffer_gzip by done.
    apply stagedOutcome_ignores_unlink_faults.
Qed.

(** After the gzip of [hello] is resolved, no staged file is left. *)
Lemma C3_witness :
  Buf.isGzipped Scenario.helloGz = true /\
  fs_unlink_fault Scenario.idle (StagingClient.tempGzPath Scenario.idle) = None /\
  fs_unlink_fault Scenario.idle (StagingClient.tempTxtPath Scenario.idle) = None /\
  let w' := (StagingClient.resolveBuffer Node.runtime Scenario.idle Scenario.helloGz
               Scenario.emptyWorld).2 in
  files w' !! StagingClient.tempGzPath Scenario.idle = None /\
  files w' !! StagingClient.tempTxtPath Scenario.idle = None.
Proof.
  split; [reflexivity|]. split; [reflexivity|]. split; [reflexivity|].
  destruct (C3_staged_files_are_removed Node.runtime Scenario.idle Scenario.helloGz
              Scenario.emptyWorld eq_refl) as (Hgz & Htxt & _).
  split; [apply Hgz | apply Htxt]; reflexivity.
Defined.

(** C3 as stated fails when a removal fails after a successful
    decompression. When the removal of the [.gz] file fails, that file is
    left, and so is the [.txt] file, whose removal would not have failed
    but is not attempted. When only the removal of the [.txt] file fails,
    the [.gz] file is removed and the [.txt] file is left. The result is
    the text all the same. *)
Lemma C3_counterexample :
  let run := StagingClient.resolveBuffer Node.runtime Scenario.gzRemovalFails
               Scenario.helloGz Scenario.emptyWorld in
  let run' := StagingClient.resolveBuffer Node.runtime Samples.txtRemovalFails
                Scenario.helloGz Scenario.emptyWorld in
  Buf.isGzipped Scenario.helloGz = true /\
  (fs_unlink_fault Scenario.gzRemovalFails
     (StagingClient.tempTxtPath Scenario.gzRemovalFails) = None /\
   run.1 = Returned (ReportData (js "hello")) /\
   files run.2 !! StagingClient.tempGzPath Scenario.gzRemovalFails
     = Some Scenario.helloGz /\
   files run.2 !! StagingClient.tempTxtPath Scenario.gzRemovalFails
     = Some (Buf.ofString (js "hello"))) /\
  (fs_unlink_fault Samples.txtRemovalFails
     (StagingClient.tempGzPath Samples.txtRemovalFails) = None /\
   run'.1 = Returned (ReportData (js "hello")) /\
   files run'.2 !! StagingClient.tempGzPath Samples.txtRemovalFails = None /\
   files run'.2 !! StagingClient.tempTxtPath Samples.txtRemovalFails
     = Some (Buf.ofString (js "hello"))).
Proof. repeat split; vm_compute; reflexivity. Qed.

(** C4: when both succeed on a gzip buffer, the staging client and the
    in-memory client return the same text, the decoded output of gunzip. *)
Theorem C4_staged_text_is_in_memory_text rt env buffer w1 w2 text1 text2 w1' w2' :
  Buf.isGzipped buffer = true ->
  StagingClient.resolveBuffer rt env buffer w1 = (Returned (ReportData text1), w1') ->
  DirectClient.resolveBuffer rt buffer w2 = (Returned (ReportData text2), w2') ->
  text1 = text2 /\
  exists data, gunzipSync rt buffer = Returned data /\ text2 = Buf.toString data.
Proof.
  intros Hmagic Hstaged Hdirect.
  pose proof (staging_resolveBuffer_gzip rt env buffer w1 Hmagic) as Hout.
  rewrite Hstaged in Hout. cbn in Hout. unfold stagedOutcome in Hout.
  destruct (stagingVerdict rt env buffer) as [csvData|cause] eqn:Hverdict;
    [|discriminate].
  injection Hout as ->.
  apply stagingVerdict_returned in Hverdict as (data & Hdata & -> & _ & _).
  rewrite direct_resolveBuffer_eq, Hmagic, Hdata in Hdirect.
  injection Hdirect as <- _. eauto.
Qed.

(** On the gzip of [hello] both clients succeed, with the same text. *)
Lemma C4_witness :
  Buf.isGzipped Scenario.helloGz = true /\
  StagingClient.resolveBuffer Node.runtime Scenario.idle Scenario.helloGz
      Scenario.emptyWorld
    = (Returned (ReportData (js "hello")), Scenario.emptyWorld) /\
  DirectClient.resolveBuffer Node.runtime Scenario.helloGz Scenario.emptyWorld
    = (Returned (ReportData (js "hello")), Scenario.emptyWorld) /\
  js "hello" = js "hello" /\
  exists data,
    gunzipSync Node.runtime Scenario.helloGz = Returned data /\
    js "hello" = Buf.toString data.
Proof.
  assert (Hstaged :
    StagingClient.resolveBuffer Node.runtime Scenario.idle Scenario.helloGz
      Scenario.emptyWorld
    = (Returned (ReportData (js "hello")), Scenario.emptyWorld)).
  { vm_compute. reflexivity. }
  assert (Hdirect :
    DirectClient.resolveBuffer Node.runtime Scenario.helloGz Scenario.emptyWorld
    = (Returned (ReportData (js "hello")), Scenario.emptyWorld)).
  { vm_compute. reflexivity. }
  split; [reflexivity|]. split; [exact Hstaged|]. split; [exact Hdirect|].
  exact (C4_staged_text_is_in_memory_text Node.runtime Scenario.idle Scenario.helloGz
           _ _ _ _ _ _ eq_refl Hstaged Hdirect).
Defined.

(** C10: when gunzip succeeds on a gzip buffer, both files are written and
    read back, and the text read back is empty, the staging client fails
    with the "Decompressed data contains invalid characters" error, wrapped
    as a decompression failure, although the text holds no null
    character. *)
Theorem C10_empty_report_is_rejected rt env buffer data w :
  Buf.isGzipped buffer = true ->
  fs_write_fault env (StagingClient.tempGzPath env) = None ->
  gunzipSync rt buffer = Returned data ->
  fs_write_fault env (StagingClient.tempTxtPath env) = None ->
  fs_read_fault env (StagingClient.tempTxtPath env) = None ->
  Buf.toString data = [] ->
  Js.includes (Buf.toString data) [0] = false /\
  (StagingClient.resolveBuffer rt env buffer w).1
  = Thrown (Error (js "Failed to decompress report data: " ++
                   js "Decompressed data contains invalid characters")).
Proof.
  intros Hmagic Hwgz Hdata Hwtxt Hread Hempty. split.
  - rewrite Hempty. reflexivity.
  - rewrite staging_resolveBuffer_gzip by done.
    unfold stagedOutcome, stagingVerdict.
    rewrite Hwgz, Hdata, Hwtxt, Hread. cbn zeta. rewrite Hempty. reflexivity.
Qed.

(** The gzip of the empty text is rejected by the staging client. *)
Lemma C10_witness :
  Buf.isGzipped Scenario.emptyGz = true /\
  gunzipSync Node.runtime Scenario.emptyGz = Returned [] /\
  Js.includes (Buf.toString []) [0] = false /\
  (StagingClient.resolveBuffer Node.runtime Scenario.idle Scenario.emptyGz
     Scenario.emptyWorld).1
  = Thrown (Error (js "Failed to decompress report data: " ++
                   js "Decompressed data contains invalid characters")).
Proof.
  assert (Hdata : gunzipSync Node.runtime Scenario.emptyGz = Returned []).
  { vm_compute. reflexivity. }
  split; [reflexivity|]. split; [exact Hdata|].
  apply (C10_empty_report_is_rejected Node.runtime Scenario.idle Scenario.emptyGz []
           Scenario.emptyWorld); first [exact Hdata | reflexivity].
Defined.

(** ** Report dates *)

Lemma isDigit_not_dash c : RegExp.isDigit c = true -> (c =? 0x2D) = false.
Proof.
  unfold RegExp.isDigit. intros H. apply andb_true_iff in H as [H _].
  apply N.leb_le in H. apply N.eqb_neq. lia.
Qed.

Lemma datePattern_shape reportDate :
  RegExp.test datePattern reportDate = true ->
  exists y1 y2 y3 y4 m1 m2,
    reportDate = [y1; y2; y3; y4; 0x2D; m1; m2] /\
    Forall (fun c => RegExp.isDigit c = true) [y1; y2; y3; y4; m1; m2].
Proof.
  intros H.
  destruct reportDate as [|y1 [|y2 [|y3 [|y4 [|h [|m1 [|m2 [|x rest]]]]]]]];
    cbn in H; repeat (case_match; simplify_eq); try discriminate.
  match goal with
  | H : (_ =? _) = true |- _ => apply N.eqb_eq in H; subst
  end.
  eexists _, _, _, _, _, _. split; [reflexivity|].
  repeat constructor; assumption.
Qed.

Lemma digits_value_digit acc c rest :
  RegExp.isDigit c = true ->
  digits_value acc (c :: rest) = digits_value (acc * 10 + digit c) rest.
Proof. intros H. cbn. rewrite H. reflexivity. Qed.

(** The date object the handlers build is the first of the written month. *)
Lemma reportDateObj_written reportDate year month :
  RegExp.test datePattern reportDate = true ->
  written reportDate = Some (year, month) ->
  AnalyticsHandlers.reportDateObj reportDate
  = Date.make (Some year) (Some (month - 1)%Z).
Proof.
  intros Htest Hwritten.
  destruct (datePattern_shape _ Htest) as (y1 & y2 & y3 & y4 & m1 & m2 & -> & Hd).
  repeat match goal with
         | H : Forall _ (_ :: _) |- _ => apply Forall_cons in H as [? H]
         end.
  cbn in Hwritten. injection Hwritten as <- <-.
  unfold AnalyticsHandlers.reportDateObj.
  assert (Hsplit : split_dash [y1; y2; y3; y4; 0x2D; m1; m2]
                   = [[y1; y2; y3; y4]; [m1; m2]]).
  { cbn [split_dash].
    rewrite (isDigit_not_dash y1), (isDigit_not_dash y2), (isDigit_not_dash y3),
      (isDigit_not_dash y4), (isDigit_not_dash m1), (isDigit_not_dash m2)
      by assumption.
    reflexivity. }
  rewrite Hsplit.
  cbn [map lookup list_lookup mjoin option_join].
  unfold Number. rewrite !digits_value_digit by assumption.
  cbn [digits_value option_map mjoin option_join mbind option_bind].
  do 2 f_equal; lia.
Qed.

Lemma local_month_split env :
  (local_month env = 12 * currentYear env + (currentMonth env - 1) /\
   1 <= currentMonth env <= 12)%Z.
Proof.
  unfold currentYear, currentMonth.
  pose proof (Z.div_mod (local_month env) 12 ltac:(lia)).
  pose proof (Z.mod_pos_bound (local_month env) 12 ltac:(lia)). lia.
Qed.

(** The handlers' comparison says exactly "later than the current month",
    for a clock that is not set before the year 2000. *)
Lemma future_test_spec env year month :
  (0 <= year)%Z -> (1 <= month <= 12)%Z -> (2000 <= currentYear env)%Z ->
  Date.gt (Date.make (Some year) (Some (month - 1)%Z)) (Date.current env) = true
  <-> laterThanCurrentMonth env year month.
Proof.
  intros Hy Hm Hclock. unfold laterThanCurrentMonth.
  destruct (local_month_split env) as [Hsplit Hcur].
  unfold Date.gt, Date.make, Date.current. cbn [Date.month_index Date.ms_in_month].
  rewrite orb_true_iff, andb_true_iff, Z.ltb_lt, Z.eqb_eq, N.ltb_lt.
  destruct ((0 <=? year)%Z && (year <=? 99)%Z) eqn:Hshort.
  - apply andb_true_iff in Hshort as [_ Hshort]. apply Z.leb_le in Hshort. lia.
  - apply andb_false_iff in Hshort as [Hshort|Hshort];
      [apply Z.leb_gt in Hshort | apply Z.leb_gt in Hshort]; lia.
Qed.

(** A month later than the current one is later for the handlers'
    comparison too, whatever the clock. *)
Lemma future_test_later env year month :
  (0 <= year)%Z -> (1 <= month)%Z ->
  laterThanCurrentMonth env year month ->
  Date.gt (Date.make (Some year) (Some (month - 1)%Z)) (Date.current env) = true.
Proof.
  intros Hy Hm Hlater. unfold laterThanCurrentMonth in Hlater.
  destruct (local_month_split env) as [Hsplit Hcur].
  unfold Date.gt, Date.make, Date.current. cbn [Date.month_index Date.ms_in_month].
  apply orb_true_iff. left. apply Z.ltb_lt.
  destruct ((0 <=? year)%Z && (year <=? 99)%Z); lia.
Qed.

(** A month that is not later is not later for the handlers' comparison,
    unless the year is written below 100 and the clock is set before 2000. *)
Lemma future_test_not_later env year month :
  (0 <= year)%Z -> (month <= 12)%Z ->
  ((year <= 99)%Z -> (2000 <= currentYear env)%Z) ->
  ~ laterThanCurrentMonth env year month ->
  Date.gt (Date.make (Some year) (Some (month - 1)%Z)) (Date.current env) = false.
Proof.
  intros Hy Hm Hclock Hnot. unfold laterThanCurrentMonth in Hnot.
  destruct (local_month_split env) as [Hsplit Hcur].
  unfold Date.gt, Date.make, Date.current. cbn [Date.month_index Date.ms_in_month].
  apply orb_false_iff. split.
  - apply Z.ltb_ge.
    destruct ((0 <=? year)%Z && (year <=? 99)%Z) eqn:Hshort.
    + apply andb_true_iff in Hshort as [_ Hshort%Z.leb_le].
      specialize (Hclock Hshort). lia.
    + lia.
  - apply andb_false_iff. right. apply N.ltb_ge. lia.
Qed.

Lemma written_bounds reportDate year month :
  RegExp.test datePattern reportDate = true ->
  written reportDate = Some (year, month) ->
  (0 <= year <= 9999 /\ 0 <= month <= 99)%Z.
Proof.
  intros Htest Hwritten.
  destruct (datePattern_shape _ Htest) as (y1 & y2 & y3 & y4 & m1 & m2 & -> & Hd).
  cbn in Hwritten. injection Hwritten as <- <-.
  repeat match goal with
         | H : Forall _ (_ :: _) |- _ => apply Forall_cons in H as [? H]
         end.
  repeat match goal with
         | H : RegExp.isDigit _ = true |- _ =>
             unfold RegExp.isDigit in H;
             apply andb_true_iff in H as [?%N.leb_le ?%N.leb_le]
         end.
  unfold digit. lia.
Qed.

(** ** The report handlers *)

Lemma quiet_Buffer_from rt data : quiet (DirectClient.Buffer_from rt data).
Proof. destruct data; cbn; auto with quiet. Qed.

Lemma downloadReport_calls rt env url params w :
  calls (DirectClient.downloadReport rt env url params w).2
  = calls w ++ reportCalls env url params.
Proof.
  unfold DirectClient.downloadReport, generateToken, axios_request, reportCalls.
  unfold bind at 1. unfold bind at 1. unfold log at 1. unfold lift at 1.
  destruct (authService_generateToken env) as [token|e]; [|reflexivity].
  unfold try_catch, throw.
  unfold bind at 1. unfold bind at 1. unfold log at 1. unfold lift at 1.
  cbn [files calls].
  destruct (axios_adapter env _) as [response|e];
    [|cbn; rewrite <- app_assoc; reflexivity].
  pose proof (quiet_bind _ _ (quiet_Buffer_from rt (resp_data response))
                (fun buffer => quiet_direct_resolveBuffer rt buffer)) as Hquiet.
  match goal with
  | |- context [bind ?m ?k ?w0] =>
      specialize (Hquiet w0); destruct (bind m k w0) as [[p|e] w1]
  end; cbn in Hquiet |- *; rewrite Hquiet, <- app_assoc; reflexivity.
Qed.

Section Handlers.
Variable rt : Runtime.
Variable env : Env.
Variable config : option HandlerConfig.
Variable validateRequired : Params -> list JsString -> option JsError.
Variable buildFilterParams : Params -> Params.

Lemma checkReportDate_malformed kind Kind reportDate w :
  RegExp.test datePattern reportDate = false ->
  AnalyticsHandlers.checkReportDate env kind Kind reportDate w = (Thrown formatError, w).
Proof.
  intros H. unfold AnalyticsHandlers.checkReportDate, bind. rewrite H. reflexivity.
Qed.

Lemma checkReportDate_wellformed kind Kind reportDate w :
  RegExp.test datePattern reportDate = true ->
  AnalyticsHandlers.checkReportDate env kind Kind reportDate w
  = if Date.gt (AnalyticsHandlers.reportDateObj reportDate) (Date.current env)
    then (Thrown (futureDateError kind Kind reportDate), w)
    else (Returned tt, w).
Proof.
  intros H. unfold AnalyticsHandlers.checkReportDate, bind. rewrite H. cbn.
  destruct (Date.gt _ _); reflexivity.
Qed.

Lemma requireVendorNumber_eq vendorNumber w :
  AnalyticsHandlers.requireVendorNumber vendorNumber w
  = match vendorNumber with
    | Some (c :: v) => (Returned (c :: v), w)
    | _ => (Thrown vendorNumberError, w)
    end.
Proof. destruct vendorNumber as [[|c v]|]; reflexivity. Qed.

(** Both handlers: the guards, then the date check, then the client. *)
Lemma downloadSalesReport_eq args w :
  AnalyticsHandlers.downloadSalesReport rt env config validateRequired
      buildFilterParams args w
  = match salesVendor config args with
    | Some (c :: v) =>
        match salesRequired validateRequired args with
        | Some e => (Thrown e, w)
        | None =>
            match AnalyticsHandlers.checkReportDate env (js "sales") (js "Sales")
                    (sales_reportDate args) w with
            | (Returned _, w') =>
                DirectClient.downloadReport rt env (js "/salesReports")
                  (Some (buildFilterParams
                           (AnalyticsHandlers.salesFilters args (c :: v)))) w'
            | (Thrown e, w') => (Thrown e, w')
            end
        end
    | _ => (Thrown vendorNumberError, w)
    end.
Proof.
  unfold AnalyticsHandlers.downloadSalesReport.
  unfold bind at 1. rewrite requireVendorNumber_eq. fold (salesVendor config args).
  destruct (salesVendor config args) as [[|c v]|]; try reflexivity.
  unfold bind at 1. unfold AnalyticsHandlers.runValidateRequired.
  fold (salesRequired validateRequired args).
  destruct (salesRequired validateRequired args); reflexivity.
Qed.

Lemma downloadFinanceReport_eq args w :
  AnalyticsHandlers.downloadFinanceReport rt env config validateRequired
      buildFilterParams args w
  = match financeVendor config args with
    | Some (c :: v) =>
        match financeRequired validateRequired args with
        | Some e => (Thrown e, w)
        | None =>
            match AnalyticsHandlers.checkReportDate env (js "finance") (js "Finance")
                    (finance_reportDate args) w with
            | (Returned _, w') =>
                DirectClient.downloadReport rt env (js "/financeReports")
                  (Some (buildFilterParams
                           (AnalyticsHandlers.financeFilters args (c :: v)))) w'
            | (Thrown e, w') => (Thrown e, w')
            end
        end
    | _ => (Thrown vendorNumberError, w)
    end.
Proof.
  unfold AnalyticsHandlers.downloadFinanceReport.
  unfold bind at 1. rewrite requireVendorNumber_eq. fold (financeVendor config args).
  destruct (financeVendor config args) as [[|c v]|]; try reflexivity.
  unfold bind at 1. unfold AnalyticsHandlers.runValidateRequired.
  fold (financeRequired validateRequired args).
  destruct (financeRequired validateRequired args); reflexivity.
Qed.

(** C5, amended: a report date that does not match the pattern makes both
    handlers fail before any token is generated or any call is made, with
    nothing logged. The failure is the format error whenever a non-empty
    vendor number is available and the required-field check passes;
    otherwise it is the error of the first earlier guard that fails: the
    vendor-number error when no vendor number is available or the one given
    is empty, and else the error of the required-field check. *)
Theorem C5_malformed_date_fails_before_any_call sales finance w :
  RegExp.test datePattern (sales_reportDate sales) = false ->
  RegExp.test datePattern (finance_reportDate finance) = false ->
  AnalyticsHandlers.downloadSalesReport rt env config validateRequired
      buildFilterParams sales w
  = (Thrown match salesVendor config sales with
            | Some (_ :: _) =>
                match salesRequired validateRequired sales with
                | Some missing => missing
                | None => formatError
                end
            | _ => vendorNumberError
            end, w) /\
  AnalyticsHandlers.downloadFinanceReport rt env config validateRequired
      buildFilterParams finance w
  = (Thrown match financeVendor config finance with
            | Some (_ :: _) =>
                match financeRequired validateRequired finance with
                | Some missing => missing
                | None => formatError
                end
            | _ => vendorNumberError
            end, w).
Proof.
  intros Hsales Hfinance. split.
  - rewrite downloadSalesReport_eq, checkReportDate_malformed by done.
    destruct (salesVendor config sales) as [[|c v]|]; try reflexivity.
    destruct (salesRequired validateRequired sales); reflexivity.
  - rewrite downloadFinanceReport_eq, checkReportDate_malformed by done.
    destruct (financeVendor config finance) as [[|c v]|]; try reflexivity.
    destruct (financeRequired validateRequired finance); reflexivity.
Qed.

(** C6: with a vendor number available and the required-field check
    passed, a date [YYYY-MM] that denotes a month (01 to 12) later than the
    current month makes both handlers fail with the future-date error,
    nothing logged; a date that is not later is handed to [downloadReport],
    which generates a token and, once it has one, calls the report
    endpoint. For a year written below 100, which [new Date] reads as
    1900 and later, the second half takes the clock not to be set before
    2000. *)
Theorem C6_future_date_fails_others_proceed sales finance year month c v c' v' w :
  salesVendor config sales = Some (c :: v) ->
  salesRequired validateRequired sales = None ->
  financeVendor config finance = Some (c' :: v') ->
  financeRequired validateRequired finance = None ->
  finance_reportDate finance = sales_reportDate sales ->
  RegExp.test datePattern (sales_reportDate sales) = true ->
  written (sales_reportDate sales) = Some (year, month) ->
  (1 <= month <= 12)%Z ->
  (laterThanCurrentMonth env year month ->
     AnalyticsHandlers.downloadSalesReport rt env config validateRequired
         buildFilterParams sales w
       = (Thrown (futureDateError (js "sales") (js "Sales")
                    (sales_reportDate sales)), w) /\
     AnalyticsHandlers.downloadFinanceReport rt env config validateRequired
         buildFilterParams finance w
       = (Thrown (futureDateError (js "finance") (js "Finance")
                    (sales_reportDate sales)), w)) /\
  (~ laterThanCurrentMonth env year month ->
   ((year <= 99)%Z -> (2000 <= currentYear env)%Z) ->
     let salesParams :=
       Some (buildFilterParams (AnalyticsHandlers.salesFilters sales (c :: v))) in
     let financeParams :=
       Some (buildFilterParams (AnalyticsHandlers.financeFilters finance (c' :: v'))) in
     AnalyticsHandlers.downloadSalesReport rt env config validateRequired
         buildFilterParams sales w
       = DirectClient.downloadReport rt env (js "/salesReports") salesParams w /\
     calls (AnalyticsHandlers.downloadSalesReport rt env config validateRequired
         buildFilterParams sales w).2
       = calls w ++ reportCalls env (js "/salesReports") salesParams /\
     AnalyticsHandlers.downloadFinanceReport rt env config validateRequired
         buildFilterParams finance w
       = DirectClient.downloadReport rt env (js "/financeReports") financeParams w /\
     calls (AnalyticsHandlers.downloadFinanceReport rt env config validateRequired
         buildFilterParams finance w).2
       = calls w ++ reportCalls env (js "/financeReports") financeParams).
Proof.
  intros Hsv Hsr Hfv Hfr Hsame Htest Hwritten Hmonth.
  pose proof (written_bounds _ _ _ Htest Hwritten) as [[Hyear _] _].
  assert (Hsales : forall w,
             AnalyticsHandlers.downloadSalesReport rt env config validateRequired
               buildFilterParams sales w = _)
    by (intros w0; apply downloadSalesReport_eq).
  assert (Hfin : forall w,
             AnalyticsHandlers.downloadFinanceReport rt env config validateRequired
               buildFilterParams finance w = _)
    by (intros w0; apply downloadFinanceReport_eq).
  rewrite Hsv, Hsr in Hsales. rewrite Hfv, Hfr, Hsame in Hfin.
  setoid_rewrite checkReportDate_wellformed in Hsales; [|done].
  setoid_rewrite checkReportDate_wellformed in Hfin; [|done].
  rewrite (reportDateObj_written _ _ _ Htest Hwritten) in Hsales, Hfin.
  split.
  - intros Hlater.
    rewrite Hsales, Hfin, (future_test_later env year month) by (done || lia).
    done.
  - intros Hnot Hclock. cbn zeta.
    rewrite Hsales, Hfin, (future_test_not_later env year month) by (done || lia).
    rewrite !downloadReport_calls. done.
Qed.

End Handlers.

(** ** The error classifier and the outgoing calls *)

Lemma quiet_staging_resolveReport rt env data :
  quiet (StagingClient.resolveReport rt env data).
Proof.
  unfold StagingClient.resolveReport.
  apply quiet_try_catch; [|auto with quiet].
  apply quiet_bind; [destruct data; cbn; auto with quiet|].
  intros buffer. apply quiet_staging_resolveBuffer.
Qed.

(** What one [request] of the staging client adds to the log. *)
Lemma staging_request_calls rt env method url data params w :
  calls (StagingClient.request rt env method url data params w).2
  = calls w ++
    TokenGenerated ::
    match authService_generateToken env with
    | Returned token =>
        [HttpCall (StagingClient.requestConfig token method url data params)]
    | Thrown _ => []
    end.
Proof.
  unfold StagingClient.request, generateToken, axios_request.
  unfold bind at 1. unfold bind at 1. unfold log at 1. unfold lift at 1.
  destruct (authService_generateToken env) as [token|e]; [|reflexivity].
  unfold bind at 1. unfold bind at 1. unfold log at 1. unfold lift at 1.
  cbn [files calls].
  destruct (axios_adapter env _) as [response|e];
    [|cbn; rewrite <- app_assoc; reflexivity].
  destruct (StagingClient.isReportEndpoint url).
  - rewrite quiet_staging_resolveReport. cbn. rewrite <- app_assoc. reflexivity.
  - cbn. rewrite <- app_assoc. reflexivity.
Qed.

(** What one [request] of the second client and one [downloadFromUrl] add
    to the log. *)
Lemma direct_request_calls env method url data params w :
  calls (DirectClient.request env method url data params w).2
  = calls w ++
    TokenGenerated ::
    match authService_generateToken env with
    | Returned token =>
        [HttpCall (DirectClient.requestConfig token method url data params)]
    | Thrown _ => []
    end.
Proof.
  unfold DirectClient.request, generateToken, axios_request.
  unfold bind at 1. unfold bind at 1. unfold log at 1. unfold lift at 1.
  destruct (authService_generateToken env) as [token|e]; [|reflexivity].
  unfold bind at 1. unfold bind at 1. unfold log at 1. unfold lift at 1.
  cbn [files calls].
  destruct (axios_adapter env _) as [response|e];
    cbn; rewrite <- app_assoc; reflexivity.
Qed.

Lemma downloadFromUrl_calls env url w :
  calls (downloadFromUrl env url w).2
  = calls w ++
    TokenGenerated ::
    match authService_generateToken env with
    | Returned token => [HttpCall (segmentConfig token url)]
    | Thrown _ => []
    end.
Proof.
  unfold downloadFromUrl, generateToken, axios_request.
  unfold bind at 1. unfold bind at 1. unfold log at 1. unfold lift at 1.
  destruct (authService_generateToken env) as [token|e]; [|reflexivity].
  unfold bind at 1. unfold bind at 1. unfold log at 1. unfold lift at 1.
  cbn [files calls].
  destruct (axios_adapter env _) as [response|e];
    cbn; rewrite <- app_assoc; reflexivity.
Qed.

(** C7: a failed call with status 404 whose path contains the sales-report
    segment is answered with the text that names the three causes (date in
    the future, no data for the period, report not generated yet), not with
    the generic resource-not-found message. *)
Theorem C7_sales_report_404_names_the_causes rt result error details response config :
  axios error = Some details ->
  ax_response details = Some response ->
  resp_status response = 404%Z ->
  ax_config details = Some config ->
  Js.includes (cfg_url config) (js "/salesReports") = true ->
  Server.formatToolResponse rt result (Some error)
    = {| isError := Some true;
         content := [{| content_type := js "text";
                        content_text := JStr Server.salesReportNotFound |}] |} /\
  Js.includes Server.salesReportNotFound (js "The requested date is in the future") = true /\
  Js.includes Server.salesReportNotFound
    (js "No sales data exists for the requested period") = true /\
  Js.includes Server.salesReportNotFound
    (js "The report hasn't been generated yet") = true /\
  Js.includes Server.salesReportNotFound (js "Resource not found") = false.
Proof.
  intros Haxios Hresponse Hstatus Hconfig Hurl.
  split; [|repeat split; vm_compute; reflexivity].
  unfold Server.formatToolResponse, Server.errorMessageOf.
  rewrite Haxios. unfold Server.statusOf, Server.urlIncludes.
  rewrite Hresponse, Hconfig. cbn [option_map Server.statusIs].
  rewrite Hstatus, Hurl. reflexivity.
Qed.

(** A 404 on the sales-report call is answered with the three causes. *)
Lemma C7_witness :
  Server.formatToolResponse Node.runtime JNull (Some Scenario.salesReport404)
    = {| isError := Some true;
         content := [{| content_type := js "text";
                        content_text := JStr Server.salesReportNotFound |}] |} /\
  Js.includes Server.salesReportNotFound (js "The requested date is in the future") = true /\
  Js.includes Server.salesReportNotFound
    (js "No sales data exists for the requested period") = true /\
  Js.includes Server.salesReportNotFound
    (js "The report hasn't been generated yet") = true /\
  Js.includes Server.salesReportNotFound (js "Resource not found") = false.
Proof.
  apply (C7_sales_report_404_names_the_causes Node.runtime JNull Scenario.salesReport404
           _ _ _ eq_refl eq_refl eq_refl eq_refl).
  vm_compute. reflexivity.
Defined.

(** C8, amended: every call of the staging client's [request] carries the
    accept header "application/a-gzip, application/json" and raw-byte
    transport when its path is a report endpoint, and structured transport
    without accept header otherwise. The report call of the other client,
    [downloadReport], uses raw-byte transport with the accept header
    "application/a-gzip"; its [request] and [downloadFromUrl] set neither
    an accept header nor a response type. *)
Theorem C8_transport_by_endpoint :
  (forall rt env method url data params w,
     calls (StagingClient.request rt env method url data params w).2
     = calls w ++
       TokenGenerated ::
       match authService_generateToken env with
       | Returned token =>
           [HttpCall (StagingClient.requestConfig token method url data params)]
       | Thrown _ => []
       end) /\
  (forall token method url data params,
     let config := StagingClient.requestConfig token method url data params in
     if StagingClient.isReportEndpoint url
     then headerOf (cfg_headers config) (js "Accept")
            = Some (js "application/a-gzip, application/json") /\
          cfg_responseType config = Some arraybuffer
     else headerOf (cfg_headers config) (js "Accept") = None /\
          cfg_responseType config = Some json) /\
  (forall rt env url params w,
     calls (DirectClient.downloadReport rt env url params w).2
     = calls w ++ reportCalls env url params) /\
  (forall token url params,
     let config := DirectClient.reportConfig token url params in
     headerOf (cfg_headers config) (js "Accept") = Some (js "application/a-gzip") /\
     cfg_responseType config = Some arraybuffer) /\
  (forall env method url data params w,
     calls (DirectClient.request env method url data params w).2
     = calls w ++
       TokenGenerated ::
       match authService_generateToken env with
       | Returned token =>
           [HttpCall (DirectClient.requestConfig token method url data params)]
       | Thrown _ => []
       end) /\
  (forall token method url data params,
     let config := DirectClient.requestConfig token method url data params in
     headerOf (cfg_headers config) (js "Accept") = None /\
     cfg_responseType config = None) /\
  (forall env url w,
     calls (downloadFromUrl env url w).2
     = calls w ++
       TokenGenerated ::
       match authService_generateToken env with
       | Returned token => [HttpCall (segmentConfig token url)]
       | Thrown _ => []
       end) /\
  (forall token url,
     let config := segmentConfig token url in
     headerOf (cfg_headers config) (js "Accept") = None /\
     cfg_responseType config = None).
Proof.
  split; [exact staging_request_calls|].
  split.
  { intros token method url data params. cbn zeta.
    unfold StagingClient.requestConfig, StagingClient.headers. cbn [cfg_headers cfg_responseType].
    destruct (StagingClient.isReportEndpoint url); split; reflexivity. }
  split; [exact downloadReport_calls|].
  split; [repeat split|].
  split; [exact direct_request_calls|].
  split; [repeat split|].
  split; [exact downloadFromUrl_calls|].
  repeat split.
Qed.

(** C8 as stated fails on the report download of the second client: its
    call to the sales-report endpoint carries "application/a-gzip" alone. *)
Lemma C8_counterexample :
  exists config,
    calls (DirectClient.downloadReport Node.runtime Scenario.idle
             (js "/salesReports") None Scenario.emptyWorld).2
      = [TokenGenerated; HttpCall config] /\
    StagingClient.isReportEndpoint (cfg_url config) = true /\
    headerOf (cfg_headers config) (js "Accept") = Some (js "application/a-gzip") /\
    headerOf (cfg_headers config) (js "Accept")
      <> Some (js "application/a-gzip, application/json").
Proof.
  eexists. split; [vm_compute; reflexivity|].
  split; [vm_compute; reflexivity|].
  split; [vm_compute; reflexivity|].
  vm_compute. discriminate.
Qed.

(** ** The handlers on the scenario *)

(** With the vendor number of the configuration and the fields present,
    the malformed dates [2024] and [24-01] end in the format error, nothing
    logged. *)
Lemma C5_witness :
  RegExp.test datePattern (sales_reportDate (Scenario.salesArgs "2024")) = false /\
  RegExp.test datePattern (finance_reportDate (Scenario.financeArgs "24-01")) = false /\
  AnalyticsHandlers.downloadSalesReport Node.runtime Scenario.idle Scenario.config
    Utils.validateRequired Utils.buildFilterParams
    (Scenario.salesArgs "2024") Scenario.emptyWorld
  = (Thrown formatError, Scenario.emptyWorld) /\
  AnalyticsHandlers.downloadFinanceReport Node.runtime Scenario.idle Scenario.config
    Utils.validateRequired Utils.buildFilterParams
    (Scenario.financeArgs "24-01") Scenario.emptyWorld
  = (Thrown formatError, Scenario.emptyWorld).
Proof.
  split; [reflexivity|]. split; [reflexivity|].
  apply (C5_malformed_date_fails_before_any_call Node.runtime Scenario.idle
           Scenario.config Utils.validateRequired Utils.buildFilterParams
           (Scenario.salesArgs "2024") (Scenario.financeArgs "24-01")
           Scenario.emptyWorld); reflexivity.
Defined.

(** On the scenario the malformed dates do end in the format error. *)
Example malformed_dates_rejected :
  AnalyticsHandlers.downloadSalesReport Node.runtime Scenario.idle Scenario.config
    Utils.validateRequired Utils.buildFilterParams
    (Scenario.salesArgs "2024") Scenario.emptyWorld
  = (Thrown formatError, Scenario.emptyWorld) /\
  AnalyticsHandlers.downloadFinanceReport Node.runtime Scenario.idle Scenario.config
    Utils.validateRequired Utils.buildFilterParams
    (Scenario.financeArgs "2024-1") Scenario.emptyWorld
  = (Thrown formatError, Scenario.emptyWorld).
Proof. split; vm_compute; reflexivity. Qed.

(** C5 as stated fails when the vendor number among the arguments is
    empty: the malformed date then meets the vendor-number error, not the
    format error. *)
Lemma C5_counterexample :
  RegExp.test datePattern (sales_reportDate (Scenario.salesArgsEmptyVendor "2024")) = false /\
  AnalyticsHandlers.downloadSalesReport Node.runtime Scenario.idle Scenario.config
    Utils.validateRequired Utils.buildFilterParams
    (Scenario.salesArgsEmptyVendor "2024") Scenario.emptyWorld
  = (Thrown vendorNumberError, Scenario.emptyWorld) /\
  vendorNumberError <> formatError.
Proof.
  split; [reflexivity|]. split; [vm_compute; reflexivity|].
  vm_compute. discriminate.
Qed.

(** With the clock in June 2024, the date 2099-01 is rejected as lying in
    the future and the date 2024-01 makes the handler log the token and
    the report call. *)
Lemma C6_witness :
  (laterThanCurrentMonth Scenario.idle 2099 1 /\
   AnalyticsHandlers.downloadSalesReport Node.runtime Scenario.idle Scenario.config
     Utils.validateRequired Utils.buildFilterParams
     (Scenario.salesArgs "2099-01") Scenario.emptyWorld
   = (Thrown (futureDateError (js "sales") (js "Sales") (js "2099-01")),
      Scenario.emptyWorld)) /\
  (~ laterThanCurrentMonth Scenario.idle 2024 1 /\
   calls (AnalyticsHandlers.downloadSalesReport Node.runtime Scenario.idle Scenario.config
            Utils.validateRequired Utils.buildFilterParams
            (Scenario.salesArgs "2024-01") Scenario.emptyWorld).2
   = calls Scenario.emptyWorld ++
     reportCalls Scenario.idle (js "/salesReports")
       (Some (Utils.buildFilterParams
                (AnalyticsHandlers.salesFilters (Scenario.salesArgs "2024-01")
                   (js "85012345"))))).
Proof.
  assert (Hlater : laterThanCurrentMonth Scenario.idle 2099 1)
    by (left; vm_compute; reflexivity).
  assert (Hnot : ~ laterThanCurrentMonth Scenario.idle 2024 1).
  { unfold laterThanCurrentMonth. change (currentYear Scenario.idle) with 2024%Z.
    change (currentMonth Scenario.idle) with 6%Z. lia. }
  split.
  - split; [exact Hlater|].
    apply (C6_future_date_fails_others_proceed Node.runtime Scenario.idle
             Scenario.config Utils.validateRequired Utils.buildFilterParams
             (Scenario.salesArgs "2099-01") (Scenario.financeArgs "2099-01")
             2099 1 0x38 (js "5012345") 0x38 (js "5012345") Scenario.emptyWorld
             eq_refl eq_refl eq_refl eq_refl eq_refl eq_refl eq_refl
             ltac:(lia)).
    exact Hlater.
  - split; [exact Hnot|].
    apply (C6_future_date_fails_others_proceed Node.runtime Scenario.idle
             Scenario.config Utils.validateRequired Utils.buildFilterParams
             (Scenario.salesArgs "2024-01") (Scenario.financeArgs "2024-01")
             2024 1 0x38 (js "5012345") 0x38 (js "5012345") Scenario.emptyWorld
             eq_refl eq_refl eq_refl eq_refl eq_refl eq_refl eq_refl
             ltac:(lia)).
    + exact Hnot.
    + intros Hshort. lia.
Defined.

(** The scenario of the specification: with the clock in June 2024, the
    date 2024-01 reaches the network layer and the date 2099-01 does not. *)
Example past_date_reaches_the_network :
  calls (AnalyticsHandlers.downloadSalesReport Node.runtime Scenario.idle Scenario.config
           Utils.validateRequired Utils.buildFilterParams
           (Scenario.salesArgs "2024-01") Scenario.emptyWorld).2
  = [TokenGenerated;
     HttpCall (DirectClient.reportConfig (js "token") (js "/salesReports")
                 (Some [(js "filter[reportDate]", JStr (js "2024-01"));
                        (js "filter[reportType]", JStr (js "SALES"));
                        (js "filter[reportSubType]", JStr (js "SUMMARY"));
                        (js "filter[frequency]", JStr (js "MONTHLY"));
                        (js "filter[vendorNumber]", JStr (js "85012345"))]))] /\
  calls (AnalyticsHandlers.downloadSalesReport Node.runtime Scenario.idle Scenario.config
           Utils.validateRequired Utils.buildFilterParams
           (Scenario.salesArgs "2099-01") Scenario.emptyWorld).2
  = [].
Proof. split; vm_compute; reflexivity. Qed.

(** The guards come first: when the vendor number among the arguments is
    empty, the date 2024-01, not later than the current month, ends in the
    vendor-number error and no call is made. *)
Example empty_vendor_number_stops_a_past_date :
  RegExp.test datePattern (js "2024-01") = true /\
  written (js "2024-01") = Some (2024, 1)%Z /\
  ~ laterThanCurrentMonth Scenario.idle 2024 1 /\
  AnalyticsHandlers.downloadFinanceReport Node.runtime Scenario.idle Scenario.config
    Utils.validateRequired Utils.buildFilterParams
    (Scenario.financeArgsEmptyVendor "2024-01") Scenario.emptyWorld
  = (Thrown vendorNumberError, Scenario.emptyWorld).
Proof.
  split; [reflexivity|]. split; [reflexivity|]. split.
  - unfold laterThanCurrentMonth. change (currentYear Scenario.idle) with 2024%Z.
    change (currentMonth Scenario.idle) with 6%Z. lia.
  - vm_compute. reflexivity.
Qed.

(** ** One request, end to end *)

Lemma request_run rt env method url data params w token response :
  authService_generateToken env = Returned token ->
  axios_adapter env (StagingClient.requestConfig token method url data params)
  = Returned response ->
  StagingClient.request rt env method url data params w
  = (if StagingClient.isReportEndpoint url
     then StagingClient.resolveReport rt env (resp_data response)
     else ret (Structured (resp_data response)))
      (afterCall w (StagingClient.requestConfig token method url data params)).
Proof.
  intros Htoken Hanswer.
  unfold StagingClient.request, generateToken, axios_request.
  unfold bind at 1. unfold bind at 1. unfold log at 1. unfold lift at 1.
  rewrite Htoken.
  unfold bind at 1. unfold bind at 1. unfold log at 1. unfold lift at 1.
  cbn [files calls]. rewrite Hanswer. unfold afterCall.
  rewrite <- app_assoc. reflexivity.
Qed.

(** X1: on a path that is no report endpoint, [request] of the staging
    client hands back [response.data] exactly as the transport delivered
    it, after one token generation and one call, and leaves every file
    alone. *)
Theorem request_returns_standard_data_unchanged
    rt env method url data params w token response :
  StagingClient.isReportEndpoint url = false ->
  authService_generateToken env = Returned token ->
  axios_adapter env (StagingClient.requestConfig token method url data params)
  = Returned response ->
  StagingClient.request rt env method url data params w
  = (Returned (Structured (resp_data response)),
     afterCall w (StagingClient.requestConfig token method url data params)).
Proof.
  intros Hstandard Htoken Hanswer.
  rewrite (request_run _ _ _ _ _ _ _ _ _ Htoken Hanswer), Hstandard. reflexivity.
Qed.

Lemma request_returns_standard_data_unchanged_witness :
  StagingClient.request Node.runtime (Samples.answering (DValue (JObj [(js "data", JArr [])])))
    GET (js "/apps") JUndefined None Scenario.emptyWorld
  = (Returned (Structured (DValue (JObj [(js "data", JArr [])]))),
     afterCall Scenario.emptyWorld
       (StagingClient.requestConfig (js "token") GET (js "/apps") JUndefined None)).
Proof.
  apply (request_returns_standard_data_unchanged Node.runtime
           (Samples.answering (DValue (JObj [(js "data", JArr [])])))
           GET (js "/apps") JUndefined None Scenario.emptyWorld (js "token")
           {| resp_status := 200; resp_headers := [];
              resp_data := DValue (JObj [(js "data", JArr [])]) |});
    reflexivity.
Defined.

(** X2: on a report endpoint, a response buffer (a [Buffer] or an
    [ArrayBuffer]) that does not begin with the gzip magic number is
    returned by [request] as its UTF-8 text, whatever the text is and
    whatever [JSON.parse] makes of it: one token generation, one call, no
    file touched, no failure. *)
Theorem request_report_without_magic_is_text
    rt env method url data params w token response buffer :
  StagingClient.isReportEndpoint url = true ->
  authService_generateToken env = Returned token ->
  axios_adapter env (StagingClient.requestConfig token method url data params)
  = Returned response ->
  resp_data response = DBuffer buffer \/ resp_data response = DArrayBuffer buffer ->
  Buf.isGzipped buffer = false ->
  StagingClient.request rt env method url data params w
  = (Returned (ReportData (Buf.toString buffer)),
     afterCall w (StagingClient.requestConfig token method url data params)).
Proof.
  intros Hreport Htoken Hanswer Hdata Hmagic.
  rewrite (request_run _ _ _ _ _ _ _ _ _ Htoken Hanswer), Hreport.
  unfold StagingClient.resolveReport, try_catch, bind.
  destruct Hdata as [-> | ->]; cbn [StagingClient.responseBuffer ret];
    rewrite staging_resolveBuffer_plain by done; reflexivity.
Qed.

Lemma request_report_without_magic_is_text_witness :
  StagingClient.request Node.runtime (Samples.answering (DArrayBuffer Scenario.errorDocument))
    GET (js "/financeReports") JUndefined None Scenario.emptyWorld
  = (Returned (ReportData (Buf.toString Scenario.errorDocument)),
     afterCall Scenario.emptyWorld
       (StagingClient.requestConfig (js "token") GET (js "/financeReports")
          JUndefined None)).
Proof.
  apply (request_report_without_magic_is_text Node.runtime
           (Samples.answering (DArrayBuffer Scenario.errorDocument))
           GET (js "/financeReports") JUndefined None Scenario.emptyWorld (js "token")
           {| resp_status := 200; resp_headers := [];
              resp_data := DArrayBuffer Scenario.errorDocument |}
           Scenario.errorDocument);
    solve [reflexivity | right; reflexivity].
Defined.

(** X3: on a report endpoint, response data that is neither a [Buffer] nor
    an [ArrayBuffer] makes [request] fail with "Unexpected response data
    type: " followed by the [typeof] of the data, one of the five names
    a JSON value can have; the call has been made, no file is touched. *)
Theorem request_report_unexpected_data_type
    rt env method url data params w token response v :
  StagingClient.isReportEndpoint url = true ->
  authService_generateToken env = Returned token ->
  axios_adapter env (StagingClient.requestConfig token method url data params)
  = Returned response ->
  resp_data response = DValue v ->
  StagingClient.request rt env method url data params w
  = (Thrown (Error (js "Unexpected response data type: " ++ Val.typeof v)),
     afterCall w (StagingClient.requestConfig token method url data params)) /\
  Val.typeof v ∈ map js ["undefined"; "object"; "boolean"; "number"; "string"]%string.
Proof.
  intros Hreport Htoken Hanswer Hdata. split.
  - rewrite (request_run _ _ _ _ _ _ _ _ _ Htoken Hanswer), Hreport, Hdata.
    reflexivity.
  - destruct v; cbn; set_solver.
Qed.

Lemma request_report_unexpected_data_type_witness :
  StagingClient.request Node.runtime (Samples.answering (DValue JNull))
    GET (js "/salesReports") JUndefined None Scenario.emptyWorld
  = (Thrown (Error (js "Unexpected response data type: " ++ js "object")),
     afterCall Scenario.emptyWorld
       (StagingClient.requestConfig (js "token") GET (js "/salesReports")
          JUndefined None)) /\
  js "object" ∈ map js ["undefined"; "object"; "boolean"; "number"; "string"]%string.
Proof.
  apply (request_report_unexpected_data_type Node.runtime
           (Samples.answering (DValue JNull))
           GET (js "/salesReports") JUndefined None Scenario.emptyWorld (js "token")
           {| resp_status := 200; resp_headers := []; resp_data := DValue JNull |}
           JNull);
    reflexivity.
Defined.

(** X4: when the token provider fails, every entry point of both clients
    ([request], [downloadReport], [downloadFromUrl]) fails with the
    provider's own error, unchanged, and the transport is never called:
    the log gains the token generation and nothing else. *)
Theorem token_failure_stops_before_the_network rt env e w :
  authService_generateToken env = Thrown e ->
  (forall method url data params,
     StagingClient.request rt env method url data params w = (Thrown e, afterToken w) /\
     DirectClient.request env method url data params w = (Thrown e, afterToken w)) /\
  (forall url params,
     DirectClient.downloadReport rt env url params w = (Thrown e, afterToken w)) /\
  (forall url, downloadFromUrl env url w = (Thrown e, afterToken w)).
Proof.
  intros Htoken.
  unfold StagingClient.request, DirectClient.request, DirectClient.downloadReport,
    downloadFromUrl, generateToken.
  repeat split; intros;
    unfold bind at 1; unfold bind at 1; unfold log at 1; unfold lift at 1;
    rewrite Htoken; reflexivity.
Qed.

Lemma token_failure_stops_before_the_network_witness :
  (forall method url data params,
     StagingClient.request Node.runtime Samples.noToken method url data params
       Scenario.emptyWorld
     = (Thrown Samples.keyMissing, afterToken Scenario.emptyWorld) /\
     DirectClient.request Samples.noToken method url data params Scenario.emptyWorld
     = (Thrown Samples.keyMissing, afterToken Scenario.emptyWorld)) /\
  (forall url params,
     DirectClient.downloadReport Node.runtime Samples.noToken url params
       Scenario.emptyWorld
     = (Thrown Samples.keyMissing, afterToken Scenario.emptyWorld)) /\
  (forall url, downloadFromUrl Samples.noToken url Scenario.emptyWorld
               = (Thrown Samples.keyMissing, afterToken Scenario.emptyWorld)).
Proof.
  apply (token_failure_stops_before_the_network Node.runtime Samples.noToken
           Samples.keyMissing Scenario.emptyWorld).
  reflexivity.
Defined.

(** X5: when the transport fails on the calls for a path, every entry
    point of both clients fails with the transport's own error, unchanged
    (the response and configuration axios attached to it included), after
    one token generation and that one call; the [catch] blocks of
    [request] and [downloadReport] rethrow what they caught. *)
Theorem transport_failure_is_propagated rt env token e method url data params w :
  authService_generateToken env = Returned token ->
  (forall config, cfg_url config = url -> axios_adapter env config = Thrown e) ->
  StagingClient.request rt env method url data params w
  = (Thrown e, afterCall w (StagingClient.requestConfig token method url data params)) /\
  DirectClient.request env method url data params w
  = (Thrown e, afterCall w (DirectClient.requestConfig token method url data params)) /\
  DirectClient.downloadReport rt env url params w
  = (Thrown e, afterCall w (DirectClient.reportConfig token url params)) /\
  downloadFromUrl env url w
  = (Thrown e, afterCall w (segmentConfig token url)).
Proof.
  intros Htoken Hfail.
  unfold StagingClient.request, DirectClient.request, DirectClient.downloadReport,
    downloadFromUrl, generateToken, axios_request, afterCall.
  repeat split;
    unfold bind at 1; unfold bind at 1; unfold log at 1; unfold lift at 1;
    rewrite Htoken; unfold try_catch;
    unfold bind at 1; unfold bind at 1; unfold log at 1; unfold lift at 1;
    cbn [files calls]; rewrite Hfail by reflexivity; cbn;
    rewrite <- app_assoc; reflexivity.
Qed.

Lemma transport_failure_is_propagated_witness :
  StagingClient.request Node.runtime Samples.offline GET (js "/salesReports")
    JUndefined None Scenario.emptyWorld
  = (Thrown Samples.unreachable,
     afterCall Scenario.emptyWorld
       (StagingClient.requestConfig (js "token") GET (js "/salesReports")
          JUndefined None)) /\
  DirectClient.request Samples.offline GET (js "/salesReports") JUndefined None
    Scenario.emptyWorld
  = (Thrown Samples.unreachable,
     afterCall Scenario.emptyWorld
       (DirectClient.requestConfig (js "token") GET (js "/salesReports")
          JUndefined None)) /\
  DirectClient.downloadReport Node.runtime Samples.offline (js "/salesReports") None
    Scenario.emptyWorld
  = (Thrown Samples.unreachable,
     afterCall Scenario.emptyWorld
       (DirectClient.reportConfig (js "token") (js "/salesReports") None)) /\
  downloadFromUrl Samples.offline (js "/salesReports") Scenario.emptyWorld
  = (Thrown Samples.unreachable,
     afterCall Scenario.emptyWorld (segmentConfig (js "token") (js "/salesReports"))).
Proof.
  apply (transport_failure_is_propagated Node.runtime Samples.offline (js "token")
           Samples.unreachable GET (js "/salesReports") JUndefined None
           Scenario.emptyWorld).
  - reflexivity.
  - intros config _. reflexivity.
Defined.
(** ** Which files a call changes *)

Lemma confined_ret {A} paths (a : A) : confined paths (ret a).
Proof. intros w path _. reflexivity. Qed.

Lemma confined_throw {A} paths e : confined paths (@throw A e).
Proof. intros w path _. reflexivity. Qed.

Lemma confined_lift {A} paths (o : outcome A) : confined paths (lift o).
Proof. intros w path _. reflexivity. Qed.

Lemma confined_log paths ev : confined paths (log ev).
Proof. intros w path _. reflexivity. Qed.

Lemma confined_bind {A B} paths (m : M A) (k : A -> M B) :
  confined paths m -> (forall a, confined paths (k a)) -> confined paths (bind m k).
Proof.
  intros Hm Hk w path Hpath. unfold bind. specialize (Hm w path Hpath).
  destruct (m w) as [[a|e] w']; cbn in *; [|assumption].
  rewrite (Hk a w' path Hpath). assumption.
Qed.

Lemma confined_try_catch {A} paths (m : M A) (h : JsError -> M A) :
  confined paths m -> (forall e, confined paths (h e)) -> confined paths (try_catch m h).
Proof.
  intros Hm Hh w path Hpath. unfold try_catch. specialize (Hm w path Hpath).
  destruct (m w) as [[a|e] w']; cbn in *; [assumption|].
  rewrite (Hh e w' path Hpath). assumption.
Qed.

Lemma confined_if {A} paths (b : bool) (m1 m2 : M A) :
  confined paths m1 -> confined paths m2 -> confined paths (if b then m1 else m2).
Proof. destruct b; auto. Qed.

Lemma confined_writeFileSync env paths target data :
  target ∈ paths -> confined paths (fs.writeFileSync env target data).
Proof.
  intros Hin w path Hpath. assert (target <> path) by (intros ->; done).
  unfold fs.writeFileSync, fs.put, bind, throw.
  destruct (fs_write_fault env target) as [[e|e n]|]; cbn;
    rewrite ?lookup_insert_ne by done; reflexivity.
Qed.

Lemma confined_readFileSync env paths target :
  confined paths (fs.readFileSync env target).
Proof.
  intros w path _. unfold fs.readFileSync.
  destruct (fs_read_fault env target); [reflexivity|].
  destruct (files w !! target); reflexivity.
Qed.

Lemma confined_existsSync paths target : confined paths (fs.existsSync target).
Proof. intros w path _. reflexivity. Qed.

Lemma confined_unlinkSync env paths target :
  target ∈ paths -> confined paths (fs.unlinkSync env target).
Proof.
  intros Hin w path Hpath. assert (target <> path) by (intros ->; done).
  unfold fs.unlinkSync.
  destruct (fs_unlink_fault env target); [reflexivity|].
  destruct (files w !! target); cbn; rewrite ?lookup_delete_ne by done; reflexivity.
Qed.

Create HintDb confined.

#[export] Hint Resolve confined_ret confined_throw confined_lift confined_log
  confined_bind confined_try_catch confined_if confined_writeFileSync
  confined_readFileSync confined_existsSync confined_unlinkSync : confined.

Ltac confined_steps :=
  repeat first
    [ apply confined_bind; [|intros ?]
    | apply confined_try_catch; [|intros ?]
    | apply confined_if
    | apply confined_writeFileSync
    | apply confined_unlinkSync
    | solve [auto with confined]
    | solve [unfold stagedPaths;
             eauto using list_elem_of_here, list_elem_of_further] ].

Lemma confined_staging_resolveBuffer rt env buffer :
  confined (stagedPaths env) (StagingClient.resolveBuffer rt env buffer).
Proof.
  unfold StagingClient.resolveBuffer, StagingClient.decompressViaTempFiles,
    StagingClient.stageAndDecompress, StagingClient.cleanupAndFail.
  apply confined_if.
  - confined_steps.
  - intros w path _. rewrite passThroughText_returns. reflexivity.
Qed.

Lemma confined_generateToken env paths : confined paths (generateToken env).
Proof. unfold generateToken. auto with confined. Qed.

Lemma confined_axios_request env paths config :
  confined paths (axios_request env config).
Proof. unfold axios_request. auto with confined. Qed.

Lemma confined_staging_request rt env method url data params :
  confined (stagedPaths env) (StagingClient.request rt env method url data params).
Proof.
  unfold StagingClient.request.
  apply confined_bind; [apply confined_generateToken|intros token].
  apply confined_bind; [apply confined_axios_request|intros response].
  destruct (StagingClient.isReportEndpoint url); [|apply confined_ret].
  unfold StagingClient.resolveReport.
  apply confined_try_catch; [|intros e; apply confined_throw].
  apply confined_bind; [|intros buffer; apply confined_staging_resolveBuffer].
  destruct (resp_data response); cbn; auto with confined.
Qed.

(** A computation confined to no path leaves every file as it was. *)
Lemma confined_nil {A} (m : M A) w : confined [] m -> files (m w).2 = files w.
Proof. intros H. apply map_eq. intros path. apply H, not_elem_of_nil. Qed.

Lemma confined_downloadReport rt env url params :
  confined [] (DirectClient.downloadReport rt env url params).
Proof.
  unfold DirectClient.downloadReport.
  apply confined_bind; [apply confined_generateToken|intros token].
  apply confined_try_catch; [|intros e; apply confined_throw].
  apply confined_bind; [apply confined_axios_request|intros response].
  apply confined_bind.
  - destruct (resp_data response); cbn; auto with confined.
  - intros buffer. unfold DirectClient.resolveBuffer.
    destruct (Buf.isGzipped buffer); auto with confined.
Qed.



(** X7: the client variant with [downloadReport] never changes a file:
    after [request], [downloadReport] or [downloadFromUrl], however they
    end, the file system is what it was. *)
Theorem second_client_changes_no_file rt env w :
  (forall method url data params,
     files (DirectClient.request env method url data params w).2 = files w) /\
  (forall url params,
     files (DirectClient.downloadReport rt env url params w).2 = files w) /\
  (forall url, files (downloadFromUrl env url w).2 = files w).
Proof.
  repeat split; intros; apply confined_nil.
  - unfold DirectClient.request.
    apply confined_bind; [apply confined_generateToken|intros token].
    apply confined_bind; [apply confined_axios_request|intros response].
    apply confined_ret.
  - apply confined_downloadReport.
  - unfold downloadFromUrl.
    apply confined_bind; [apply confined_generateToken|intros token].
    apply confined_bind; [apply confined_axios_request|intros response].
    apply confined_ret.
Qed.
(** ** The names of the staged files *)

(** X8: in one temporary directory, the staged [.gz] paths of two
    decompressions coincide exactly when both the millisecond timestamp
    and the random number of the two agree, and so do the [.txt] paths; a
    [.gz] path of one never is the [.txt] path of the other. *)
Theorem staged_names_coincide_iff env1 env2 :
  os_tmpdir env1 = os_tmpdir env2 ->
  (StagingClient.tempGzPath env1 = StagingClient.tempGzPath env2 <->
   Date_now env1 = Date_now env2 /\
   Math_random_times_10000 env1 = Math_random_times_10000 env2) /\
  (StagingClient.tempTxtPath env1 = StagingClient.tempTxtPath env2 <->
   Date_now env1 = Date_now env2 /\
   Math_random_times_10000 env1 = Math_random_times_10000 env2) /\
  StagingClient.tempGzPath env1 <> StagingClient.tempTxtPath env2.
Proof.
  intros Hdir.
  destruct (temp_paths_plain env1) as [-> ->].
  destruct (temp_paths_plain env2) as [-> ->].
  rewrite Hdir.
  assert (Hsame : forall ext,
            Date_now env1 = Date_now env2 /\
            Math_random_times_10000 env1 = Math_random_times_10000 env2 ->
            StagingClient.tempName env1 ext = StagingClient.tempName env2 ext).
  { unfold StagingClient.tempName. intros ext [-> ->]. reflexivity. }
  split; [split|split; [split|]].
  - intros H. apply app_inv_head in H.
    eapply tempName_inj in H as (? & ? & _); [auto|reflexivity..].
  - intros H. rewrite (Hsame _ H). reflexivity.
  - intros H. apply app_inv_head in H.
    eapply tempName_inj in H as (? & ? & _); [auto|reflexivity..].
  - intros H. rewrite (Hsame _ H). reflexivity.
  - intros H. apply app_inv_head in H.
    eapply tempName_inj in H as (_ & _ & H); [discriminate H|reflexivity..].
Qed.

Lemma staged_names_coincide_iff_witness :
  (StagingClient.tempGzPath Scenario.idle = StagingClient.tempGzPath Samples.later <->
   Date_now Scenario.idle = Date_now Samples.later /\
   Math_random_times_10000 Scenario.idle = Math_random_times_10000 Samples.later) /\
  (StagingClient.tempTxtPath Scenario.idle = StagingClient.tempTxtPath Samples.later <->
   Date_now Scenario.idle = Date_now Samples.later /\
   Math_random_times_10000 Scenario.idle = Math_random_times_10000 Samples.later) /\
  StagingClient.tempGzPath Scenario.idle <> StagingClient.tempTxtPath Samples.later.
Proof.
  apply (staged_names_coincide_iff Scenario.idle Samples.later). reflexivity.
Defined.
(** ** Endpoint classification *)

Lemma startsWith_spec s prefix :
  Js.startsWith s prefix = true <-> exists rest, s = prefix ++ rest.
Proof.
  revert s. induction prefix as [|p prefix IH]; intros s; cbn.
  - split; [intros _; exists s; reflexivity | intros _; destruct s; reflexivity].
  - destruct s as [|c s]; cbn.
    + split; [discriminate|]. intros [rest H]. discriminate H.
    + rewrite andb_true_iff, N.eqb_eq, IH. split.
      * intros [-> [rest ->]]. eauto.
      * intros [rest [= -> ->]]. eauto.
Qed.

Lemma includes_spec s needle :
  Js.includes s needle = true <-> exists before after, s = before ++ needle ++ after.
Proof.
  induction s as [|c s IH].
  - cbn [Js.includes]. rewrite orb_false_r, startsWith_spec. split.
    + intros [rest H]. exists [], rest. exact H.
    + intros (before & after & H). destruct before; [eauto|discriminate H].
  - cbn [Js.includes]. rewrite orb_true_iff, startsWith_spec, IH. split.
    + intros [[rest H] | (before & after & ->)].
      * exists [], rest. exact H.
      * exists (c :: before), after. reflexivity.
    + intros (before & after & H). destruct before as [|b before].
      * left. eauto.
      * right. injection H as -> ->. eauto.
Qed.

(** X9: [request] treats a path as a report endpoint exactly when the text
    [/salesReports] or [/financeReports] occurs somewhere in it, at any
    position and whatever surrounds it. *)
Theorem report_endpoint_iff_segment_anywhere url :
  StagingClient.isReportEndpoint url = true <->
  exists before after,
    url = before ++ js "/salesReports" ++ after \/
    url = before ++ js "/financeReports" ++ after.
Proof.
  unfold StagingClient.isReportEndpoint.
  rewrite orb_true_iff, !includes_spec. split.
  - intros [(before & after & H) | (before & after & H)]; eauto.
  - intros (before & after & [H | H]); eauto.
Qed.

(** ** The date check *)

Lemma checkReportDate_month_index env kind Kind reportDate year month w :
  RegExp.test datePattern reportDate = true ->
  written reportDate = Some (year, month) ->
  AnalyticsHandlers.checkReportDate env kind Kind reportDate w
  = (if (local_month env <? monthIndexOf year month)%Z
     then Thrown (futureDateError kind Kind reportDate)
     else Returned tt, w).
Proof.
  intros Htest Hwritten.
  rewrite checkReportDate_wellformed by done.
  rewrite (reportDateObj_written _ _ _ Htest Hwritten).
  pose proof (written_bounds _ _ _ Htest Hwritten) as [[Hyear _] _].
  unfold Date.gt, Date.make, Date.current, monthIndexOf.
  cbn [Date.month_index Date.ms_in_month].
  replace (local_ms_in_month env <? 0) with false
    by (symmetry; apply N.ltb_ge; lia).
  rewrite andb_false_r, orb_false_r.
  replace (0 <=? year)%Z with true by (symmetry; apply Z.leb_le; lia).
  cbn [andb].
  replace ((if (year <=? 99)%Z then (1900 + year)%Z else year) * 12 + (month - 1))%Z
    with (12 * (if (year <=? 99)%Z then 1900 + year else year) + (month - 1))%Z by lia.
  destruct (_ <? _)%Z; reflexivity.
Qed.

(** X10: for a report date that matches the pattern, with a vendor number
    available and the required-field check passed, both report handlers
    decide by the month the JavaScript date constructor makes of the
    written year and month: the request fails with the future-date error
    when that month lies after the month the clock is in, and is handed to
    [downloadReport] otherwise. The written month is not limited to 01..12
    (month 13 counts as January of the next year, month 00 as December of
    the year before), a year below 100 counts from 1900, and a date in the
    current month is never rejected. *)
Theorem report_date_is_checked_by_month_index
    rt env config validateRequired buildFilterParams sales finance
    c v c' v' year month w :
  salesVendor config sales = Some (c :: v) ->
  salesRequired validateRequired sales = None ->
  financeVendor config finance = Some (c' :: v') ->
  financeRequired validateRequired finance = None ->
  finance_reportDate finance = sales_reportDate sales ->
  RegExp.test datePattern (sales_reportDate sales) = true ->
  written (sales_reportDate sales) = Some (year, month) ->
  AnalyticsHandlers.downloadSalesReport rt env config validateRequired
      buildFilterParams sales w
  = (if (local_month env <? monthIndexOf year month)%Z
     then (Thrown (futureDateError (js "sales") (js "Sales") (sales_reportDate sales)), w)
     else DirectClient.downloadReport rt env (js "/salesReports")
            (Some (buildFilterParams (AnalyticsHandlers.salesFilters sales (c :: v)))) w) /\
  AnalyticsHandlers.downloadFinanceReport rt env config validateRequired
      buildFilterParams finance w
  = (if (local_month env <? monthIndexOf year month)%Z
     then (Thrown (futureDateError (js "finance") (js "Finance")
                     (sales_reportDate sales)), w)
     else DirectClient.downloadReport rt env (js "/financeReports")
            (Some (buildFilterParams
                     (AnalyticsHandlers.financeFilters finance (c' :: v')))) w).
Proof.
  intros Hsv Hsr Hfv Hfr Hsame Htest Hwritten.
  rewrite downloadSalesReport_eq, downloadFinanceReport_eq.
  rewrite Hsv, Hsr, Hfv, Hfr, Hsame.
  rewrite !(checkReportDate_month_index _ _ _ _ _ _ _ Htest Hwritten).
  destruct (_ <? _)%Z; split; reflexivity.
Qed.

Lemma report_date_is_checked_by_month_index_witness :
  monthIndexOf 2024 13 = (12 * 2025)%Z /\
  AnalyticsHandlers.downloadSalesReport Node.runtime Scenario.idle Scenario.config
    Utils.validateRequired Utils.buildFilterParams (Scenario.salesArgs "2024-13")
    Scenario.emptyWorld
  = (if (local_month Scenario.idle <? monthIndexOf 2024 13)%Z
     then (Thrown (futureDateError (js "sales") (js "Sales") (js "2024-13")),
           Scenario.emptyWorld)
     else DirectClient.downloadReport Node.runtime Scenario.idle (js "/salesReports")
            (Some (Utils.buildFilterParams
                     (AnalyticsHandlers.salesFilters (Scenario.salesArgs "2024-13")
                        (js "85012345")))) Scenario.emptyWorld) /\
  AnalyticsHandlers.downloadFinanceReport Node.runtime Scenario.idle Scenario.config
    Utils.validateRequired Utils.buildFilterParams (Scenario.financeArgs "2024-13")
    Scenario.emptyWorld
  = (if (local_month Scenario.idle <? monthIndexOf 2024 13)%Z
     then (Thrown (futureDateError (js "finance") (js "Finance") (js "2024-13")),
           Scenario.emptyWorld)
     else DirectClient.downloadReport Node.runtime Scenario.idle (js "/financeReports")
            (Some (Utils.buildFilterParams
                     (AnalyticsHandlers.financeFilters (Scenario.financeArgs "2024-13")
                        (js "85012345")))) Scenario.emptyWorld).
Proof.
  split; [reflexivity|].
  apply (report_date_is_checked_by_month_index Node.runtime Scenario.idle
           Scenario.config Utils.validateRequired Utils.buildFilterParams
           (Scenario.salesArgs "2024-13") (Scenario.financeArgs "2024-13")
           0x38 (js "5012345") 0x38 (js "5012345") 2024%Z 13%Z Scenario.emptyWorld);
    reflexivity.
Defined.
(** ** The in-memory report download *)

(** A [catch] that rethrows what it caught changes nothing. *)
Lemma try_catch_rethrow {A} (m : M A) w :
  try_catch m (fun error => throw error) w = m w.
Proof. unfold try_catch, throw. destruct (m w) as [[a|e] w']; reflexivity. Qed.

Lemma downloadReport_run rt env url params w token response :
  authService_generateToken env = Returned token ->
  axios_adapter env (DirectClient.reportConfig token url params) = Returned response ->
  DirectClient.downloadReport rt env url params w
  = (let* buffer := DirectClient.Buffer_from rt (resp_data response) in
     DirectClient.resolveBuffer rt buffer)
      (afterCall w (DirectClient.reportConfig token url params)).
Proof.
  intros Htoken Hanswer.
  unfold DirectClient.downloadReport, generateToken, axios_request.
  unfold bind at 1. unfold bind at 1. unfold log at 1. unfold lift at 1.
  rewrite Htoken, try_catch_rethrow.
  unfold bind at 1. unfold bind at 1. unfold log at 1. unfold lift at 1.
  cbn [files calls]. rewrite Hanswer. unfold afterCall. rewrite <- app_assoc.
  reflexivity.
Qed.

(** X11: [downloadReport] returns a gzip response as the UTF-8 text of
    whatever [gunzipSync] yields, and any other buffer as its UTF-8 text;
    it fails only if [gunzipSync] does. Unlike the staging client it
    applies no check to the text: empty output and output with NUL
    characters are returned. *)
Theorem downloadReport_decodes_without_validation
    rt env url params w token response buffer :
  authService_generateToken env = Returned token ->
  axios_adapter env (DirectClient.reportConfig token url params) = Returned response ->
  resp_data response = DBuffer buffer \/ resp_data response = DArrayBuffer buffer ->
  DirectClient.downloadReport rt env url params w
  = (if Buf.isGzipped buffer then
       match gunzipSync rt buffer with
       | Returned data => Returned (ReportData (Buf.toString data))
       | Thrown e => Thrown e
       end
     else Returned (ReportData (Buf.toString buffer)),
     afterCall w (DirectClient.reportConfig token url params)).
Proof.
  intros Htoken Hanswer Hdata.
  rewrite (downloadReport_run _ _ _ _ _ _ _ Htoken Hanswer).
  unfold bind at 1.
  destruct Hdata as [-> | ->]; cbn [DirectClient.Buffer_from ret];
    apply direct_resolveBuffer_eq.
Qed.

Lemma downloadReport_decodes_without_validation_witness :
  DirectClient.downloadReport Node.runtime (Samples.answering (DBuffer Scenario.emptyGz))
    (js "/salesReports") None Scenario.emptyWorld
  = (if Buf.isGzipped Scenario.emptyGz then
       match gunzipSync Node.runtime Scenario.emptyGz with
       | Returned data => Returned (ReportData (Buf.toString data))
       | Thrown e => Thrown e
       end
     else Returned (ReportData (Buf.toString Scenario.emptyGz)),
     afterCall Scenario.emptyWorld
       (DirectClient.reportConfig (js "token") (js "/salesReports") None)).
Proof.
  apply (downloadReport_decodes_without_validation Node.runtime
           (Samples.answering (DBuffer Scenario.emptyGz))
           (js "/salesReports") None Scenario.emptyWorld (js "token")
           {| resp_status := 200; resp_headers := [];
              resp_data := DBuffer Scenario.emptyGz |}
           Scenario.emptyGz);
    solve [reflexivity | left; reflexivity].
Defined.

(** ** The app handlers *)

Lemma checkIncludes_eq include w :
  AppHandlers.checkIncludes include w
  = match List.filter (fun inc => negb (AppHandlers.isValidInclude inc))
            (default [] include) with
    | [] => (Returned tt, w)
    | invalid => (Thrown (AppHandlers.invalidIncludeError invalid), w)
    end.
Proof.
  unfold AppHandlers.checkIncludes, AppHandlers.hasLength.
  destruct include as [[|inc include]|]; try reflexivity.
  cbn [default]. destruct (List.filter _ _); reflexivity.
Qed.

Lemma filter_invalid_nil include :
  List.filter (fun inc => negb (AppHandlers.isValidInclude inc)) include = [] <->
  Forall (fun inc => inc ∈ VALID_APP_INCLUDES) include.
Proof.
  unfold AppHandlers.isValidInclude. induction include as [|inc include IH]; cbn.
  - split; [constructor|reflexivity].
  - rewrite Forall_cons_iff, <- IH. case_bool_decide; cbn.
    + tauto.
    + split; [discriminate|tauto].
Qed.

(** [getAppInfo] once its required-field check has passed. *)
Lemma getAppInfo_run client_get validateRequired args w :
  validateRequired (AppHandlers.argsObject args) [js "appId"] = None ->
  let include := default [] (appInfo_include args) in
  (Forall (fun inc => inc ∈ VALID_APP_INCLUDES) include ->
     AppHandlers.getAppInfo client_get validateRequired args w
     = client_get (js "/apps/" ++ appInfo_appId args)
         (Some match include with
               | [] => []
               | _ => [(js "include", JStr (Json.join (js ",") include))]
               end) w) /\
  (~ Forall (fun inc => inc ∈ VALID_APP_INCLUDES) include ->
     AppHandlers.getAppInfo client_get validateRequired args w
     = (Thrown (AppHandlers.invalidIncludeError
                  (List.filter (fun inc => negb (AppHandlers.isValidInclude inc))
                     include)), w)).
Proof.
  intros Hrequired include.
  assert (Hrun :
    AppHandlers.getAppInfo client_get validateRequired args w
    = match List.filter (fun inc => negb (AppHandlers.isValidInclude inc)) include with
      | [] => client_get (js "/apps/" ++ appInfo_appId args)
                (Some (AppHandlers.includeParams (appInfo_include args))) w
      | invalid => (Thrown (AppHandlers.invalidIncludeError invalid), w)
      end).
  { unfold AppHandlers.getAppInfo, AnalyticsHandlers.runValidateRequired.
    rewrite Hrequired. unfold bind at 1. unfold ret at 1.
    unfold bind at 1. rewrite checkIncludes_eq. fold include.
    destruct (List.filter _ include); reflexivity. }
  rewrite Hrun. clear Hrun.
  pose proof (filter_invalid_nil include) as Hnil.
  split.
  - intros Hvalid. apply Hnil in Hvalid. rewrite Hvalid.
    unfold AppHandlers.includeParams, AppHandlers.hasLength. subst include.
    destruct (appInfo_include args) as [[|inc rest]|]; reflexivity.
  - intros Hinvalid.
    destruct (List.filter _ include) eqn:Hfilter; [|reflexivity].
    exfalso. apply Hinvalid, Hnil. reflexivity.
Qed.

(** X12: once its required-field check has passed, [getAppInfo] calls the
    client only if every requested include is one of
    [VALID_APP_INCLUDES], and then asks for [/apps/<appId>] with the
    includes joined by commas (no [include] parameter when none is
    requested); otherwise it fails, without any call, with an error that
    lists exactly the invalid includes, in the order given. *)
Theorem getAppInfo_forwards_only_valid_includes
    client_get validateRequired args w :
  validateRequired (AppHandlers.argsObject args) [js "appId"] = None ->
  let include := default [] (appInfo_include args) in
  (Forall (fun inc => inc ∈ VALID_APP_INCLUDES) include ->
     AppHandlers.getAppInfo client_get validateRequired args w
     = client_get (js "/apps/" ++ appInfo_appId args)
         (Some match include with
               | [] => []
               | _ => [(js "include", JStr (Json.join (js ",") include))]
               end) w) /\
  (~ Forall (fun inc => inc ∈ VALID_APP_INCLUDES) include ->
     AppHandlers.getAppInfo client_get validateRequired args w
     = (Thrown (AppHandlers.invalidIncludeError
                  (List.filter (fun inc => bool_decide (inc ∉ VALID_APP_INCLUDES))
                     include)), w)).
Proof.
  intros Hrequired include.
  destruct (getAppInfo_run client_get validateRequired args w Hrequired)
    as [Hvalid Hinvalid].
  split; [exact Hvalid|].
  intros Hsome. rewrite (Hinvalid Hsome). do 3 f_equal.
  apply filter_ext. intros inc. unfold AppHandlers.isValidInclude.
  repeat case_bool_decide; done.
Qed.

Lemma getAppInfo_forwards_only_valid_includes_witness :
  let args := Samples.appInfoArgs ["builds"; "customerReviews"; "prices"; "perfPowerMetrics"]%string in
  let include := default [] (appInfo_include args) in
  (Forall (fun inc => inc ∈ VALID_APP_INCLUDES) include ->
     AppHandlers.getAppInfo (DirectMethods.get Scenario.idle) Utils.validateRequired
       args Scenario.emptyWorld
     = DirectMethods.get Scenario.idle (js "/apps/" ++ appInfo_appId args)
         (Some match include with
               | [] => []
               | _ => [(js "include", JStr (Json.join (js ",") include))]
               end) Scenario.emptyWorld) /\
  (~ Forall (fun inc => inc ∈ VALID_APP_INCLUDES) include ->
     AppHandlers.getAppInfo (DirectMethods.get Scenario.idle) Utils.validateRequired
       args Scenario.emptyWorld
     = (Thrown (AppHandlers.invalidIncludeError
                  (List.filter (fun inc => bool_decide (inc ∉ VALID_APP_INCLUDES))
                     include)), Scenario.emptyWorld)).
Proof.
  apply (getAppInfo_forwards_only_valid_includes (DirectMethods.get Scenario.idle)
           Utils.validateRequired
           (Samples.appInfoArgs ["builds"; "customerReviews"; "prices"; "perfPowerMetrics"]%string)
           Scenario.emptyWorld).
  reflexivity.
Defined.
(** ** The tool cases *)

Lemma respond_eq rt handler w :
  ToolCases.respond rt handler w
  = (Returned match (handler w).1 with
              | Returned result =>
                  Server.formatToolResponse rt (resultValue result) None
              | Thrown error => Server.formatToolResponse rt JNull (Some error)
              end, (handler w).2).
Proof.
  unfold ToolCases.respond, try_catch, bind, ret.
  destruct (handler w) as [[result|error] w']; reflexivity.
Qed.

(** X13: a tool case never throws. Whatever its handler does, the case
    returns a response with exactly one content item of type [text], in
    the world the handler left; the response is flagged [isError: true]
    exactly when the handler threw and carries no flag exactly when it
    returned. *)
Theorem tool_case_answers_and_flags_failures rt handler w :
  exists response,
    ToolCases.respond rt handler w = (Returned response, (handler w).2) /\
    (exists text,
       content response = [{| content_type := js "text"; content_text := text |}]) /\
    (isError response = Some true <-> exists error, (handler w).1 = Thrown error) /\
    (isError response = None <-> exists result, (handler w).1 = Returned result).
Proof.
  rewrite respond_eq. eexists. split; [reflexivity|].
  destruct (handler w) as [[result|error] w']; cbn.
  - repeat split; eauto; try discriminate; intros [? ?]; discriminate.
  - repeat split; eauto; try discriminate; intros [? ?]; discriminate.
Qed.

(** X14: without a vendor number in the process configuration (absent or
    empty), the cases [download_sales_report] and
    [download_finance_report] answer with an error response carrying the
    message of the [McpError] "... reports are not available. ...", and do
    nothing else: the handler is not run, no token is generated and no
    call is made, even when the arguments bring a vendor number. *)
Theorem report_cases_need_a_configured_vendor
    rt env config validateRequired buildFilterParams McpError_message sales finance w :
  config_vendorNumber config = None \/ config_vendorNumber config = Some [] ->
  ToolCases.download_sales_report rt env config validateRequired buildFilterParams
      McpError_message sales w
  = (Returned (errorResponse (JStr (McpError_message MethodNotFound
       (js "Sales reports are not available. Please set APP_STORE_CONNECT_VENDOR_NUMBER environment variable.")))),
     w) /\
  ToolCases.download_finance_report rt env config validateRequired buildFilterParams
      McpError_message finance w
  = (Returned (errorResponse (JStr (McpError_message MethodNotFound
       (js "Finance reports are not available. Please set APP_STORE_CONNECT_VENDOR_NUMBER environment variable.")))),
     w).
Proof.
  intros Hvendor.
  unfold ToolCases.download_sales_report, ToolCases.download_finance_report.
  rewrite !respond_eq. unfold ToolCases.requireConfiguredVendor.
  destruct Hvendor as [-> | ->]; split; reflexivity.
Qed.

Lemma report_cases_need_a_configured_vendor_witness :
  ToolCases.download_sales_report Node.runtime Scenario.idle Samples.unconfigured
    Utils.validateRequired Utils.buildFilterParams Samples.McpError_message
    (Samples.salesArgsWithVendor "2024-01") Scenario.emptyWorld
  = (Returned (errorResponse (JStr (Samples.McpError_message MethodNotFound
       (js "Sales reports are not available. Please set APP_STORE_CONNECT_VENDOR_NUMBER environment variable.")))),
     Scenario.emptyWorld) /\
  ToolCases.download_finance_report Node.runtime Scenario.idle Samples.unconfigured
    Utils.validateRequired Utils.buildFilterParams Samples.McpError_message
    (Samples.financeArgsWithVendor "2024-01") Scenario.emptyWorld
  = (Returned (errorResponse (JStr (Samples.McpError_message MethodNotFound
       (js "Finance reports are not available. Please set APP_STORE_CONNECT_VENDOR_NUMBER environment variable.")))),
     Scenario.emptyWorld).
Proof.
  apply (report_cases_need_a_configured_vendor Node.runtime Scenario.idle
           Samples.unconfigured Utils.validateRequired Utils.buildFilterParams
           Samples.McpError_message (Samples.salesArgsWithVendor "2024-01")
           (Samples.financeArgsWithVendor "2024-01") Scenario.emptyWorld).
  left. reflexivity.
Defined.

(** With a vendor number configured and the guards passed, the sales case
    is the report download, answered. *)
Lemma sales_case_proceeds
    rt env config validateRequired buildFilterParams McpError_message args
    c0 v0 c v year month w :
  config_vendorNumber config = Some (c0 :: v0) ->
  salesVendor (Some config) args = Some (c :: v) ->
  salesRequired validateRequired args = None ->
  RegExp.test datePattern (sales_reportDate args) = true ->
  written (sales_reportDate args) = Some (year, month) ->
  (monthIndexOf year month <= local_month env)%Z ->
  ToolCases.download_sales_report rt env config validateRequired buildFilterParams
      McpError_message args w
  = ToolCases.respond rt
      (DirectClient.downloadReport rt env (js "/salesReports")
         (Some (buildFilterParams (AnalyticsHandlers.salesFilters args (c :: v))))) w.
Proof.
  intros Hconfig Hvendor Hrequired Htest Hwritten Hpast.
  unfold ToolCases.download_sales_report.
  assert (Hrun : forall A (m : M A),
            (ToolCases.requireConfiguredVendor config McpError_message "Sales" ;; m) w
            = m w).
  { intros A m. unfold ToolCases.requireConfiguredVendor. rewrite Hconfig.
    reflexivity. }
  rewrite !respond_eq, Hrun.
  rewrite downloadSalesReport_eq, Hvendor, Hrequired.
  rewrite (checkReportDate_month_index _ _ _ _ _ _ _ Htest Hwritten).
  replace (local_month env <? monthIndexOf year month)%Z with false
    by (symmetry; apply Z.ltb_ge; assumption).
  reflexivity.
Qed.

Lemma finance_case_proceeds
    rt env config validateRequired buildFilterParams McpError_message args
    c0 v0 c v year month w :
  config_vendorNumber config = Some (c0 :: v0) ->
  financeVendor (Some config) args = Some (c :: v) ->
  financeRequired validateRequired args = None ->
  RegExp.test datePattern (finance_reportDate args) = true ->
  written (finance_reportDate args) = Some (year, month) ->
  (monthIndexOf year month <= local_month env)%Z ->
  ToolCases.download_finance_report rt env config validateRequired buildFilterParams
      McpError_message args w
  = ToolCases.respond rt
      (DirectClient.downloadReport rt env (js "/financeReports")
         (Some (buildFilterParams (AnalyticsHandlers.financeFilters args (c :: v))))) w.
Proof.
  intros Hconfig Hvendor Hrequired Htest Hwritten Hpast.
  unfold ToolCases.download_finance_report.
  assert (Hrun : forall A (m : M A),
            (ToolCases.requireConfiguredVendor config McpError_message "Finance" ;; m) w
            = m w).
  { intros A m. unfold ToolCases.requireConfiguredVendor. rewrite Hconfig.
    reflexivity. }
  rewrite !respond_eq, Hrun.
  rewrite downloadFinanceReport_eq, Hvendor, Hrequired.
  rewrite (checkReportDate_month_index _ _ _ _ _ _ _ Htest Hwritten).
  replace (local_month env <? monthIndexOf year month)%Z with false
    by (symmetry; apply Z.ltb_ge; assumption).
  reflexivity.
Qed.

Lemma downloadReport_transport_failure rt env url params w token e :
  authService_generateToken env = Returned token ->
  axios_adapter env (DirectClient.reportConfig token url params) = Thrown e ->
  DirectClient.downloadReport rt env url params w
  = (Thrown e, afterCall w (DirectClient.reportConfig token url params)).
Proof.
  intros Htoken Hfail.
  unfold DirectClient.downloadReport, generateToken, axios_request.
  unfold bind at 1. unfold bind at 1. unfold log at 1. unfold lift at 1.
  rewrite Htoken, try_catch_rethrow.
  unfold bind at 1. unfold bind at 1. unfold log at 1. unfold lift at 1.
  cbn [files calls]. rewrite Hfail. unfold afterCall. rewrite <- app_assoc.
  reflexivity.
Qed.

(** What the classifier says of a 404 on a path with a report segment. *)
Lemma report_404_text rt error details response config :
  axios error = Some details ->
  ax_response details = Some response ->
  resp_status response = 404%Z ->
  ax_config details = Some config ->
  Server.errorMessageOf rt error
  = if Js.includes (cfg_url config) (js "/salesReports")
    then JStr Server.salesReportNotFound
    else if Js.includes (cfg_url config) (js "/financeReports")
         then JStr Server.financeReportNotFound
         else Val.or (Val.optGet (Server.apiErrorOf details) (js "detail"))
                (JStr (js "Resource not found (404): " ++ cfg_url config)).
Proof.
  intros Haxios Hresponse Hstatus Hconfig.
  unfold Server.errorMessageOf. rewrite Haxios.
  unfold Server.statusOf, Server.urlIncludes, Server.showUrl.
  rewrite Hresponse, Hconfig. cbn [option_map Server.statusIs].
  rewrite Hstatus. reflexivity.
Qed.

(** X15: end to end, a [download_sales_report] call that passes the
    guards (vendor number configured, required fields present, date well
    formed and not after the current month) and whose request the remote
    service answers with status 404 ends in an error response whose text
    is the sales-report explanation, after one token generation and the
    one call to [/salesReports]. *)
Theorem sales_case_remote_404_names_the_causes
    rt env config validateRequired buildFilterParams McpError_message args
    c0 v0 c v year month token e details response w :
  let request :=
    DirectClient.reportConfig token (js "/salesReports")
      (Some (buildFilterParams (AnalyticsHandlers.salesFilters args (c :: v)))) in
  config_vendorNumber config = Some (c0 :: v0) ->
  salesVendor (Some config) args = Some (c :: v) ->
  salesRequired validateRequired args = None ->
  RegExp.test datePattern (sales_reportDate args) = true ->
  written (sales_reportDate args) = Some (year, month) ->
  (monthIndexOf year month <= local_month env)%Z ->
  authService_generateToken env = Returned token ->
  axios_adapter env request = Thrown e ->
  axios e = Some details ->
  ax_response details = Some response ->
  resp_status response = 404%Z ->
  ax_config details = Some request ->
  ToolCases.download_sales_report rt env config validateRequired buildFilterParams
      McpError_message args w
  = (Returned (errorResponse (JStr Server.salesReportNotFound)), afterCall w request).
Proof.
  intros request Hconfig Hvendor Hrequired Htest Hwritten Hpast Htoken Hfail
    Haxios Hresponse Hstatus Hrequest.
  rewrite (sales_case_proceeds _ _ _ _ _ _ _ _ _ _ _ _ _ _
             Hconfig Hvendor Hrequired Htest Hwritten Hpast).
  rewrite respond_eq, (downloadReport_transport_failure _ _ _ _ _ _ _ Htoken Hfail).
  cbn [fst snd]. unfold Server.formatToolResponse.
  rewrite (report_404_text _ _ _ _ _ Haxios Hresponse Hstatus Hrequest).
  reflexivity.
Qed.

Lemma sales_case_remote_404_names_the_causes_witness :
  ToolCases.download_sales_report Node.runtime (Samples.refusing 404) Samples.config
    Utils.validateRequired Utils.buildFilterParams Samples.McpError_message
    (Scenario.salesArgs "2024-01") Scenario.emptyWorld
  = (Returned (errorResponse (JStr Server.salesReportNotFound)),
     afterCall Scenario.emptyWorld
       (DirectClient.reportConfig (js "token") (js "/salesReports")
          (Some (Utils.buildFilterParams
                   (AnalyticsHandlers.salesFilters (Scenario.salesArgs "2024-01")
                      (js "85012345")))))).
Proof.
  apply (sales_case_remote_404_names_the_causes Node.runtime (Samples.refusing 404)
           Samples.config Utils.validateRequired Utils.buildFilterParams
           Samples.McpError_message (Scenario.salesArgs "2024-01")
           0x38 (js "5012345") 0x38 (js "5012345") 2024%Z 1%Z (js "token")
           (Samples.httpError 404
              (DirectClient.reportConfig (js "token") (js "/salesReports")
                 (Some (Utils.buildFilterParams
                          (AnalyticsHandlers.salesFilters (Scenario.salesArgs "2024-01")
                             (js "85012345"))))))
           (Samples.httpDetails 404
              (DirectClient.reportConfig (js "token") (js "/salesReports")
                 (Some (Utils.buildFilterParams
                          (AnalyticsHandlers.salesFilters (Scenario.salesArgs "2024-01")
                             (js "85012345"))))))
           (Samples.httpResponse 404) Scenario.emptyWorld);
    solve [reflexivity | vm_compute; discriminate].
Defined.

(** X16: end to end, a [download_finance_report] call that passes the
    guards and whose request the remote service answers with status 404
    ends in an error response whose text is the finance-report
    explanation, which names the missing financial data and the
    availability after the 5th of the following month. *)
Theorem finance_case_remote_404_names_the_causes
    rt env config validateRequired buildFilterParams McpError_message args
    c0 v0 c v year month token e details response w :
  let request :=
    DirectClient.reportConfig token (js "/financeReports")
      (Some (buildFilterParams (AnalyticsHandlers.financeFilters args (c :: v)))) in
  config_vendorNumber config = Some (c0 :: v0) ->
  financeVendor (Some config) args = Some (c :: v) ->
  financeRequired validateRequired args = None ->
  RegExp.test datePattern (finance_reportDate args) = true ->
  written (finance_reportDate args) = Some (year, month) ->
  (monthIndexOf year month <= local_month env)%Z ->
  authService_generateToken env = Returned token ->
  axios_adapter env request = Thrown e ->
  axios e = Some details ->
  ax_response details = Some response ->
  resp_status response = 404%Z ->
  ax_config details = Some request ->
  ToolCases.download_finance_report rt env config validateRequired buildFilterParams
      McpError_message args w
  = (Returned (errorResponse (JStr Server.financeReportNotFound)), afterCall w request) /\
  Js.includes Server.financeReportNotFound
    (js "No financial data exists for the requested period") = true /\
  Js.includes Server.financeReportNotFound
    (js "after the 5th of the following month") = true.
Proof.
  intros request Hconfig Hvendor Hrequired Htest Hwritten Hpast Htoken Hfail
    Haxios Hresponse Hstatus Hrequest.
  split; [|split; vm_compute; reflexivity].
  rewrite (finance_case_proceeds _ _ _ _ _ _ _ _ _ _ _ _ _ _
             Hconfig Hvendor Hrequired Htest Hwritten Hpast).
  rewrite respond_eq, (downloadReport_transport_failure _ _ _ _ _ _ _ Htoken Hfail).
  cbn [fst snd]. unfold Server.formatToolResponse.
  rewrite (report_404_text _ _ _ _ _ Haxios Hresponse Hstatus Hrequest).
  reflexivity.
Qed.

Lemma finance_case_remote_404_names_the_causes_witness :
  ToolCases.download_finance_report Node.runtime (Samples.refusing 404) Samples.config
    Utils.validateRequired Utils.buildFilterParams Samples.McpError_message
    (Scenario.financeArgs "2024-01") Scenario.emptyWorld
  = (Returned (errorResponse (JStr Server.financeReportNotFound)),
     afterCall Scenario.emptyWorld
       (DirectClient.reportConfig (js "token") (js "/financeReports")
          (Some (Utils.buildFilterParams
                   (AnalyticsHandlers.financeFilters (Scenario.financeArgs "2024-01")
                      (js "85012345")))))) /\
  Js.includes Server.financeReportNotFound
    (js "No financial data exists for the requested period") = true /\
  Js.includes Server.financeReportNotFound
    (js "after the 5th of the following month") = true.
Proof.
  apply (finance_case_remote_404_names_the_causes Node.runtime (Samples.refusing 404)
           Samples.config Utils.validateRequired Utils.buildFilterParams
           Samples.McpError_message (Scenario.financeArgs "2024-01")
           0x38 (js "5012345") 0x38 (js "5012345") 2024%Z 1%Z (js "token")
           (Samples.httpError 404
              (DirectClient.reportConfig (js "token") (js "/financeReports")
                 (Some (Utils.buildFilterParams
                          (AnalyticsHandlers.financeFilters
                             (Scenario.financeArgs "2024-01") (js "85012345"))))))
           (Samples.httpDetails 404
              (DirectClient.reportConfig (js "token") (js "/financeReports")
                 (Some (Utils.buildFilterParams
                          (AnalyticsHandlers.financeFilters
                             (Scenario.financeArgs "2024-01") (js "85012345"))))))
           (Samples.httpResponse 404) Scenario.emptyWorld);
    solve [reflexivity | vm_compute; discriminate].
Defined.

(** X17: when a handler fails with an axios error that carries no response
    (the remote host was not reached), the tool case answers with the text
    "Request failed with status undefined: " followed by the error's
    message. *)
Theorem failure_without_response_shows_undefined_status rt handler w e details :
  (handler w).1 = Thrown e ->
  axios e = Some details ->
  ax_response details = None ->
  ToolCases.respond rt handler w
  = (Returned (errorResponse
                 (JStr (js "Request failed with status undefined: " ++ message e))),
     (handler w).2).
Proof.
  intros Hthrown Haxios Hresponse.
  rewrite respond_eq, Hthrown.
  unfold Server.formatToolResponse, Server.errorMessageOf.
  rewrite Haxios. unfold Server.statusOf, Server.apiErrorOf. rewrite Hresponse.
  reflexivity.
Qed.

Lemma failure_without_response_shows_undefined_status_witness :
  ToolCases.respond Node.runtime
    (DirectClient.downloadReport Node.runtime Samples.offline (js "/salesReports") None)
    Scenario.emptyWorld
  = (Returned (errorResponse
                 (JStr (js "Request failed with status undefined: " ++
                        message Samples.unreachable))),
     (DirectClient.downloadReport Node.runtime Samples.offline (js "/salesReports") None
        Scenario.emptyWorld).2).
Proof.
  apply (failure_without_response_shows_undefined_status Node.runtime
           (DirectClient.downloadReport Node.runtime Samples.offline
              (js "/salesReports") None)
           Scenario.emptyWorld Samples.unreachable
           Samples.noResponse);
    reflexivity.
Defined.

(** X18: end to end, with a vendor number configured and the
    required-field check passed, [download_sales_report] answers a report
    date that does not match the pattern with an error response carrying
    the format message, and a date after the current month with an error
    response carrying the future-date message that quotes the date; in
    both cases nothing is logged: no token is generated, no call made. *)
Theorem sales_case_reports_rejected_dates
    rt env config validateRequired buildFilterParams McpError_message args
    c0 v0 c v w :
  config_vendorNumber config = Some (c0 :: v0) ->
  salesVendor (Some config) args = Some (c :: v) ->
  salesRequired validateRequired args = None ->
  (RegExp.test datePattern (sales_reportDate args) = false ->
     ToolCases.download_sales_report rt env config validateRequired buildFilterParams
         McpError_message args w
     = (Returned (errorResponse
          (JStr (js "Report date must be in YYYY-MM format (e.g., 2024-01)"))), w)) /\
  (forall year month,
     RegExp.test datePattern (sales_reportDate args) = true ->
     written (sales_reportDate args) = Some (year, month) ->
     (local_month env < monthIndexOf year month)%Z ->
     ToolCases.download_sales_report rt env config validateRequired buildFilterParams
         McpError_message args w
     = (Returned (errorResponse
          (JStr (js "Cannot request sales report for future date: " ++
                 sales_reportDate args ++
                 js ". Sales reports are only available for past months."))), w)).
Proof.
  intros Hconfig Hvendor Hrequired.
  assert (Hrun : forall A (m : M A),
            (ToolCases.requireConfiguredVendor config McpError_message "Sales" ;; m) w
            = m w).
  { intros A m. unfold ToolCases.requireConfiguredVendor. rewrite Hconfig.
    reflexivity. }
  unfold ToolCases.download_sales_report. split.
  - intros Htest.
    rewrite respond_eq, Hrun, downloadSalesReport_eq, Hvendor, Hrequired.
    rewrite checkReportDate_malformed by assumption. reflexivity.
  - intros year month Htest Hwritten Hfuture.
    rewrite respond_eq, Hrun, downloadSalesReport_eq, Hvendor, Hrequired.
    rewrite (checkReportDate_month_index _ _ _ _ _ _ _ Htest Hwritten).
    replace (local_month env <? monthIndexOf year month)%Z with true
      by (symmetry; apply Z.ltb_lt; assumption).
    cbn [fst snd]. unfold Server.formatToolResponse, errorResponse.
    cbn [Server.errorMessageOf axios message futureDateError Error].
    unfold Js.lit. cbn. reflexivity.
Qed.

Lemma sales_case_reports_rejected_dates_witness :
  (RegExp.test datePattern (sales_reportDate (Scenario.salesArgs "2099-01")) = false ->
     ToolCases.download_sales_report Node.runtime Scenario.idle Samples.config
       Utils.validateRequired Utils.buildFilterParams Samples.McpError_message
       (Scenario.salesArgs "2099-01") Scenario.emptyWorld
     = (Returned (errorResponse
          (JStr (js "Report date must be in YYYY-MM format (e.g., 2024-01)"))),
        Scenario.emptyWorld)) /\
  (forall year month,
     RegExp.test datePattern (sales_reportDate (Scenario.salesArgs "2099-01")) = true ->
     written (sales_reportDate (Scenario.salesArgs "2099-01")) = Some (year, month) ->
     (local_month Scenario.idle < monthIndexOf year month)%Z ->
     ToolCases.download_sales_report Node.runtime Scenario.idle Samples.config
       Utils.validateRequired Utils.buildFilterParams Samples.McpError_message
       (Scenario.salesArgs "2099-01") Scenario.emptyWorld
     = (Returned (errorResponse
          (JStr (js "Cannot request sales report for future date: " ++
                 sales_reportDate (Scenario.salesArgs "2099-01") ++
                 js ". Sales reports are only available for past months."))),
        Scenario.emptyWorld)).
Proof.
  apply (sales_case_reports_rejected_dates Node.runtime Scenario.idle Samples.config
           Utils.validateRequired Utils.buildFilterParams Samples.McpError_message
           (Scenario.salesArgs "2099-01") 0x38 (js "5012345") 0x38 (js "5012345")
           Scenario.emptyWorld);
    reflexivity.
Defined.

(** X19: end to end, a [download_sales_report] call that passes the
    guards and whose response buffer decodes (through [gunzipSync] when
    it has the gzip magic number, as it is otherwise) is answered without
    error flag, with the text [JSON.stringify] gives for the object
    [{ data: text }], [text] being the UTF-8 text of the decoded bytes. *)
Theorem sales_case_returns_the_report_as_json
    rt env config validateRequired buildFilterParams McpError_message args
    c0 v0 c v year month token response buffer data w :
  let request :=
    DirectClient.reportConfig token (js "/salesReports")
      (Some (buildFilterParams (AnalyticsHandlers.salesFilters args (c :: v)))) in
  config_vendorNumber config = Some (c0 :: v0) ->
  salesVendor (Some config) args = Some (c :: v) ->
  salesRequired validateRequired args = None ->
  RegExp.test datePattern (sales_reportDate args) = true ->
  written (sales_reportDate args) = Some (year, month) ->
  (monthIndexOf year month <= local_month env)%Z ->
  authService_generateToken env = Returned token ->
  axios_adapter env request = Returned response ->
  resp_data response = DBuffer buffer \/ resp_data response = DArrayBuffer buffer ->
  (if Buf.isGzipped buffer then gunzipSync rt buffer else Returned buffer)
  = Returned data ->
  ToolCases.download_sales_report rt env config validateRequired buildFilterParams
      McpError_message args w
  = (Returned (textResponse
       (JStr (JSON_stringify rt (JObj [(js "data", JStr (Buf.toString data))])))),
     afterCall w request).
Proof.
  intros request Hconfig Hvendor Hrequired Htest Hwritten Hpast Htoken Hanswer
    Hdata Hdecoded.
  rewrite (sales_case_proceeds _ _ _ _ _ _ _ _ _ _ _ _ _ _
             Hconfig Hvendor Hrequired Htest Hwritten Hpast).
  rewrite respond_eq, (downloadReport_run _ _ _ _ _ _ _ Htoken Hanswer).
  fold request. unfold bind.
  assert (Hbuffer : forall w0,
            DirectClient.Buffer_from rt (resp_data response) w0 = (Returned buffer, w0))
    by (destruct Hdata as [-> | ->]; reflexivity).
  rewrite Hbuffer, direct_resolveBuffer_eq.
  destruct (Buf.isGzipped buffer); rewrite Hdecoded || injection Hdecoded as ->;
    reflexivity.
Qed.

Lemma sales_case_returns_the_report_as_json_witness :
  ToolCases.download_sales_report Node.runtime
    (Samples.answering (DBuffer Scenario.helloGz)) Samples.config
    Utils.validateRequired Utils.buildFilterParams Samples.McpError_message
    (Scenario.salesArgs "2024-01") Scenario.emptyWorld
  = (Returned (textResponse
       (JStr (JSON_stringify Node.runtime
                (JObj [(js "data", JStr (Buf.toString (Buf.ofString (js "hello"))))])))),
     afterCall Scenario.emptyWorld
       (DirectClient.reportConfig (js "token") (js "/salesReports")
          (Some (Utils.buildFilterParams
                   (AnalyticsHandlers.salesFilters (Scenario.salesArgs "2024-01")
                      (js "85012345")))))).
Proof.
  apply (sales_case_returns_the_report_as_json Node.runtime
           (Samples.answering (DBuffer Scenario.helloGz)) Samples.config
           Utils.validateRequired Utils.buildFilterParams Samples.McpError_message
           (Scenario.salesArgs "2024-01")
           0x38 (js "5012345") 0x38 (js "5012345") 2024%Z 1%Z (js "token")
           {| resp_status := 200; resp_headers := [];
              resp_data := DBuffer Scenario.helloGz |}
           Scenario.helloGz (Buf.ofString (js "hello")) Scenario.emptyWorld);
    solve [reflexivity | left; reflexivity | vm_compute; reflexivity
          | vm_compute; discriminate].
Defined.

(** ** The app cases *)

Lemma valid_include_nonempty inc : inc ∈ VALID_APP_INCLUDES -> inc <> [].
Proof.
  unfold VALID_APP_INCLUDES. cbn [map]. rewrite !elem_of_cons, elem_of_nil.
  intros H ->. repeat destruct H as [H | H]; try discriminate H. exact H.
Qed.

Lemma direct_get_transport_failure env url params w token e :
  authService_generateToken env = Returned token ->
  axios_adapter env (DirectClient.requestConfig token GET url JUndefined params)
  = Thrown e ->
  DirectMethods.get env url params w
  = (Thrown e, afterCall w (DirectClient.requestConfig token GET url JUndefined params)).
Proof.
  intros Htoken Hfail.
  unfold DirectMethods.get, DirectClient.request, generateToken, axios_request.
  unfold bind at 1. unfold bind at 1. unfold log at 1. unfold lift at 1.
  rewrite Htoken.
  unfold bind at 1. unfold bind at 1. unfold log at 1. unfold lift at 1.
  cbn [files calls]. rewrite Hfail. unfold afterCall. rewrite <- app_assoc.
  reflexivity.
Qed.

(** X20: a status 400 from the remote service is answered by
    [get_app_info], when valid includes were sent, with the
    invalid-relationship-includes explanation; the same status on
    [list_apps], whose path [/apps] lacks the trailing slash the
    classifier looks for, is answered with the remote detail if there is
    one and the generic invalid-parameters text otherwise. *)
Theorem app_cases_400_blames_includes_only_when_sent
    rt env validateRequired sanitizeLimit info list inc rest token e details response w :
  let infoRequest :=
    DirectClient.requestConfig token GET (js "/apps/" ++ appInfo_appId info) JUndefined
      (Some [(js "include", JStr (Json.join (js ",") (inc :: rest)))]) in
  let listRequest :=
    DirectClient.requestConfig token GET (js "/apps") JUndefined
      (Some [(js "limit", sanitizeLimit (default hundred (listApps_limit list)))]) in
  validateRequired (AppHandlers.argsObject info) [js "appId"] = None ->
  appInfo_include info = Some (inc :: rest) ->
  Forall (fun inc => inc ∈ VALID_APP_INCLUDES) (inc :: rest) ->
  authService_generateToken env = Returned token ->
  axios e = Some details ->
  ax_response details = Some response ->
  resp_status response = 400%Z ->
  (axios_adapter env infoRequest = Thrown e ->
   ax_config details = Some infoRequest ->
   ToolCases.get_app_info rt env validateRequired info w
   = (Returned (errorResponse (JStr Server.invalidIncludes)), afterCall w infoRequest)) /\
  (axios_adapter env listRequest = Thrown e ->
   ax_config details = Some listRequest ->
   ToolCases.list_apps rt env sanitizeLimit list w
   = (Returned (errorResponse
        (Val.or (Val.optGet (Server.apiErrorOf details) (js "detail"))
                (JStr Server.invalidParameters))),
      afterCall w listRequest)).
Proof.
  intros infoRequest listRequest Hrequired Hinclude Hvalid Htoken Haxios Hresponse
    Hstatus.
  split; intros Hfail Hconfig.
  - unfold ToolCases.get_app_info. rewrite respond_eq.
    destruct (getAppInfo_run (DirectMethods.get env) validateRequired info w Hrequired)
      as [Hrun _].
    rewrite Hinclude in Hrun. cbn [default] in Hrun. rewrite (Hrun Hvalid).
    rewrite (direct_get_transport_failure _ _ _ _ _ _ Htoken Hfail).
    cbn [fst snd]. unfold Server.formatToolResponse, Server.errorMessageOf.
    rewrite Haxios.
    unfold Server.statusOf, Server.urlIncludes, Server.includeParam.
    rewrite Hresponse, Hconfig. cbn [option_map Server.statusIs]. rewrite Hstatus.
    cbn [Z.eqb Pos.eqb infoRequest DirectClient.requestConfig cfg_url cfg_params].
    replace (Js.includes (js "/apps/" ++ appInfo_appId info) (js "/apps/")) with true
      by (symmetry; apply includes_spec; exists [], (appInfo_appId info); reflexivity).
    cbn [Val.field]. rewrite decide_True by reflexivity.
    apply Forall_cons in Hvalid as [Hinc _]. apply valid_include_nonempty in Hinc.
    destruct inc as [|ch inc]; [done|].
    destruct rest; reflexivity.
  - unfold ToolCases.list_apps, AppHandlers.listApps. rewrite respond_eq.
    rewrite (direct_get_transport_failure _ _ _ _ _ _ Htoken Hfail).
    cbn [fst snd]. unfold Server.formatToolResponse, Server.errorMessageOf.
    rewrite Haxios.
    unfold Server.statusOf, Server.urlIncludes, Server.includeParam.
    rewrite Hresponse, Hconfig. cbn [option_map Server.statusIs]. rewrite Hstatus.
    cbn [Z.eqb Pos.eqb listRequest DirectClient.requestConfig cfg_url cfg_params].
    replace (Js.includes (js "/apps") (js "/apps/")) with false
      by (vm_compute; reflexivity).
    reflexivity.
Qed.

Lemma app_cases_400_blames_includes_only_when_sent_witness :
  let infoRequest :=
    DirectClient.requestConfig (js "token") GET (js "/apps/" ++ js "1234567890")
      JUndefined (Some [(js "include", JStr (js "builds,prices"))]) in
  let listRequest :=
    DirectClient.requestConfig (js "token") GET (js "/apps") JUndefined
      (Some [(js "limit", hundred)]) in
  ToolCases.get_app_info Node.runtime (Samples.refusing 400) Utils.validateRequired
    (Samples.appInfoArgs ["builds"; "prices"]%string) Scenario.emptyWorld
  = (Returned (errorResponse (JStr Server.invalidIncludes)),
     afterCall Scenario.emptyWorld infoRequest) /\
  ToolCases.list_apps Node.runtime (Samples.refusing 400) Samples.sanitizeLimit
    Samples.listAppsArgs Scenario.emptyWorld
  = (Returned (errorResponse (JStr Server.invalidParameters)),
     afterCall Scenario.emptyWorld listRequest).
Proof.
  intros infoRequest listRequest.
  split.
  - apply (app_cases_400_blames_includes_only_when_sent Node.runtime
             (Samples.refusing 400) Utils.validateRequired Samples.sanitizeLimit
             (Samples.appInfoArgs ["builds"; "prices"]%string) Samples.listAppsArgs
             (js "builds") [js "prices"] (js "token")
             (Samples.httpError 400 infoRequest) (Samples.httpDetails 400 infoRequest)
             (Samples.httpResponse 400) Scenario.emptyWorld);
      try reflexivity.
    repeat constructor; vm_compute; set_solver.
  - apply (app_cases_400_blames_includes_only_when_sent Node.runtime
             (Samples.refusing 400) Utils.validateRequired Samples.sanitizeLimit
             (Samples.appInfoArgs ["builds"; "prices"]%string) Samples.listAppsArgs
             (js "builds") [js "prices"] (js "token")
             (Samples.httpError 400 listRequest) (Samples.httpDetails 400 listRequest)
             (Samples.httpResponse 400) Scenario.emptyWorld);
      try reflexivity.
    repeat constructor; vm_compute; set_solver.
Defined.

(** ** The credential on outgoing calls *)

(** X21: with a token issued, every entry point of both clients logs the
    token generation and then exactly one call, and that call carries the
    token verbatim, as [Bearer <token>], in its [Authorization] header,
    whatever the method, the path (absolute addresses passed to
    [downloadFromUrl] included), the body and the parameters. *)
Theorem every_call_carries_the_bearer_token rt env token w :
  authService_generateToken env = Returned token ->
  (forall method url data params,
     exists config,
       calls (StagingClient.request rt env method url data params w).2
       = calls w ++ [TokenGenerated; HttpCall config] /\
       cfg_url config = url /\
       headerOf (cfg_headers config) (js "Authorization")
       = Some (js "Bearer " ++ token)) /\
  (forall method url data params,
     exists config,
       calls (DirectClient.request env method url data params w).2
       = calls w ++ [TokenGenerated; HttpCall config] /\
       cfg_url config = url /\
       headerOf (cfg_headers config) (js "Authorization")
       = Some (js "Bearer " ++ token)) /\
  (forall url params,
     exists config,
       calls (DirectClient.downloadReport rt env url params w).2
       = calls w ++ [TokenGenerated; HttpCall config] /\
       cfg_url config = url /\
       headerOf (cfg_headers config) (js "Authorization")
       = Some (js "Bearer " ++ token)) /\
  (forall url,
     exists config,
       calls (downloadFromUrl env url w).2
       = calls w ++ [TokenGenerated; HttpCall config] /\
       cfg_url config = url /\ cfg_baseURL config = None /\
       headerOf (cfg_headers config) (js "Authorization")
       = Some (js "Bearer " ++ token)).
Proof.
  intros Htoken. split; [|split; [|split]].
  - intros method url data params.
    rewrite staging_request_calls, Htoken.
    eexists. split; [reflexivity|]. split; [reflexivity|].
    cbn [cfg_headers StagingClient.requestConfig]. unfold StagingClient.headers.
    destruct (StagingClient.isReportEndpoint url); vm_compute; reflexivity.
  - intros method url data params.
    rewrite direct_request_calls, Htoken.
    eexists. split; [reflexivity|]. split; [reflexivity|].
    vm_compute. reflexivity.
  - intros url params.
    rewrite downloadReport_calls. unfold reportCalls. rewrite Htoken.
    eexists. split; [reflexivity|]. split; [reflexivity|].
    vm_compute. reflexivity.
  - intros url.
    rewrite downloadFromUrl_calls, Htoken.
    eexists. split; [reflexivity|]. split; [reflexivity|]. split; [reflexivity|].
    vm_compute. reflexivity.
Qed.

Lemma every_call_carries_the_bearer_token_witness :
  exists config,
    calls (downloadFromUrl Scenario.idle (js "https://example.org/segment.gz")
             Scenario.emptyWorld).2
    = calls Scenario.emptyWorld ++ [TokenGenerated; HttpCall config] /\
    cfg_url config = js "https://example.org/segment.gz" /\
    cfg_baseURL config = None /\
    headerOf (cfg_headers config) (js "Authorization") = Some (js "Bearer " ++ js "token").
Proof.
  apply (every_call_carries_the_bearer_token Node.runtime Scenario.idle (js "token")
           Scenario.emptyWorld eq_refl).
Defined.
